(** * Weekly report generator: provider reconciliation pipeline

    A shallow embedding of [src/app.py] (the local Flask application) and of
    [src/api/index.py] (the serverless variant) and the properties of their
    report pipeline.

    Modelling conventions.
    - Python [str] values are sequences of code points; the development
      covers the code points below 256 (the Latin-1 range), represented by
      [ascii].  That range is closed under [str.lower], [str.strip],
      [str.split] and the regular expressions of the program.
    - A spreadsheet cell that pandas reports as missing ([pd.isna]) is
      [None]; a text cell is [Some t].
    - The floats that the duration parser returns are IEEE 754 binary64
      numbers ([SpecFloat]); the tables keep the exact value of each.
      The three rounded columns of the performance table, which pandas
      computes in floating point, are given by exact arithmetic and no
      statement below is about their digits.
    - A Python exception is a value [Raise e] of the [result] type. *)

From Stdlib Require Import List Ascii String Bool Arith ZArith QArith Lia.
From Stdlib Require Import Permutation Sorted Qround Qabs Lqa SpecFloat.
From Stdlib.Init Require Byte.
Import ListNotations.

Close Scope Q_scope.
Set Implicit Arguments.

(* ================================================================== *)
(** * Part I: definitions *)
(* ================================================================== *)

(** ** Text *)

Definition text := list ascii.

(** A literal of the source. *)
Definition str (s : string) : text := list_ascii_of_string s.

Definition code (c : ascii) : N := N_of_ascii c.

(** [str.isspace] on one code point below 256: TAB, LF, VT, FF, CR, the
    four separators FS GS RS US, SPACE, NEL and NO-BREAK SPACE.  The same
    set is what [\s] matches and what [strip] and [split] remove. *)
Definition isspace (c : ascii) : bool :=
  let n := code c in
  (((9 <=? n) && (n <=? 13)) || ((28 <=? n) && (n <=? 32))
   || (n =? 133) || (n =? 160))%N.

(** [str.lower] on one code point below 256. *)
Definition lower_char (c : ascii) : ascii :=
  let n := code c in
  if (((65 <=? n) && (n <=? 90))
      || ((192 <=? n) && (n <=? 222) && negb (n =? 215)))%N
  then ascii_of_N (n + 32) else c.

Definition lower (s : text) : text := map lower_char s.

(** [str.upper] on one code point below 256.  The sharp s becomes two
    letters; the upper-case forms of the micro sign and of y-diaeresis lie
    above 255 and are kept as they are, which changes no comparison with
    the ASCII words the program looks for. *)
Definition upper_char (c : ascii) : text :=
  let n := code c in
  if (((97 <=? n) && (n <=? 122))
      || ((224 <=? n) && (n <=? 254) && negb (n =? 247)))%N
  then [ascii_of_N (n - 32)]
  else if (n =? 223)%N then str "SS" else [c].

Definition upper (s : text) : text := flat_map upper_char s.

Fixpoint text_eqb (a b : text) : bool :=
  match a, b with
  | [], [] => true
  | x :: a', y :: b' => Ascii.eqb x y && text_eqb a' b'
  | _, _ => false
  end.

Fixpoint lstrip (s : text) : text :=
  match s with
  | c :: s' => if isspace c then lstrip s' else s
  | [] => []
  end.

Definition rstrip (s : text) : text := rev (lstrip (rev s)).

(** [s.strip()] *)
Definition strip (s : text) : text := rstrip (lstrip s).

Fixpoint starts_with (p s : text) : bool :=
  match p, s with
  | [], _ => true
  | x :: p', y :: s' => Ascii.eqb x y && starts_with p' s'
  | _ :: _, [] => false
  end.

(** [needle in hay] on strings. *)
Fixpoint contains (needle hay : text) : bool :=
  starts_with needle hay
  || match hay with
     | [] => false
     | _ :: hay' => contains needle hay'
     end.

(** [s.split()]: the maximal runs of non-whitespace characters. *)
Fixpoint split (s : text) : list text :=
  match s with
  | [] => []
  | c :: s' =>
      if isspace c then split s'
      else match s' with
           | [] => [[c]]
           | c' :: _ =>
               if isspace c' then [c] :: split s'
               else match split s' with
                    | t :: ts => (c :: t) :: ts
                    | [] => [[c]]
                    end
           end
  end.

(** [s.split(sep)] for a one-character separator: always at least one
    field, empty fields kept. *)
Fixpoint split_on (sep : ascii) (s : text) : list text :=
  match s with
  | [] => [[]]
  | c :: s' =>
      if Ascii.eqb c sep then [] :: split_on sep s'
      else match split_on sep s' with
           | t :: ts => (c :: t) :: ts
           | [] => [[c]]
           end
  end.

(** [s.replace(c, '')] for a one-character [c]. *)
Definition remove_char (c : ascii) (s : text) : text :=
  filter (fun x => negb (Ascii.eqb x c)) s.

(** Lexicographic order on code points, the order of [str] comparison. *)
Fixpoint text_ltb (a b : text) : bool :=
  match a, b with
  | _, [] => false
  | [], _ :: _ => true
  | x :: a', y :: b' =>
      if (code x <? code y)%N then true
      else if (code y <? code x)%N then false
      else text_ltb a' b'
  end.

(** ** Exceptions *)

Inductive exn : Type :=
| ValueError (msg : list text)
| KeyError (key : text)
| IndexError
| AttributeError
| OtherError (msg : text).

Inductive result (A : Type) : Type :=
| Ok (a : A)
| Raise (e : exn).

Arguments Ok {A} a.
Arguments Raise {A} e.

Definition bind {A B : Type} (m : result A) (f : A -> result B) : result B :=
  match m with
  | Ok a => f a
  | Raise e => Raise e
  end.

Notation "x <- m ;; k" := (bind m (fun x => k))
  (at level 61, m at next level, right associativity).

(** ** Regular expressions ([re])

    The fragment of Python's [re] syntax that the program uses, matched
    the way the backtracking engine does: alternatives in order, greedy
    repetition, and a continuation for what follows. *)

Inductive regex : Type :=
| Eps
| Lit (c : ascii)
| Class (p : ascii -> bool)
| EndAnchor
| Seq (r1 r2 : regex)
| Alt (r1 r2 : regex)
| Opt (r : regex)
| Star (p : ascii -> bool)
| Plus (p : ascii -> bool).

(** A literal word. *)
Fixpoint lit (w : text) : regex :=
  match w with
  | [] => Eps
  | c :: w' => Seq (Lit c) (lit w')
  end.

(** [a|b|c|...] *)
Fixpoint alts (rs : list regex) : regex :=
  match rs with
  | [] => Class (fun _ => false)
  | [r] => r
  | r :: rs' => Alt r (alts rs')
  end.

(** A literal against an input character; with [re.IGNORECASE] the two
    are compared after lower-casing. *)
Definition chr_eq (ignorecase : bool) (c x : ascii) : bool :=
  if ignorecase then Ascii.eqb (lower_char c) (lower_char x)
  else Ascii.eqb c x.

(** [$] without [re.MULTILINE]: the end of the string, or just before a
    newline that is the last character. *)
Definition at_end (s : text) : bool :=
  match s with
  | [] => true
  | [c] => Ascii.eqb c "010"%char
  | _ => false
  end.

Section Matcher.
Variable ignorecase : bool.

(** Greedy [p*] followed by [k]. *)
Fixpoint star_k (p : ascii -> bool) (k : text -> option text) (s : text)
  : option text :=
  match s with
  | c :: s' =>
      if p c then
        match star_k p k s' with
        | Some out => Some out
        | None => k s
        end
      else k s
  | [] => k s
  end.

(** [match_k r s k]: match [r] at the head of [s], then [k] on what is
    left; the first success in the engine's order. *)
Fixpoint match_k (r : regex) (s : text) (k : text -> option text)
  : option text :=
  match r with
  | Eps => k s
  | Lit c =>
      match s with
      | x :: s' => if chr_eq ignorecase c x then k s' else None
      | [] => None
      end
  | Class p =>
      match s with
      | x :: s' => if p x then k s' else None
      | [] => None
      end
  | EndAnchor => if at_end s then k s else None
  | Seq r1 r2 => match_k r1 s (fun s' => match_k r2 s' k)
  | Alt r1 r2 =>
      match match_k r1 s k with
      | Some out => Some out
      | None => match_k r2 s k
      end
  | Opt r1 =>
      match match_k r1 s k with
      | Some out => Some out
      | None => k s
      end
  | Star p => star_k p k s
  | Plus p =>
      match s with
      | x :: s' => if p x then star_k p k s' else None
      | [] => None
      end
  end.

(** A match of [r] starting at the head of [s]: what follows it. *)
Definition match_at (r : regex) (s : text) : option text :=
  match_k r s (fun rest => Some rest).

(** [re.sub(r, '', s)]: scan left to right; where [r] matches, drop the
    matched characters ([skip] counts those still to drop) and go on
    after them; otherwise keep the character.  An empty match replaces
    nothing. *)
Fixpoint sub_scan (r : regex) (skip : nat) (s : text) : text :=
  match s with
  | [] => []
  | c :: s' =>
      match skip with
      | S n => sub_scan r n s'
      | O =>
          match match_at r s with
          | Some rest =>
              match List.length s - List.length rest with
              | S n => sub_scan r n s'
              | O => c :: sub_scan r 0 s'
              end
          | None => c :: sub_scan r 0 s'
          end
      end
  end.

Definition re_sub (r : regex) (s : text) : text := sub_scan r 0 s.
End Matcher.

(** ** The exclusion denylist *)

Definition EXCLUDED_NAMES : list text :=
  [str "daniel raphael"; str "dan raphael"; str "draphael"].

Definition cell := option text.

(** [should_exclude_name] ([app.py]). *)
Definition should_exclude_name (name : cell) : bool :=
  match name with
  | None => false
  | Some n =>
      let name_lower := strip (lower n) in
      existsb (fun excluded => contains excluded name_lower) EXCLUDED_NAMES
  end.

(** ** Name normalization *)

(** [(NP|FNP-C|MD|PA|LLC|Inc\.?|INC\.?|PLLC)] *)
Definition credential_re : regex :=
  alts [lit (str "NP"); lit (str "FNP-C"); lit (str "MD"); lit (str "PA");
        lit (str "LLC"); Seq (lit (str "Inc")) (Opt (Lit "."%char));
        Seq (lit (str "INC")) (Opt (Lit "."%char)); lit (str "PLLC")].

(** [\s+(NP|FNP-C|MD|PA|LLC|Inc\.?|INC\.?|PLLC)$] *)
Definition suffix_re : regex :=
  Seq (Plus isspace) (Seq credential_re EndAnchor).

(** [,\s*NP$] *)
Definition comma_np_re : regex :=
  Seq (Lit ","%char) (Seq (Star isspace) (Seq (lit (str "NP")) EndAnchor)).

(** ** Integer literals *)

Definition is_digit (c : ascii) : bool :=
  ((48 <=? code c) && (code c <=? 57))%N.

Definition digit_val (c : ascii) : Z := Z.of_N (code c) - 48.

(** The digits of an integer literal: decimal digits, single underscores
    allowed between digits only.  [prev] tells whether the character just
    read was a digit. *)
Fixpoint digits_value (acc : Z) (prev : bool) (s : text) : option Z :=
  match s with
  | [] => if prev then Some acc else None
  | c :: s' =>
      if is_digit c then digits_value (acc * 10 + digit_val c) true s'
      else if Ascii.eqb c "_"%char
           then (if prev then digits_value acc false s' else None)
           else None
  end.

(** The whitespace that [int()] skips around the digits: of the
    [str.isspace] characters below 256 all but the four separators FS, GS,
    RS and US, which it refuses. *)
Definition int_space (c : ascii) : bool :=
  isspace c && negb ((28 <=? code c) && (code c <=? 31))%N.

Fixpoint lstrip_by (p : ascii -> bool) (s : text) : text :=
  match s with
  | c :: s' => if p c then lstrip_by p s' else s
  | [] => []
  end.

Definition strip_by (p : ascii -> bool) (s : text) : text :=
  rev (lstrip_by p (rev (lstrip_by p s))).

(** The number that an integer literal writes: the whitespace around it
    is skipped, then come an optional sign and the digits. *)
Definition int_literal (s : text) : option Z :=
  match strip_by int_space s with
  | c :: d =>
      if Ascii.eqb c "+"%char then digits_value 0 false d
      else if Ascii.eqb c "-"%char
           then option_map Z.opp (digits_value 0 false d)
           else digits_value 0 false (c :: d)
  | [] => None
  end.

(** [sys.get_int_max_str_digits()], as CPython sets it by default. *)
Definition INT_MAX_STR_DIGITS : nat := 4300.

(** [int(s)] for a string: anything but an integer literal raises
    [ValueError], and so does a literal of more digits than the
    interpreter converts. *)
Definition py_int (s : text) : result Z :=
  match int_literal s with
  | Some z =>
      if INT_MAX_STR_DIGITS <? List.length (filter is_digit s)
      then Raise (ValueError
                    [str "Exceeds the limit (4300 digits) for integer string conversion"])
      else Ok z
  | None => Raise (ValueError [str "invalid literal for int() with base 10"])
  end.

(** [try: body except (ValueError, AttributeError): handler] *)
Definition try_except_value_attr {A : Type} (body handler : result A)
  : result A :=
  match body with
  | Ok a => Ok a
  | Raise (ValueError _) => handler
  | Raise AttributeError => handler
  | Raise e => Raise e
  end.

(** ** Floats

    A Python [float] is an IEEE 754 binary64 number: 53 bits of
    precision, exponents below 1024, every operation rounded to the
    nearest number, ties to the even one. *)
Definition float : Type := spec_float.

Definition float_add (x y : float) : float := SFadd 53 1024 x y.

(** From this magnitude on an integer rounds to [2^1024], which is not a
    float. *)
Definition FLOAT_LIMIT : Z := (2 ^ 1024 - 2 ^ 970)%Z.

(** An integer as an operand that is not rounded yet. *)
Definition exact_int (n : Z) : float :=
  match n with
  | Z0 => S754_zero false
  | Zpos p => S754_finite false p 0
  | Zneg p => S754_finite true p 0
  end.

(** [float(n)] for an [int]; beyond the range it is an [OverflowError]. *)
Definition float_of_int (n : Z) : result float :=
  if (FLOAT_LIMIT <=? Z.abs n)%Z
  then Raise (OtherError (str "int too large to convert to float"))
  else Ok (binary_normalize 53 1024 n 0 false).

(** [a / b] for two [int]s: the quotient, rounded once; a quotient beyond
    the range is an [OverflowError], a zero divisor a
    [ZeroDivisionError]. *)
Definition int_truediv (a b : Z) : result float :=
  if (b =? 0)%Z then Raise (OtherError (str "division by zero"))
  else if (FLOAT_LIMIT * Z.abs b <=? Z.abs a)%Z
  then Raise (OtherError (str "integer division result too large for a float"))
  else Ok (SFdiv 53 1024 (exact_int a) (exact_int b)).

(** The float that the decimal literal [digits / 10^places] denotes: the
    nearest one. *)
Definition decimal_float (digits : Z) (places : nat) : float :=
  SFdiv 53 1024 (exact_int digits) (exact_int (10 ^ Z.of_nat places)%Z).

(** The number a float stands for.  An infinity is given as [2^1024],
    which compares with every finite float as the infinity does. *)
Definition float_value (x : float) : Q :=
  match x with
  | S754_finite s m e =>
      let q := match e with
               | Zneg p => Qmake (Zpos m) (2 ^ p)%positive
               | _ => inject_Z (Zpos m * 2 ^ e)%Z
               end in
      Qred (if s then Qopp q else q)
  | S754_infinity s =>
      if s then inject_Z (- 2 ^ 1024)%Z else inject_Z (2 ^ 1024)%Z
  | _ => 0%Q
  end.

(** ** Durations *)

(** [parse_duration_to_minutes]; the Python [None] it returns is the
    inner [None].  In [hours * 60 + minutes + seconds / 60] the quotient
    is computed before the sum of the two integers is converted. *)
Definition parse_duration_to_minutes (duration_str : cell)
  : result (option float) :=
  match duration_str with
  | None => Ok None
  | Some s =>
      if text_eqb s (str "No data") || text_eqb s [] then Ok None
      else
        try_except_value_attr
          (match split_on ":"%char s with
           | [h; m; sec] =>
               hours <- py_int h ;;
               minutes <- py_int m ;;
               seconds <- py_int sec ;;
               quotient <- int_truediv seconds 60 ;;
               whole <- float_of_int (hours * 60 + minutes) ;;
               Ok (Some (float_add whole quotient))
           | _ => Ok None
           end)
          (Ok None)
  end.

(** The column [Duration_Minutes] of a table that the aggregator
    returns: the value of each duration that parses.  A cell on which the
    parser raises ends the aggregation
    ([get_doxy_performance_metrics_df]). *)
Definition Duration_Minutes (duration_str : cell) : option Q :=
  match parse_duration_to_minutes duration_str with
  | Ok (Some x) => Some (float_value x)
  | _ => None
  end.

(** ** Rounding *)

(** Nearest integer, ties to the even one. *)
Definition round_half_even (q : Q) : Z :=
  let f := Qfloor q in
  match Qcompare (q - inject_Z f) (1 # 2) with
  | Lt => f
  | Gt => f + 1
  | Eq => if Z.even f then f else f + 1
  end.

(** [x.round(d)] *)
Definition py_round (d : nat) (q : Q) : Q :=
  let scale := Z.pow 10 (Z.of_nat d) in
  Qmake (round_half_even (q * inject_Z scale)) (Z.to_pos scale).

(** ** Tables *)

Definition cell_eqb (a b : cell) : bool :=
  match a, b with
  | Some x, Some y => text_eqb x y
  | None, None => true
  | _, _ => false
  end.

Definition text_eq_dec : forall a b : text, {a = b} + {a <> b} :=
  list_eq_dec ascii_dec.

(** Insertion sort, stable: [x] goes before the first element it may
    precede. *)
Fixpoint insert_by {A : Type} (before : A -> A -> bool) (x : A) (l : list A)
  : list A :=
  match l with
  | [] => [x]
  | y :: l' => if before x y then x :: l else y :: insert_by before x l'
  end.

Definition sort_by {A : Type} (before : A -> A -> bool) (l : list A) : list A :=
  fold_right (insert_by before) [] l.

(** [df.sort_values(key, ascending=False)].  pandas' default sort does not
    fix the order of rows with equal keys; the model keeps their order,
    and no statement below depends on it. *)
Definition sort_desc_nat {A : Type} (key : A -> nat) (l : list A) : list A :=
  sort_by (fun a b => key b <=? key a) l.

Definition sort_desc_Z {A : Type} (key : A -> Z) (l : list A) : list A :=
  sort_by (fun a b => (key b <=? key a)%Z) l.

Definition Qleb (a b : Q) : bool :=
  match Qcompare a b with
  | Gt => false
  | _ => true
  end.

Definition Qltb (a b : Q) : bool :=
  match Qcompare a b with
  | Lt => true
  | _ => false
  end.

Definition sort_desc_Q {A : Type} (key : A -> Q) (l : list A) : list A :=
  sort_by (fun a b => Qleb (key b) (key a)) l.

(** The cells of a column that are present. *)
Fixpoint present (cells : list cell) : list text :=
  match cells with
  | [] => []
  | Some t :: cells' => t :: present cells'
  | None :: cells' => present cells'
  end.

(** The group keys of [df.groupby(col)]: the distinct present values, in
    increasing order. *)
Definition group_keys (cells : list cell) : list text :=
  sort_by (fun a b => negb (text_ltb b a)) (nodup text_eq_dec (present cells)).

(** ** Visit log *)

Record VisitRecord : Type := {
  provider_name : cell;
  duration : cell
}.

Record DoxyVisitsRow : Type := {
  dv_provider_name : text;
  dv_total_visits : nat
}.

Record MetricsRow : Type := {
  pm_provider : text;
  pm_total_visits : nat;
  pm_visits_over_20 : nat;
  pm_pct_over_20 : Q;
  pm_hours_over_20 : Q;
  pm_avg_duration : Q
}.

Definition not_excluded (name : cell) : bool := negb (should_exclude_name name).

Definition Qsum (l : list Q) : Q := fold_right Qplus 0%Q l.

(** The parsed durations of the visits of one provider. *)
Definition durations_of (provider : text) (df : list VisitRecord) : list Q :=
  flat_map (fun r =>
              if cell_eqb (provider_name r) (Some provider)
              then match Duration_Minutes (duration r) with
                   | Some m => [m]
                   | None => []
                   end
              else [])
           df.

Definition over_20 (x : list Q) : list Q := filter (fun m => Qltb 20 m) x.

Definition has_duration (r : VisitRecord) : bool :=
  match Duration_Minutes (duration r) with
  | Some _ => true
  | None => false
  end.

Module Api.

(** [get_doxy_visits] of [api/index.py]. *)
Definition get_doxy_visits (doxy_df : list VisitRecord) : list DoxyVisitsRow :=
  let visits :=
    map (fun k =>
           {| dv_provider_name := k;
              dv_total_visits :=
                List.length
                  (filter (fun r => cell_eqb (provider_name r) (Some k))
                          doxy_df) |})
        (group_keys (map provider_name doxy_df)) in
  sort_desc_nat dv_total_visits visits.

(** [get_doxy_performance_metrics] of [api/index.py]. *)
Definition get_doxy_performance_metrics (doxy_df : list VisitRecord)
  : list MetricsRow :=
  let df_valid := filter has_duration doxy_df in
  let metrics :=
    map (fun k =>
           let x := durations_of k df_valid in
           let Total_Visits := List.length x in
           let Visits_Over_20_Min := List.length (over_20 x) in
           let Hours_Over_20_Min := (Qsum (over_20 x) / inject_Z 60)%Q in
           let Avg_Duration_Min :=
             (Qsum x / inject_Z (Z.of_nat Total_Visits))%Q in
           {| pm_provider := k;
              pm_total_visits := Total_Visits;
              pm_visits_over_20 := Visits_Over_20_Min;
              pm_pct_over_20 :=
                py_round 1
                  (inject_Z (Z.of_nat Visits_Over_20_Min)
                   / inject_Z (Z.of_nat Total_Visits) * inject_Z 100)%Q;
              pm_hours_over_20 := py_round 2 Hours_Over_20_Min;
              pm_avg_duration := py_round 2 Avg_Duration_Min |})
        (group_keys (map provider_name df_valid)) in
  sort_desc_nat pm_total_visits metrics.

End Api.

(** The table of [get_doxy_visits] of [app.py], when it returns one: the
    denylisted names are removed first. *)
Definition get_doxy_visits (doxy_df : list VisitRecord) : list DoxyVisitsRow :=
  let doxy_df := filter (fun r => not_excluded (provider_name r)) doxy_df in
  Api.get_doxy_visits doxy_df.

(** The table of [get_doxy_performance_metrics] of [app.py], when it
    returns one. *)
Definition get_doxy_performance_metrics (doxy_df : list VisitRecord)
  : list MetricsRow :=
  let doxy_df := filter (fun r => not_excluded (provider_name r)) doxy_df in
  Api.get_doxy_performance_metrics doxy_df.

(** *** The aggregators of [app.py] with their exceptions

    Each of them filters with
    [df[~df[col].apply(should_exclude_name)]].  On a table without rows
    the mask is empty and not boolean; pandas then reads it as a list of
    column labels, so the table that is left has no columns and the next
    column that is read raises [KeyError]. *)

(** [get_doxy_visits] of [app.py]. *)
Definition get_doxy_visits_df (doxy_df : list VisitRecord)
  : result (list DoxyVisitsRow) :=
  match doxy_df with
  | [] => Raise (KeyError (str "Provider name"))
  | _ => Ok (get_doxy_visits doxy_df)
  end.

(** [doxy_df['Duration'].apply(parse_duration_to_minutes)]: the first
    exception of the parser ends it. *)
Fixpoint apply_parse_duration (doxy_df : list VisitRecord)
  : result (list (option float)) :=
  match doxy_df with
  | [] => Ok []
  | r :: doxy_df' =>
      m <- parse_duration_to_minutes (duration r) ;;
      ms <- apply_parse_duration doxy_df' ;;
      Ok (m :: ms)
  end.

(** [get_doxy_performance_metrics] of [app.py]. *)
Definition get_doxy_performance_metrics_df (doxy_df : list VisitRecord)
  : result (list MetricsRow) :=
  match doxy_df with
  | [] => Raise (KeyError (str "Duration"))
  | _ =>
      let kept := filter (fun r => not_excluded (provider_name r)) doxy_df in
      parsed <- apply_parse_duration kept ;;
      Ok (get_doxy_performance_metrics doxy_df)
  end.

(** ** Booking summary *)

Record BookingSummaryRecord : Type := {
  booking_page : cell;
  all_activities : Z;
  scheduled : Z;
  completed : Z;
  canceled : Z;
  no_show : Z
}.

Record OnceHubRow : Type := {
  oh_provider : cell;
  oh_total_activities : Z;
  oh_scheduled : Z;
  oh_completed : Z;
  oh_canceled : Z;
  oh_no_show : Z
}.

(** [\s*\([^)]*\)] *)
Definition paren_re : regex :=
  Seq (Star isspace)
      (Seq (Lit "("%char)
           (Seq (Star (fun c => negb (Ascii.eqb c ")"%char))) (Lit ")"%char))).

(** The column [Provider] derived from [Booking page]. *)
Definition booking_provider (r : BookingSummaryRecord) : cell :=
  option_map (fun t => strip (re_sub false paren_re t)) (booking_page r).

(** The table of [get_oncehub_visits] of [app.py], when it returns
    one. *)
Definition get_oncehub_visits (booking_df : list BookingSummaryRecord)
  : list OnceHubRow :=
  let booking_df :=
    filter (fun r => not_excluded (booking_provider r)) booking_df in
  let result :=
    map (fun r =>
           {| oh_provider := booking_provider r;
              oh_total_activities := all_activities r;
              oh_scheduled := scheduled r;
              oh_completed := completed r;
              oh_canceled := canceled r;
              oh_no_show := no_show r |})
        booking_df in
  sort_desc_Z oh_total_activities result.

(** ** Account activity report *)

Record ProgramEventRecord : Type := {
  status : cell;
  owner : cell;
  event_type : cell
}.

Inductive Category : Type := TRT | HRT | Other.

Definition Category_eqb (a b : Category) : bool :=
  match a, b with
  | TRT, TRT | HRT, HRT | Other, Other => true
  | _, _ => false
  end.

Definition Category_name (c : Category) : text :=
  match c with
  | TRT => str "TRT"
  | HRT => str "HRT"
  | Other => str "Other"
  end.

(** [get_category] *)
Definition get_category (event_type : cell) : Category :=
  match event_type with
  | None => Other
  | Some e =>
      let event_upper := upper e in
      if contains (str "TRT") event_upper
         || contains (str "FOUNTAINTRT") event_upper
      then TRT
      else if contains (str "HRT") event_upper then HRT
      else Other
  end.

Record ProgramRow : Type := {
  pv_provider : text;
  pv_trt : nat;
  pv_hrt : nat;
  pv_other : nat;
  pv_total : nat
}.

(** A pivot with the names of its columns; a category column that is
    absent has count 0 in every row. *)
Record ProgramTable : Type := {
  program_columns : list text;
  program_rows : list ProgramRow
}.

Definition count_category (provider : text) (c : Category)
  (df : list ProgramEventRecord) : nat :=
  List.length
    (filter (fun r => cell_eqb (owner r) (Some provider)
                      && Category_eqb (get_category (event_type r)) c)
            df).

(** The table of [get_visits_by_program], when it returns one, from the
    table [df] that it has built.  An empty [df] gives the table of five
    columns without rows; a [df] whose rows are all filtered out gives a
    pivot without rows and without category columns. *)
Definition program_pivot (df : list ProgramEventRecord) : ProgramTable :=
  match df with
  | [] =>
      {| program_columns :=
           [str "Provider"; str "TRT"; str "HRT"; str "Other"; str "Total"];
         program_rows := [] |}
  | _ =>
      let df := filter (fun r => cell_eqb (status r) (Some (str "Completed"))) df in
      let df := filter (fun r => not_excluded (owner r)) df in
      let grouped :=
        filter (fun r => match owner r with Some _ => true | None => false end)
               df in
      let cols_order :=
        filter (fun c => existsb (fun r => Category_eqb (get_category (event_type r)) c)
                                 grouped)
               [TRT; HRT; Other] in
      let pivot :=
        map (fun k =>
               let n c := if existsb (Category_eqb c) cols_order
                          then count_category k c df else 0 in
               {| pv_provider := k;
                  pv_trt := n TRT;
                  pv_hrt := n HRT;
                  pv_other := n Other;
                  pv_total := n TRT + n HRT + n Other |})
            (group_keys (map owner df)) in
      {| program_columns :=
           [str "Provider"] ++ map Category_name cols_order ++ [str "Total"];
         program_rows := sort_desc_nat pv_total pivot |}
  end.

(** The part of [get_visits_by_program] after the table [df] is built.
    When [df] has rows and none is ['Completed'], the exclusion filter is
    applied to a table without rows and [df['Event Type']] raises. *)
Definition program_table (df : list ProgramEventRecord) : result ProgramTable :=
  match df with
  | [] => Ok (program_pivot df)
  | _ =>
      if existsb (fun r => cell_eqb (status r) (Some (str "Completed"))) df
      then Ok (program_pivot df)
      else Raise (KeyError (str "Event Type"))
  end.

(** One [td] of the parsed markup: its [style] attribute and its
    [get_text(strip=True)]. *)
Record Td : Type := {
  td_style : option text;
  td_text : text
}.

(** The rows kept from the markup: at least 7 cells, the first one with a
    non-empty style that contains [border-style:solid]. *)
Definition html_data (rows : list (list Td)) : list ProgramEventRecord :=
  flat_map
    (fun cells =>
       if 7 <=? List.length cells then
         match cells with
         | first_cell :: _ =>
             match td_style first_cell with
             | Some st =>
                 if negb (text_eqb st [])
                    && contains (str "border-style:solid") st
                 then [{| status := option_map td_text (nth_error cells 3);
                          owner := option_map td_text (nth_error cells 5);
                          event_type := option_map td_text (nth_error cells 6) |}]
                 else []
             | None => []
             end
         | [] => []
         end
       else [])
    rows.

(** A delimited table as read: column names and, per row, one cell per
    column. *)
Record CsvFrame : Type := {
  csv_columns : list text;
  csv_rows : list (list cell)
}.

(** The key a column is mapped to by the header sniffing loop. *)
Definition col_key (col : text) : option text :=
  let col_lower := lower col in
  if contains (str "status") col_lower then Some (str "Status")
  else if contains (str "owner") col_lower || contains (str "provider") col_lower
  then Some (str "Provider")
  else if contains (str "event") col_lower && contains (str "type") col_lower
  then Some (str "Event Type")
  else if contains (str "type") col_lower then Some (str "Event Type")
  else None.

(** [col_mapping[key]]: the last column mapped to [key]. *)
Definition col_mapping (columns : list text) (key : text) : option text :=
  fold_left
    (fun acc col =>
       match col_key col with
       | Some k => if text_eqb k key then Some col else acc
       | None => acc
       end)
    columns None.

(** [df.rename(columns={v: k for k, v in col_mapping.items()})] on one
    column name. *)
Definition renamed (columns : list text) (col : text) : text :=
  match col_key col with
  | Some k =>
      match col_mapping columns k with
      | Some v => if text_eqb v col then k else col
      | None => col
      end
  | None => col
  end.

Fixpoint index_of (name : text) (columns : list text) : option nat :=
  match columns with
  | [] => None
  | c :: columns' =>
      if text_eqb c name then Some 0
      else option_map S (index_of name columns')
  end.

Definition cell_at (i : nat) (row : list cell) : cell :=
  match nth_error row i with
  | Some c => c
  | None => None
  end.

(** How many columns carry a label. *)
Definition count_label (name : text) (columns : list text) : nat :=
  List.length (filter (text_eqb name) columns).

(** The delimited branch of [get_visits_by_program] up to the table [df]:
    the three columns the rest of the function reads.  A missing
    [Provider] column raises [KeyError] when it is read, which happens
    only for a table that has rows.  When the renaming has given one of
    the three labels to a second column, reading that label gives a table
    instead of a column: the comparison of [Status] then fails in the
    selection of the rows, and the tests of [Provider] and [Event Type]
    on the truth value of a column. *)
Definition csv_data (t : CsvFrame) : result (list ProgramEventRecord) :=
  let columns := map (renamed (csv_columns t)) (csv_columns t) in
  let status_of row :=
    match index_of (str "Status") columns with
    | Some i => cell_at i row
    | None => Some (str "Completed")
    end in
  let provider_col :=
    match index_of (str "Provider") columns with
    | Some i => Some i
    | None =>
        match find (fun col => contains (str "name") (lower col)) columns with
        | Some col => index_of col columns
        | None => None
        end
    end in
  let event_of row :=
    match index_of (str "Event Type") columns with
    | Some i => cell_at i row
    | None => Some (str "Other")
    end in
  let ambiguous :=
    Raise (ValueError [str "The truth value of a Series is ambiguous"]) in
  match csv_rows t with
  | [] => Ok []
  | rows =>
      if 2 <=? count_label (str "Status") columns
      then Raise (ValueError
                    [str "cannot reindex on an axis with duplicate labels"])
      else
        match provider_col with
        | None => Raise (KeyError (str "Provider"))
        | Some p =>
            if 2 <=? count_label (str "Provider") columns then ambiguous
            else if 2 <=? count_label (str "Event Type") columns then ambiguous
            else
              Ok (map (fun row =>
                         {| status := status_of row;
                            owner := cell_at p row;
                            event_type := event_of row |})
                      rows)
        end
  end.

(** ** Payroll export *)

(** One payroll row as the code addresses it: the cell under [Name] and
    the numeric reading ([pd.to_numeric], [errors='coerce']) of the cell
    under [Total hours], absent when it is not a number. *)
Record PayrollRecord : Type := {
  name_raw : cell;
  total_hours : option Q
}.

Record GustoFrame : Type := {
  gusto_columns : list text;
  gusto_rows : list PayrollRecord
}.

Record GustoHoursRow : Type := {
  gh_name : text;
  gh_total_hours : Q
}.

(** [astype(str)]: a missing cell becomes the text [nan]. *)
Definition astype_str (c : cell) : text :=
  match c with
  | Some t => t
  | None => str "nan"
  end.

Module GetGustoHours.

(** [normalize_name] of [get_gusto_hours]. *)
Definition normalize_name (name : cell) : text :=
  match name with
  | None => []
  | Some n =>
      let name := strip n in
      let name := re_sub true suffix_re name in
      let name := re_sub true comma_np_re name in
      strip (lower name)
  end.

(** [len(name_parts.intersection(doxy_parts))] for
    [name_parts = set(a.split())] and [doxy_parts = set(b.split())]. *)
Definition shared_parts (a b : text) : nat :=
  List.length
    (nodup text_eq_dec
       (filter (fun t => existsb (text_eqb t) (split b)) (split a))).

(** [is_in_doxy]; [doxy_normalized] is the set it closes over, in the
    order the loop visits it. *)
Definition is_in_doxy (doxy_normalized : list text) (name_normalized : text)
  : bool :=
  match name_normalized with
  | [] => false
  | _ =>
      existsb
        (fun doxy_name =>
           (2 <=? shared_parts name_normalized doxy_name)
           || text_eqb name_normalized doxy_name)
        doxy_normalized
  end.

(** The column [Name] after cleaning. *)
Definition clean_name (r : PayrollRecord) : text :=
  remove_char "034"%char (strip (astype_str (name_raw r))).

(** The table of [get_gusto_hours] of [app.py], when it returns one. *)
Definition gusto_hours_rows (rows : list PayrollRecord)
  (doxy_providers : list text) : list GustoHoursRow :=
  let doxy_normalized := map (fun p => normalize_name (Some p)) doxy_providers in
  let In_Doxy r := is_in_doxy doxy_normalized (normalize_name (Some (clean_name r))) in
  let filtered :=
    flat_map (fun r =>
                if In_Doxy r then
                  match total_hours r with
                  | Some h =>
                      if Qltb 0 h
                      then [{| gh_name := clean_name r; gh_total_hours := h |}]
                      else []
                  | None => []
                  end
                else [])
             rows in
  let filtered := filter (fun g => not_excluded (Some (gh_name g))) filtered in
  sort_desc_Q gh_total_hours filtered.

(** Whether a payroll row is left in [filtered] when the exclusion filter
    is reached: its name is matched and its hours are a number above 0. *)
Definition matched_with_hours (doxy_providers : list text) (r : PayrollRecord)
  : bool :=
  is_in_doxy (map (fun p => normalize_name (Some p)) doxy_providers)
             (normalize_name (Some (clean_name r)))
  && match total_hours r with
     | Some h => Qltb 0 h
     | None => false
     end.

(** [get_gusto_hours] of [app.py]: with four columns or more the first
    four are renamed by position; [Name] and [Total hours] are then read
    by name.  A label that two columns carry gives a table where a column
    is expected: [.str] does not exist on it and [pd.to_numeric] refuses
    it.  The mask [In_Doxy] of a table without rows is not boolean and
    leaves no columns to select from; when no row is left for the
    exclusion filter, its mask leaves no column to sort by. *)
Definition get_gusto_hours (gusto_df : GustoFrame) (doxy_providers : list text)
  : result (list GustoHoursRow) :=
  let columns :=
    if 4 <=? List.length (gusto_columns gusto_df)
    then [str "Name"; str "Title"; str "Manager"; str "Total hours"]
         ++ skipn 4 (gusto_columns gusto_df)
    else gusto_columns gusto_df in
  match count_label (str "Name") columns with
  | 0 => Raise (KeyError (str "Name"))
  | 1 =>
      match gusto_rows gusto_df with
      | [] => Raise (KeyError (str "None of ['Name', 'Total hours'] are in the columns"))
      | rows =>
          match count_label (str "Total hours") columns with
          | 0 => Raise (KeyError (str "['Total hours'] not in index"))
          | 1 =>
              if existsb (matched_with_hours doxy_providers) rows
              then Ok (gusto_hours_rows rows doxy_providers)
              else Raise (KeyError (str "Total hours"))
          | _ => Raise (OtherError
                          (str "arg must be a list, tuple, 1-d array, or Series"))
          end
      end
  | _ => Raise AttributeError
  end.

End GetGustoHours.

(** ** Estimated hours worked *)

Record HoursWorkedRow : Type := {
  hw_provider : text;
  hw_gusto_hours : Q;
  hw_total_visits : nat;
  hw_hours_worked : Q
}.

Module GetHoursWorked.

(** [(np|fnp-c|md|pa|llc|inc\.?|pllc)] *)
Definition credential_re : regex :=
  alts [lit (str "np"); lit (str "fnp-c"); lit (str "md"); lit (str "pa");
        lit (str "llc"); Seq (lit (str "inc")) (Opt (Lit "."%char));
        lit (str "pllc")].

Definition suffix_re : regex :=
  Seq (Plus isspace) (Seq credential_re EndAnchor).

Definition comma_np_re : regex :=
  Seq (Lit ","%char) (Seq (Star isspace) (Seq (lit (str "np")) EndAnchor)).

(** [normalize_name] of [get_hours_worked]. *)
Definition normalize_name (name : cell) : text :=
  match name with
  | None => []
  | Some n =>
      let name := lower (strip n) in
      let name := re_sub true suffix_re name in
      let name := re_sub true comma_np_re name in
      strip name
  end.

(** [merged['Total Visits'] * 20 / 60] rounded to 2 decimals. *)
Definition estimated_hours (total_visits : nat) : Q :=
  py_round 2 (inject_Z (Z.of_nat total_visits * 20) / inject_Z 60)%Q.

(** One row of [pd.merge(gusto, metrics, on='Name_norm', how='inner')]
    with the columns that [result] keeps. *)
Definition merged_row (g : GustoHoursRow) (m : MetricsRow) : HoursWorkedRow :=
  {| hw_provider := gh_name g;
     hw_gusto_hours := gh_total_hours g;
     hw_total_visits := pm_total_visits m;
     hw_hours_worked := estimated_hours (pm_total_visits m) |}.

Definition same_key (g : GustoHoursRow) (m : MetricsRow) : bool :=
  text_eqb (normalize_name (Some (gh_name g)))
           (normalize_name (Some (pm_provider m))).

(** [get_hours_worked] *)
Definition get_hours_worked (gusto_hours : list GustoHoursRow)
  (performance_metrics : list MetricsRow) : list HoursWorkedRow :=
  let merged :=
    flat_map (fun g =>
                map (merged_row g) (filter (same_key g) performance_metrics))
             gusto_hours in
  sort_desc_Q hw_gusto_hours merged.

End GetHoursWorked.

(** ** Reading the uploads and assembling the report *)

(** Decoded text: code points. *)
Definition content := list N.

Record FileStorage : Type := {
  filename : text;
  stream : list Byte.byte
}.

Inductive encoding : Type := utf_16 | utf_8 | latin_1 | cp1252.

(** [s.endswith(p)] *)
Definition ends_with (s p : text) : bool := starts_with (rev p) (rev s).

Record DoxyFrame : Type := {
  doxy_columns : list text;
  doxy_rows : list VisitRecord
}.

Record BookingFrame : Type := {
  booking_columns : list text;
  booking_rows : list BookingSummaryRecord
}.

(** The pandas readers of one kind of table; they are library code and
    may raise. *)
Record Readers (Frame : Type) : Type := {
  read_excel : list Byte.byte -> nat -> result Frame;
  read_csv : list Byte.byte -> nat -> result Frame;
  read_html : content -> result (list Frame);
  reheader : nat -> Frame -> result Frame
}.

Record Stats : Type := {
  providers : nat;
  total_visits : nat;
  sheets_count : nat
}.

Record Report : Type := {
  doxy_visits : list DoxyVisitsRow;
  oncehub_visits : option (list OnceHubRow);
  visits_by_program : ProgramTable;
  gusto_hours : list GustoHoursRow;
  performance_metrics : list MetricsRow;
  hours_worked : list HoursWorkedRow;
  stats : Stats
}.

(** The sheets written to the workbook, in order. *)
Definition sheet_names (r : Report) : list text :=
  [str "Doxy Visits"]
  ++ match oncehub_visits r with
     | Some _ => [str "OnceHub Visits"]
     | None => []
     end
  ++ [str "Visits by Program"; str "Gusto Hours";
      str "Doxy Performance Metrics"; str "Hours Worked"].

(** An aggregation function that was called. *)
Inductive event : Type := Aggregate (fn : text).

(** [str(e)] *)
Definition exn_str (e : exn) : text :=
  match e with
  | ValueError msg => List.concat msg
  | KeyError k => k
  | IndexError => str "index out of bounds"
  | AttributeError => str "attribute error"
  | OtherError msg => msg
  end.

Definition has_column (name : text) (columns : list text) : bool :=
  existsb (text_eqb name) columns.

(** [df.rename(columns={old: new})] on the column names. *)
Definition rename_column (old new : text) (columns : list text) : list text :=
  map (fun c => if text_eqb c old then new else c) columns.

(** [get_oncehub_visits] of [app.py]: [Booking page] is read first, as
    one column of texts ([.str] exists on nothing else); the other columns
    are selected by name after the exclusion filter, which leaves a table
    without rows without columns; a label carried twice gives more columns
    than the six names that are then assigned. *)
Definition get_oncehub_visits_df (booking_df : BookingFrame)
  : result (list OnceHubRow) :=
  let columns := booking_columns booking_df in
  let selected :=
    [str "All activities"; str "Scheduled"; str "Completed"; str "Canceled";
     str "No-show"] in
  match count_label (str "Booking page") columns with
  | 0 => Raise (KeyError (str "Booking page"))
  | 1 =>
      match booking_rows booking_df with
      | [] => Raise (KeyError (str "None of the six columns are in the columns"))
      | rows =>
          if forallb (fun r => match booking_page r with
                               | None => true
                               | Some _ => false
                               end) rows
          then Raise AttributeError
          else
            match find (fun c => negb (has_column c columns)) selected with
            | Some missing => Raise (KeyError missing)
            | None =>
                if existsb (fun c => 2 <=? count_label c columns)
                           (str "Provider" :: selected)
                then Raise (ValueError [str "Length mismatch"])
                else Ok (get_oncehub_visits rows)
            end
      end
  | _ => Raise AttributeError
  end.

Section Pipeline.

(** The codecs other than latin-1; [None] is a [UnicodeDecodeError]. *)
Variable decode_utf_16 decode_utf_8 decode_cp1252 : list Byte.byte -> option content.

(** [pd.read_csv(io.StringIO(account_content))] and the [tr] rows that
    [BeautifulSoup(account_content, 'html.parser')] finds. *)
Variable account_read_csv : content -> result CsvFrame.
Variable soup_find_all_tr : content -> list (list Td).

Variable doxy_io : Readers DoxyFrame.
Variable gusto_io : Readers GustoFrame.
Variable booking_io : Readers BookingFrame.

(** [bytes.decode(encoding)]; latin-1 maps every byte to the code point
    of the same number. *)
Definition decode (e : encoding) (b : list Byte.byte) : option content :=
  match e with
  | utf_16 => decode_utf_16 b
  | utf_8 => decode_utf_8 b
  | latin_1 => Some (map Byte.to_N b)
  | cp1252 => decode_cp1252 b
  end.

(** The loop [for encoding in [...]: try: ... break; except
    (UnicodeDecodeError, UnicodeError): continue]. *)
Fixpoint decode_first (encodings : list encoding) (b : list Byte.byte)
  : option content :=
  match encodings with
  | [] => None
  | e :: es =>
      match decode e b with
      | Some c => Some c
      | None => decode_first es b
      end
  end.

Definition ENCODINGS : list encoding := [utf_16; utf_8; latin_1; cp1252].

(** [read_file_as_dataframe] *)
Definition read_file_as_dataframe {Frame : Type} (io : Readers Frame)
  (file_obj : FileStorage) (skiprows : nat) : result Frame :=
  let filename := lower (filename file_obj) in
  let is_excel := ends_with filename (str ".xls") || ends_with filename (str ".xlsx") in
  if is_excel then
    match read_excel io (stream file_obj) skiprows with
    | Ok df => Ok df
    | Raise _ =>
        let could_not := Raise (ValueError [str "Could not read Excel file"]) in
        match decode_first ENCODINGS (stream file_obj) with
        | Some (c :: cs) =>
            match read_html io (c :: cs) with
            | Ok (df :: _) =>
                if 0 <? skiprows then
                  match reheader io skiprows df with
                  | Ok df' => Ok df'
                  | Raise _ => could_not
                  end
                else Ok df
            | Ok [] => could_not
            | Raise _ => could_not
            end
        | _ => could_not
        end
    end
  else read_csv io (stream file_obj) skiprows.

(** [get_visits_by_program] of [app.py]. *)
Definition get_visits_by_program (account_content : content) (is_csv : bool)
  : result ProgramTable :=
  if is_csv then
    t <- account_read_csv account_content ;;
    df <- csv_data t ;;
    program_table df
  else program_table (html_data (soup_find_all_tr account_content)).

(** The guarded block that reads the optional booking summary: any
    exception leaves [booking_df] at [None]. *)
Definition read_booking (booking_file : option FileStorage)
  : option BookingFrame :=
  match booking_file with
  | Some f =>
      if text_eqb (filename f) [] then None
      else
        match read_file_as_dataframe booking_io f 0 with
        | Raise _ => None
        | Ok booking_df =>
            let columns := booking_columns booking_df in
            let booking_col :=
              find (fun col =>
                      let col_lower := lower col in
                      contains (str "booking") col_lower
                      || contains (str "page") col_lower
                      || contains (str "provider") col_lower
                      || contains (str "name") col_lower)
                   columns in
            let renamed_to old :=
              {| booking_columns := rename_column old (str "Booking page") columns;
                 booking_rows := booking_rows booking_df |} in
            match booking_col with
            | Some col =>
                if negb (text_eqb col (str "Booking page"))
                then Some (renamed_to col)
                else Some booking_df
            | None =>
                if negb (has_column (str "Booking page") columns) then
                  match columns with
                  | first :: _ => Some (renamed_to first)
                  | [] => None
                  end
                else Some booking_df
            end
        end
  | None => None
  end.

(** The problems collected while the three required sources are read. *)
Definition doxy_errors (r : result DoxyFrame) : list text :=
  match r with
  | Ok doxy_df =>
      (if has_column (str "Provider name") (doxy_columns doxy_df) then []
       else [str "Doxy Report missing 'Provider name' column"])
      ++ (if has_column (str "Duration") (doxy_columns doxy_df) then []
          else [str "Doxy Report missing 'Duration' column"])
  | Raise e => [(str "Error reading Doxy Report: " ++ exn_str e)%list]
  end.

Definition account_errors (account_content : option content) : list text :=
  match account_content with
  | Some _ => []
  | None =>
      [str "Could not decode Account Detail Report - try a different file format"]
  end.

Definition gusto_errors (r : result GustoFrame) : list text :=
  match r with
  | Ok _ => []
  | Raise e => [(str "Error reading Gusto file: " ++ exn_str e)%list]
  end.

(** Call an aggregation function: the call is recorded, and an exception
    ends the run. *)
Definition call {A B : Type} (fn : string) (r : result A)
  (k : A -> result B * list event) : result B * list event :=
  match r with
  | Ok a => let (b, tr) := k a in (b, Aggregate (str fn) :: tr)
  | Raise e => (Raise e, [Aggregate (str fn)])
  end.

(** [f(x) if x is not None else None] for an aggregation function. *)
Definition call_if_some {A B : Type} (fn : string) (r : option (result A))
  (k : option A -> result B * list event) : result B * list event :=
  match r with
  | Some r => call fn r (fun a => k (Some a))
  | None => k None
  end.

(** The part of [generate_report] after the check of [errors]: the six
    sections in the order of the source, then the statistics. *)
Definition generate_sections (doxy_df : DoxyFrame) (account_content : content)
  (account_is_csv : bool) (gusto_df : GustoFrame)
  (booking_df : option BookingFrame) : result Report * list event :=
  call "get_doxy_visits" (get_doxy_visits_df (doxy_rows doxy_df))
    (fun doxy_visits =>
  let doxy_providers := map dv_provider_name doxy_visits in
  call_if_some "get_oncehub_visits"
       (option_map get_oncehub_visits_df booking_df)
    (fun oncehub_visits =>
  call "get_visits_by_program"
       (get_visits_by_program account_content account_is_csv)
    (fun visits_by_program =>
  call "get_gusto_hours"
       (GetGustoHours.get_gusto_hours gusto_df doxy_providers)
    (fun gusto_hours =>
  call "get_doxy_performance_metrics"
       (get_doxy_performance_metrics_df (doxy_rows doxy_df))
    (fun performance_metrics =>
  call "get_hours_worked"
       (Ok (GetHoursWorked.get_hours_worked gusto_hours performance_metrics))
    (fun hours_worked =>
  (Ok {| doxy_visits := doxy_visits;
         oncehub_visits := oncehub_visits;
         visits_by_program := visits_by_program;
         gusto_hours := gusto_hours;
         performance_metrics := performance_metrics;
         hours_worked := hours_worked;
         stats :=
           {| providers := List.length doxy_visits;
              total_visits := list_sum (map dv_total_visits doxy_visits);
              sheets_count := 6 |} |},
   []))))))).

(** [generate_report] of [app.py]: the report, or the exception raised,
    with the aggregation functions that were called.  [ValueError] carries
    the lines of its message.  A source that could not be read has left an
    error, so the last branch is never taken. *)
Definition generate_report
  (doxy_file account_file gusto_file : FileStorage)
  (booking_file : option FileStorage) : result Report * list event :=
  let doxy_read := read_file_as_dataframe doxy_io doxy_file 0 in
  let account_content := decode_first ENCODINGS (stream account_file) in
  let account_is_csv := ends_with (lower (filename account_file)) (str ".csv") in
  let gusto_read := read_file_as_dataframe gusto_io gusto_file 8 in
  let booking_df := read_booking booking_file in
  let errors :=
    (doxy_errors doxy_read ++ account_errors account_content
     ++ gusto_errors gusto_read)%list in
  match errors with
  | _ :: _ => (Raise (ValueError errors), [])
  | [] =>
      match doxy_read, account_content, gusto_read with
      | Ok doxy_df, Some account_content, Ok gusto_df =>
          generate_sections doxy_df account_content account_is_csv gusto_df
                            booking_df
      | _, _, _ => (Raise AttributeError, [])
      end
  end.

End Pipeline.

(** ** Notions used in the statements *)

(** The last character of a text, if any. *)
Definition last_char (s : text) : option ascii :=
  match rev s with
  | c :: _ => Some c
  | [] => None
  end.

Definition ends_in_space (s : text) : bool :=
  match last_char s with
  | Some c => isspace c
  | None => false
  end.

Definition starts_in_space (s : text) : bool :=
  match s with
  | c :: _ => isspace c
  | [] => false
  end.

Fixpoint join_with (sep : ascii) (fields : list text) : text :=
  match fields with
  | [] => []
  | [f] => f
  | f :: fs => f ++ sep :: join_with sep fs
  end.

Definition free_of (sep : ascii) (s : text) : bool :=
  forallb (fun c => negb (Ascii.eqb c sep)) s.

Definition int_char (c : ascii) : bool :=
  isspace c || is_digit c || Ascii.eqb c "_"%char
  || Ascii.eqb c "+"%char || Ascii.eqb c "-"%char.

(** A plain run of decimal digits is read as the number it writes. *)
Fixpoint decimal (acc : Z) (s : text) : Z :=
  match s with
  | [] => acc
  | c :: s' => decimal (acc * 10 + digit_val c) s'
  end.

(** A field that [int()] reads. *)
Definition integer_field (f : text) : Prop := exists z, py_int f = Ok z.

(** Exactly three colon-separated integer fields. *)
Definition three_integer_fields (t : text) : Prop :=
  exists h m s,
    t = h ++ ":"%char :: m ++ ":"%char :: s
    /\ integer_field h /\ integer_field m /\ integer_field s.

(** Two texts have at least two whitespace-delimited tokens in common. *)
Definition share_two_tokens (a b : text) : Prop :=
  exists t1 t2,
    t1 <> t2 /\ In t1 (split a) /\ In t1 (split b)
    /\ In t2 (split a) /\ In t2 (split b).

(** Whitespace runs replaced by single spaces. *)
Definition collapse_whitespace (s : text) : text :=
  join_with " "%char (split s).

(** Three visits of 25 minutes for one provider. *)
Definition three_visits : list VisitRecord :=
  let v := {| provider_name := Some (str "Jane Doe, NP");
              duration := Some (str "00:25:00") |} in
  [v; v; v].

(** A visit log with one provider under two credentials, and the payroll
    row of that provider. *)
Definition two_credentials_log : list VisitRecord :=
  [{| provider_name := Some (str "Jane Doe NP");
      duration := Some (str "00:25:00") |};
   {| provider_name := Some (str "Jane Doe MD");
      duration := Some (str "00:30:00") |}].

Definition one_payroll_row : list PayrollRecord :=
  [{| name_raw := Some (str "Jane Doe"); total_hours := Some 40%Q |}].

(** The normalized join key of each table of the reconciler. *)
Definition gusto_key (g : GustoHoursRow) : text :=
  GetHoursWorked.normalize_name (Some (gh_name g)).

Definition metrics_key (m : MetricsRow) : text :=
  GetHoursWorked.normalize_name (Some (pm_provider m)).

(** A booking page whose label names a denylisted person in its
    parenthesised part. *)
Definition denylisted_booking : list BookingSummaryRecord :=
  [{| booking_page := Some (str "Clinic (Daniel Raphael)");
      all_activities := 3; scheduled := 1; completed := 1;
      canceled := 1; no_show := 0 |}].

(** A visit of a denylisted provider. *)
Definition denylisted_visit : list VisitRecord :=
  [{| provider_name := Some (str "Daniel Raphael");
      duration := Some (str "00:25:00") |}].

(** Library readers that return a given table for a delimited file, and
    readers that always fail. *)
Definition sample_io {Frame : Type} (df : Frame) : Readers Frame :=
  {| read_excel := fun _ _ => Raise (OtherError (str "not a workbook"));
     read_csv := fun _ _ => Ok df;
     read_html := fun _ => Ok [];
     reheader := fun _ f => Ok f |}.

Definition failing_io (Frame : Type) : Readers Frame :=
  {| read_excel := fun _ _ => Raise (OtherError (str "not a workbook"));
     read_csv := fun _ _ => Raise (OtherError (str "no columns to parse"));
     read_html := fun _ => Raise (OtherError (str "no tables found"));
     reheader := fun _ _ => Raise IndexError |}.

Definition no_codec : list Byte.byte -> option content := fun _ => None.

Definition upload (name : string) : FileStorage :=
  {| filename := str name; stream := [] |}.

Definition sample_doxy_frame : DoxyFrame :=
  {| doxy_columns := [str "Provider name"; str "Duration"];
     doxy_rows := three_visits |}.

Definition sample_gusto_frame : GustoFrame :=
  {| gusto_columns := [str "Name"; str "Title"; str "Manager"; str "Total hours"];
     gusto_rows := one_payroll_row |}.

(** A delimited account report that has no provider column. *)
Definition account_without_provider : CsvFrame :=
  {| csv_columns := [str "Status"; str "Event Type"];
     csv_rows := [[Some (str "Completed"); Some (str "TRT Follow-up")]] |}.

(** A payroll export with fewer than four columns and none called
    [Name]. *)
Definition gusto_without_name : GustoFrame :=
  {| gusto_columns := [str "Employee"; str "Total hours"];
     gusto_rows := one_payroll_row |}.

(** The run of [generate_report] on delimited uploads read as the given
    tables, without a booking summary. *)
Definition sample_run (account : CsvFrame) (gusto : GustoFrame)
  : result Report * list event :=
  generate_report no_codec no_codec no_codec
    (fun _ => Ok account) (fun _ => [])
    (sample_io sample_doxy_frame) (sample_io gusto)
    (failing_io BookingFrame)
    (upload "doxy.csv") (upload "account.csv") (upload "gusto.csv") None.

(** A visit log with two providers. *)
Definition two_providers_log : list VisitRecord :=
  [{| provider_name := Some (str "Jane Doe NP");
      duration := Some (str "00:25:00") |};
   {| provider_name := Some (str "John Smith MD");
      duration := Some (str "00:30:00") |}].

Definition two_providers_frame : DoxyFrame :=
  {| doxy_columns := [str "Provider name"; str "Duration"];
     doxy_rows := two_providers_log |}.

(** The message of the decode error branch. *)
Definition DECODE_ERROR : text :=
  str "Could not decode Account Detail Report - try a different file format".

(** A delimited account report with the three columns. *)
Definition sample_account : CsvFrame :=
  {| csv_columns := [str "Status"; str "Owner"; str "Event Type"];
     csv_rows := [[Some (str "Completed"); Some (str "Jane Doe, NP");
                   Some (str "TRT Follow-up")]] |}.

(** A run of [generate_report] that reaches the end: the payroll row
    ["Jane Doe"] is matched by the first provider of the visit log. *)
Definition matched_run : result Report * list event :=
  generate_report no_codec no_codec no_codec
    (fun _ => Ok sample_account) (fun _ => [])
    (sample_io two_providers_frame) (sample_io sample_gusto_frame)
    (failing_io BookingFrame)
    (upload "doxy.csv") (upload "account.csv") (upload "gusto.csv") None.

(** A duration whose seconds field has 401 digits. *)
Definition long_seconds : text := str "0:0:1" ++ repeat "0"%char 400.

(** What a regular expression may match: [matches ic r s s'] when [r]
    matches a prefix of [s] and leaves [s']. *)
Inductive matches (ic : bool) : regex -> text -> text -> Prop :=
| M_Eps s : matches ic Eps s s
| M_Lit c x s : chr_eq ic c x = true -> matches ic (Lit c) (x :: s) s
| M_Class p x s : p x = true -> matches ic (Class p) (x :: s) s
| M_End s : at_end s = true -> matches ic EndAnchor s s
| M_Seq r1 r2 s s1 s2 :
    matches ic r1 s s1 -> matches ic r2 s1 s2 -> matches ic (Seq r1 r2) s s2
| M_AltL r1 r2 s s' : matches ic r1 s s' -> matches ic (Alt r1 r2) s s'
| M_AltR r1 r2 s s' : matches ic r2 s s' -> matches ic (Alt r1 r2) s s'
| M_OptSome r s s' : matches ic r s s' -> matches ic (Opt r) s s'
| M_OptNone r s : matches ic (Opt r) s s
| M_StarNil p s : matches ic (Star p) s s
| M_StarCons p x s s' :
    p x = true -> matches ic (Star p) s s' -> matches ic (Star p) (x :: s) s'
| M_Plus p x s s' :
    p x = true -> matches ic (Star p) s s' -> matches ic (Plus p) (x :: s) s'.

(** The credential tokens, in lower case. *)
Definition CREDENTIALS : list text :=
  [str "np"; str "fnp-c"; str "md"; str "pa"; str "llc"; str "inc";
   str "inc."; str "pllc"].

(** A credential token, in any case. *)
Definition is_credential (tok : text) : bool :=
  existsb (text_eqb (lower tok)) CREDENTIALS.

(** The text ends with whitespace followed by a credential token. *)
Definition ends_with_credential (t : text) : bool :=
  existsb (fun c => ends_with (lower t) c
                    && ends_in_space (firstn (List.length t - List.length c) t))
          CREDENTIALS.

(** The text ends with a comma, optional whitespace and [NP]. *)
Definition ends_with_comma_np (t : text) : bool :=
  ends_with (lower t) (str "np")
  && match last_char (rstrip (firstn (List.length t - 2) t)) with
     | Some c => Ascii.eqb c ","%char
     | None => false
     end.

(** No whitespace in the text. *)
Definition no_space (t : text) : bool := forallb (fun c => negb (isspace c)) t.


(** ** Upload validation and the routes of [app.py] *)

(** [d[k]] and [k in d] for a dictionary with text keys, kept as the list
    of its items. *)
Fixpoint dict_get {V : Type} (d : list (text * V)) (k : text) : option V :=
  match d with
  | [] => None
  | (k', v) :: d' => if text_eqb k' k then Some v else dict_get d' k
  end.

(** [sep.join(fields)] *)
Fixpoint join (sep : text) (fields : list text) : text :=
  match fields with
  | [] => []
  | [f] => f
  | f :: fs => f ++ sep ++ join sep fs
  end.

(** The decimal digits of [n], most significant first; [fuel] bounds the
    number of divisions. *)
Fixpoint decimal_digits (fuel : nat) (n : N) (acc : text) : text :=
  let acc := ascii_of_N (48 + n mod 10) :: acc in
  match fuel with
  | O => acc
  | S fuel' => if (n <? 10)%N then acc else decimal_digits fuel' (n / 10) acc
  end.

(** [str(z)] for an integer. *)
Definition str_int (z : Z) : text :=
  let n := Z.to_N (Z.abs z) in
  let digits := decimal_digits (N.to_nat (N.size n)) n [] in
  if (z <? 0)%Z then "-"%char :: digits else digits.

(** [f"{x:.1f}"] for [x >= 0]: one decimal, ties to the even digit. *)
Definition format_1f (x : Q) : text :=
  let tenths := round_half_even (x * inject_Z 10)%Q in
  (str_int (tenths / 10) ++ "."%char :: str_int (tenths mod 10))%list.

Record FileConfig : Type := {
  config_name : text;
  extensions : list text;
  required_columns : option (list text);
  max_size_mb : Z
}.

Definition FILE_CONFIGS : list (text * FileConfig) :=
  [(str "doxy_file",
    {| config_name := str "Doxy Report";
       extensions := [str ".csv"; str ".xls"; str ".xlsx"];
       required_columns := Some [str "Provider name"; str "Duration"];
       max_size_mb := 10 |});
   (str "account_file",
    {| config_name := str "Account Detail Report";
       extensions := [str ".csv"; str ".xls"; str ".xlsx"];
       required_columns := None;
       max_size_mb := 10 |});
   (str "gusto_file",
    {| config_name := str "Gusto Hours";
       extensions := [str ".csv"; str ".xls"; str ".xlsx"];
       required_columns := None;
       max_size_mb := 10 |});
   (str "booking_file",
    {| config_name := str "OnceHub Booking Summary";
       extensions := [str ".csv"; str ".xls"; str ".xlsx"];
       required_columns := Some [str "Booking page"];
       max_size_mb := 10 |})].

(** [FILE_CONFIGS[file_name]] *)
Definition file_config (file_name : text) : result FileConfig :=
  match dict_get FILE_CONFIGS file_name with
  | Some config => Ok config
  | None => Raise (KeyError file_name)
  end.

(** [file_obj.seek(0, 2); file_obj.tell()]: the size of the upload in
    bytes. *)
Definition tell_end (file_obj : FileStorage) : nat :=
  List.length (stream file_obj).

(** [size_mb]; the division by [1024 * 1024] is exact in floating point
    for every size below 2^53 bytes. *)
Definition size_mb (file_obj : FileStorage) : Q :=
  (inject_Z (Z.of_nat (tell_end file_obj)) / inject_Z (1024 * 1024))%Q.

(** [validate_file] *)
Definition validate_file (file_obj : FileStorage) (config : FileConfig)
  : list text :=
  let filename := lower (filename file_obj) in
  let size_mb := size_mb file_obj in
  ((if negb (existsb (fun ext => ends_with filename ext) (extensions config))
    then [str "Invalid file type. Expected: "
          ++ join (str ", ") (extensions config)]
    else [])
   ++ (if Qltb (inject_Z (max_size_mb config)) size_mb
       then [str "File too large (" ++ format_1f size_mb ++ str "MB). Max: "
             ++ str_int (max_size_mb config) ++ str "MB"]
       else [])
   ++ (if Qeq_bool size_mb 0 then [str "File is empty"] else []))%list.

(** The part of a request the routes read: the uploads by field name and
    the form fields. *)
Record Request : Type := {
  method : text;
  files : list (text * FileStorage);
  form : list (text * text)
}.

(** [file_name in request.files and request.files[file_name].filename != ''] *)
Definition uploaded (request : Request) (file_name : text)
  : option FileStorage :=
  match dict_get (files request) file_name with
  | Some f => if text_eqb (filename f) [] then None else Some f
  | None => None
  end.

(** [request.form.get(key, default)] *)
Definition form_get (request : Request) (key : string) (default : text) : text :=
  match dict_get (form request) (str key) with
  | Some v => v
  | None => default
  end.


Definition FILE_FIELDS : list text :=
  [str "doxy_file"; str "account_file"; str "gusto_file"; str "booking_file"].



(** What [index] answers: a redirect after the flashed error messages
    (a message, or ['Unexpected error: '] followed by the text of an
    exception), the workbook as an attachment with its headers, or the
    upload page. *)
Inductive Flash : Type :=
| ErrorMessage (message : text)
| UnexpectedError (e : exn).

Inductive Response : Type :=
| Redirect (flashed : list Flash)
| Attachment (workbook : Report) (content_disposition : text)
             (x_report_providers x_report_visits : text)
| Page.

(** The names of the required sources that are missing, in the order of
    [required_files]. *)
Fixpoint missing_names (request : Request) (file_names : list text)
  : result (list text) :=
  match file_names with
  | [] => Ok []
  | file_name :: rest =>
      here <-
        match uploaded request file_name with
        | None => config <- file_config file_name ;; Ok [config_name config]
        | Some _ => Ok []
        end ;;
      others <- missing_names request rest ;;
      Ok (here ++ others)%list
  end.

(** The messages of [validate_file] for one field, each prefixed by the
    name of its source. *)
Definition prefixed_errors (file_name : text) (file_obj : FileStorage)
  : result (list text) :=
  config <- file_config file_name ;;
  Ok (map (fun error => (config_name config ++ str ": " ++ error)%list)
          (validate_file file_obj config)).

(** The loop over [required_files]; [request.files[file_name]] raises
    for a field that is not there. *)
Fixpoint required_messages (request : Request) (file_names : list text)
  : result (list text) :=
  match file_names with
  | [] => Ok []
  | file_name :: rest =>
      here <-
        match dict_get (files request) file_name with
        | Some file_obj => prefixed_errors file_name file_obj
        | None => Raise (KeyError file_name)
        end ;;
      others <- required_messages request rest ;;
      Ok (here ++ others)%list
  end.

(** The loop over [optional_files]: only what was uploaded is checked. *)
Fixpoint optional_messages (request : Request) (file_names : list text)
  : result (list text) :=
  match file_names with
  | [] => Ok []
  | file_name :: rest =>
      here <-
        match uploaded request file_name with
        | Some file_obj => prefixed_errors file_name file_obj
        | None => Ok []
        end ;;
      others <- optional_messages request rest ;;
      Ok (here ++ others)%list
  end.

Section Routes.

Variable decode_utf_16 decode_utf_8 decode_cp1252 : list Byte.byte -> option content.
Variable account_read_csv : content -> result CsvFrame.
Variable soup_find_all_tr : content -> list (list Td).
Variable doxy_io : Readers DoxyFrame.
Variable gusto_io : Readers GustoFrame.
Variable booking_io : Readers BookingFrame.

(** [datetime.strptime(s, '%Y-%m-%d')]: the month and the day, or [None]
    for its [ValueError]; and [datetime.now().strftime("%m-%d-%Y")]. *)
Variable strptime_ymd : text -> option (Z * Z).
Variable today : text.

(** The name of the report: the form field, else the two dates, else the
    day of the run. *)
Definition report_name (request : Request) : text :=
  let report_name := strip (form_get request "report_name" []) in
  if negb (text_eqb report_name []) then report_name
  else
    let start_date := form_get request "start_date" [] in
    let end_date := form_get request "end_date" [] in
    if negb (text_eqb start_date []) && negb (text_eqb end_date []) then
      match strptime_ymd start_date with
      | Some (start_month, start_day) =>
          match strptime_ymd end_date with
          | Some (end_month, end_day) =>
              (str "Report " ++ str_int start_month ++ str "-"
               ++ str_int start_day ++ str " to " ++ str_int end_month
               ++ str "-" ++ str_int end_day)%list
          | None => str "Weekly Report"
          end
      | None => str "Weekly Report"
      end
    else (str "Weekly Report " ++ today)%list.

(** [str(e).split('\n')] for a [ValueError], whose message is
    ["\n".join(errors)]. *)
Definition flashed_lines (errors : list text) : list text :=
  split_on "010"%char (join ["010"%char] errors).

(** [Response(..., headers={...})]: werkzeug refuses a header value that
    holds a carriage return or a line feed, with a [ValueError] whose
    message is its own. *)
Variable header_newline_message : text.

Definition has_newline (value : text) : bool :=
  existsb (fun c => Ascii.eqb c "010"%char || Ascii.eqb c "013"%char) value.

Definition send_workbook (output : Report) (report_name : text)
  : result Response :=
  let content_disposition :=
    (str "attachment; filename=" ++ "034"%char
     :: report_name ++ str ".xlsx" ++ ["034"%char])%list in
  if has_newline content_disposition
  then Raise (ValueError [header_newline_message])
  else Ok (Attachment output content_disposition
             (str_int (Z.of_nat (providers (stats output))))
             (str_int (Z.of_nat (total_visits (stats output))))).

(** [index] of [app.py]; the report and the response are both made
    inside the [try]. *)
Definition index (request : Request) : result Response :=
  if text_eqb (method request) (str "POST") then
    let required_files := [str "doxy_file"; str "account_file"; str "gusto_file"] in
    let optional_files := [str "booking_file"] in
    missing_files <- missing_names request required_files ;;
    match missing_files with
    | _ :: _ =>
        Ok (Redirect
              [ErrorMessage (str "Missing required files: "
                             ++ join (str ", ") missing_files)%list])
    | [] =>
        required_errors <- required_messages request required_files ;;
        optional_errors <- optional_messages request optional_files ;;
        let validation_errors := (required_errors ++ optional_errors)%list in
        match validation_errors with
        | _ :: _ => Ok (Redirect (map ErrorMessage validation_errors))
        | [] =>
            match dict_get (files request) (str "doxy_file"),
                  dict_get (files request) (str "account_file"),
                  dict_get (files request) (str "gusto_file") with
            | Some doxy_file, Some account_file, Some gusto_file =>
                let booking_file := uploaded request (str "booking_file") in
                match
                  output <-
                    fst (generate_report decode_utf_16 decode_utf_8 decode_cp1252
                           account_read_csv soup_find_all_tr
                           doxy_io gusto_io booking_io
                           doxy_file account_file gusto_file booking_file) ;;
                  send_workbook output (report_name request)
                with
                | Ok response => Ok response
                | Raise (ValueError errors) =>
                    Ok (Redirect (map ErrorMessage (flashed_lines errors)))
                | Raise e => Ok (Redirect [UnexpectedError e])
                end
            | None, _, _ => Raise (KeyError (str "doxy_file"))
            | _, None, _ => Raise (KeyError (str "account_file"))
            | _, _, None => Raise (KeyError (str "gusto_file"))
            end
        end
    end
  else Ok Page.

End Routes.

(** ** Notions used in the further properties *)

(** A pattern whose character classes do not tell a letter from its
    lower-case form. *)
Fixpoint case_blind (r : regex) : Prop :=
  match r with
  | Class p | Star p | Plus p => forall c, p (lower_char c) = p c
  | Seq r1 r2 | Alt r1 r2 => case_blind r1 /\ case_blind r2
  | Opt r1 => case_blind r1
  | Eps | Lit _ | EndAnchor => True
  end.

(** Two patterns that the engine, ignoring case, cannot tell apart. *)
Definition same_matches (r r' : regex) : Prop :=
  forall (s : text) (k : text -> option text),
    match_k true r s k = match_k true r' s k.

(** An upload of one byte, and a request that carries the three required
    uploads under delimited names. *)
Definition one_byte_upload (name : string) : FileStorage :=
  {| filename := str name; stream := [Byte.x61] |}.

Definition sample_request : Request :=
  {| method := str "POST";
     files := [(str "doxy_file", one_byte_upload "doxy.csv");
               (str "account_file", one_byte_upload "account.xls");
               (str "gusto_file", one_byte_upload "gusto.csv")];
     form := [(str "report_name", str " Week 44 ")] |}.

(** The message of the [ValueError] that werkzeug raises for a header
    value with a newline. *)
Definition NEWLINE_MESSAGE : text :=
  str "Header values must not contain newline characters.".

(** The route [index] on readers that return the tables of
    [matched_run]. *)
Definition sample_index (request : Request) : result Response :=
  index no_codec no_codec no_codec
    (fun _ => Ok sample_account) (fun _ => [])
    (sample_io two_providers_frame) (sample_io sample_gusto_frame)
    (failing_io BookingFrame)
    (fun _ => None) (str "11-04-2026") NEWLINE_MESSAGE request.


(** The [try] block of [index] and its two handlers, as a function of the
    outcome of [generate_report] and of the report name. *)
Definition try_outcome (header_newline_message report_name : text)
  (outcome : result Report) : Response :=
  match outcome with
  | Ok output =>
      if has_newline (str "attachment; filename=" ++ "034"%char
                      :: report_name ++ str ".xlsx" ++ ["034"%char])
      then Redirect (map ErrorMessage (flashed_lines [header_newline_message]))
      else Attachment output
             (str "attachment; filename=" ++ "034"%char
              :: report_name ++ str ".xlsx" ++ ["034"%char])
             (str_int (Z.of_nat (providers (stats output))))
             (str_int (Z.of_nat (total_visits (stats output))))
  | Raise (ValueError errors) => Redirect (map ErrorMessage (flashed_lines errors))
  | Raise e => Redirect [UnexpectedError e]
  end.
(* ================================================================== *)
(** * Part II: properties *)
(* ================================================================== *)

Unset Implicit Arguments.

(** ** Characters and text *)

Ltac ascii_cases c := destruct c as [[] [] [] [] [] [] [] []].

Lemma text_eqb_eq (a b : text) : text_eqb a b = true <-> a = b.
Proof.
  revert b; induction a as [|x a IH]; intros [|y b]; simpl;
    try (split; [discriminate | congruence]); try tauto.
  rewrite andb_true_iff, Ascii.eqb_eq, IH.
  split; [intros [-> ->]; reflexivity | intros H; injection H; auto].
Qed.

Lemma text_eqb_refl (a : text) : text_eqb a a = true.
Proof. apply text_eqb_eq; reflexivity. Qed.

Lemma text_eqb_neq (a b : text) : text_eqb a b = false <-> a <> b.
Proof.
  rewrite <- text_eqb_eq. destruct (text_eqb a b); split; congruence.
Qed.

Lemma isspace_lower (c : ascii) : isspace (lower_char c) = isspace c.
Proof. ascii_cases c; reflexivity. Qed.

Lemma lower_char_idem (c : ascii) : lower_char (lower_char c) = lower_char c.
Proof. ascii_cases c; reflexivity. Qed.

Lemma lower_idem (s : text) : lower (lower s) = lower s.
Proof.
  unfold lower. rewrite map_map. apply map_ext. apply lower_char_idem.
Qed.

Lemma lstrip_lower (s : text) : lstrip (lower s) = lower (lstrip s).
Proof.
  induction s as [|c s IH]; simpl; [reflexivity|].
  rewrite isspace_lower. destruct (isspace c); [exact IH | reflexivity].
Qed.

Lemma rstrip_lower (s : text) : rstrip (lower s) = lower (rstrip s).
Proof.
  unfold rstrip, lower. rewrite <- map_rev.
  change (map lower_char (rev s)) with (lower (rev s)).
  rewrite lstrip_lower. unfold lower. rewrite map_rev. reflexivity.
Qed.

Lemma strip_lower (s : text) : strip (lower s) = lower (strip s).
Proof. unfold strip. rewrite lstrip_lower, rstrip_lower. reflexivity. Qed.

(** [lstrip] removes a prefix of whitespace and stops at a character that
    is not whitespace. *)
Lemma lstrip_split (s : text) :
  exists l, s = l ++ lstrip s /\ forallb isspace l = true.
Proof.
  induction s as [|c s [l [E F]]]; simpl.
  - exists []; auto.
  - destruct (isspace c) eqn:Hc.
    + exists (c :: l); simpl. rewrite Hc, F, <- E. auto.
    + exists []; auto.
Qed.

Lemma lstrip_head (s : text) :
  match lstrip s with
  | c :: _ => isspace c = false
  | [] => True
  end.
Proof.
  induction s as [|c s IH]; simpl; [exact I|].
  destruct (isspace c) eqn:Hc; [exact IH | exact Hc].
Qed.

Lemma lstrip_fixed (s : text) :
  match s with c :: _ => isspace c = false | [] => True end -> lstrip s = s.
Proof. destruct s as [|c s]; simpl; [reflexivity | intros ->; reflexivity]. Qed.

Lemma lstrip_idem (s : text) : lstrip (lstrip s) = lstrip s.
Proof. apply lstrip_fixed, lstrip_head. Qed.

Lemma rstrip_split (s : text) :
  exists r, s = rstrip s ++ r /\ forallb isspace r = true.
Proof.
  unfold rstrip. destruct (lstrip_split (rev s)) as [l [E F]].
  exists (rev l). split.
  - rewrite <- rev_app_distr, <- E, rev_involutive. reflexivity.
  - rewrite forallb_forall in *. intros x Hx. apply F. apply in_rev. exact Hx.
Qed.

(** What [strip] removes is whitespace. *)
Lemma strip_split (s : text) :
  exists l r, s = l ++ strip s ++ r
              /\ forallb isspace l = true /\ forallb isspace r = true.
Proof.
  unfold strip. destruct (lstrip_split s) as [l [E F]].
  destruct (rstrip_split (lstrip s)) as [r [E' F']].
  exists l, r. rewrite <- E', <- E. auto.
Qed.

Lemma last_char_app (s : text) (c : ascii) : last_char (s ++ [c]) = Some c.
Proof. unfold last_char. rewrite rev_app_distr. reflexivity. Qed.

Lemma last_char_app_ne (s t : text) :
  t <> [] -> last_char (s ++ t) = last_char t.
Proof.
  intros Ht. destruct (exists_last Ht) as [t' [c ->]].
  rewrite app_assoc, !last_char_app. reflexivity.
Qed.

Lemma rstrip_fixed (s : text) : ends_in_space s = false -> rstrip s = s.
Proof.
  unfold ends_in_space, last_char, rstrip. intros H.
  rewrite lstrip_fixed, rev_involutive; [reflexivity|].
  destruct (rev s); [exact I | exact H].
Qed.

Lemma rstrip_end (s : text) : ends_in_space (rstrip s) = false.
Proof.
  unfold ends_in_space, last_char, rstrip. rewrite rev_involutive.
  pose proof (lstrip_head (rev s)) as H.
  destruct (lstrip (rev s)); [reflexivity | exact H].
Qed.

Lemma starts_in_space_lstrip (s : text) : starts_in_space (lstrip s) = false.
Proof.
  pose proof (lstrip_head s) as H. unfold starts_in_space.
  destruct (lstrip s); [reflexivity | exact H].
Qed.

Lemma lstrip_fixed' (s : text) : starts_in_space s = false -> lstrip s = s.
Proof. intros H. apply lstrip_fixed. destruct s; [exact I | exact H]. Qed.

Lemma strip_end (s : text) : ends_in_space (strip s) = false.
Proof. apply rstrip_end. Qed.

Lemma rstrip_keeps_start (s : text) :
  starts_in_space s = false -> starts_in_space (rstrip s) = false.
Proof.
  intros H. destruct (rstrip_split s) as [r [E F]].
  destruct (rstrip s) as [|c u] eqn:Hu; [reflexivity|].
  rewrite E in H. exact H.
Qed.

Lemma strip_start (s : text) : starts_in_space (strip s) = false.
Proof. apply rstrip_keeps_start, starts_in_space_lstrip. Qed.

(** A text without whitespace at either end is left alone by [strip]. *)
Lemma strip_fixed (s : text) :
  starts_in_space s = false -> ends_in_space s = false -> strip s = s.
Proof.
  intros H1 H2. unfold strip. rewrite (lstrip_fixed' _ H1).
  apply rstrip_fixed, H2.
Qed.

Lemma strip_idem (s : text) : strip (strip s) = strip s.
Proof. apply strip_fixed; [apply strip_start | apply strip_end]. Qed.

Lemma ends_in_space_lower (s : text) : ends_in_space (lower s) = ends_in_space s.
Proof.
  unfold ends_in_space, last_char, lower. rewrite <- map_rev.
  destruct (rev s); simpl; [reflexivity | apply isspace_lower].
Qed.

Lemma starts_in_space_lower (s : text) :
  starts_in_space (lower s) = starts_in_space s.
Proof. destruct s; simpl; [reflexivity | apply isspace_lower]. Qed.

(** ** Splitting on a separator *)

Lemma split_on_nonempty (sep : ascii) (s : text) : split_on sep s <> [].
Proof.
  destruct s as [|c s]; simpl; [discriminate|].
  destruct (Ascii.eqb c sep); [discriminate|].
  destruct (split_on sep s); discriminate.
Qed.

(** Joining the fields with the separator gives the text back. *)
Lemma join_split_on (sep : ascii) (s : text) :
  join_with sep (split_on sep s) = s.
Proof.
  induction s as [|c s IH]; simpl; [reflexivity|].
  destruct (Ascii.eqb c sep) eqn:Hc.
  - apply Ascii.eqb_eq in Hc. subst c.
    pose proof (split_on_nonempty sep s) as Hne.
    simpl. destruct (split_on sep s) as [|f fs]; [congruence|].
    simpl in *. rewrite IH. reflexivity.
  - pose proof (split_on_nonempty sep s) as Hne.
    destruct (split_on sep s) as [|f fs]; [congruence|].
    simpl in *. destruct fs; simpl in *; rewrite <- IH; reflexivity.
Qed.

Lemma split_on_free (sep : ascii) (s : text) :
  free_of sep s = true -> split_on sep s = [s].
Proof.
  induction s as [|c s IH]; simpl; [reflexivity|].
  rewrite andb_true_iff, negb_true_iff. intros [Hc Hs].
  rewrite Hc, (IH Hs). reflexivity.
Qed.

Lemma split_on_app (sep : ascii) (f rest : text) :
  free_of sep f = true ->
  split_on sep (f ++ sep :: rest) = f :: split_on sep rest.
Proof.
  induction f as [|c f IH]; simpl.
  - intros _. rewrite Ascii.eqb_refl. reflexivity.
  - rewrite andb_true_iff, negb_true_iff. intros [Hc Hf].
    rewrite Hc, (IH Hf). reflexivity.
Qed.

(** ** Integer fields *)

Lemma digits_value_chars (s : text) : forall acc prev z,
  digits_value acc prev s = Some z ->
  forallb (fun c => is_digit c || Ascii.eqb c "_"%char) s = true.
Proof.
  induction s as [|c s IH]; intros acc prev z; simpl; [reflexivity|].
  destruct (is_digit c) eqn:Hd; simpl.
  - apply IH.
  - destruct (Ascii.eqb c "_"%char); [|discriminate].
    destruct prev; [apply IH | discriminate].
Qed.

Lemma int_char_not_colon (c : ascii) :
  int_char c = true -> negb (Ascii.eqb c ":"%char) = true.
Proof. ascii_cases c; vm_compute; congruence. Qed.

Lemma forallb_impl {A : Type} (p q : A -> bool) (l : list A) :
  (forall x, p x = true -> q x = true) ->
  forallb p l = true -> forallb q l = true.
Proof.
  intros H. rewrite !forallb_forall. intros Hp x Hx. apply H, Hp, Hx.
Qed.

Lemma digit_or_underscore_int_char (x : ascii) :
  is_digit x || Ascii.eqb x "_"%char = true -> int_char x = true.
Proof.
  unfold int_char. intros Hx.
  apply orb_true_iff in Hx. destruct Hx as [-> | ->];
    rewrite ?orb_true_r; reflexivity.
Qed.

Lemma lstrip_by_split (p : ascii -> bool) (s : text) :
  exists l, s = l ++ lstrip_by p s /\ forallb p l = true.
Proof.
  induction s as [|c s [l [E F]]]; simpl.
  - exists []; auto.
  - destruct (p c) eqn:Hc.
    + exists (c :: l); simpl. rewrite Hc, F, <- E. auto.
    + exists []; auto.
Qed.

Lemma strip_by_split (p : ascii -> bool) (s : text) :
  exists l r, s = l ++ strip_by p s ++ r
              /\ forallb p l = true /\ forallb p r = true.
Proof.
  unfold strip_by. destruct (lstrip_by_split p s) as [l [E F]].
  destruct (lstrip_by_split p (rev (lstrip_by p s))) as [r [E' F']].
  exists l, (rev r). split; [|split; [exact F|]].
  - rewrite <- rev_app_distr, <- E', rev_involutive. exact E.
  - rewrite forallb_forall in *. intros x Hx. apply F'. apply in_rev. exact Hx.
Qed.

Lemma lstrip_by_fixed (p : ascii -> bool) (s : text) :
  match s with c :: _ => p c = false | [] => True end -> lstrip_by p s = s.
Proof. destruct s as [|c s]; simpl; [reflexivity | intros ->; reflexivity]. Qed.

Lemma int_space_isspace (c : ascii) : int_space c = true -> isspace c = true.
Proof. unfold int_space. intros H. apply andb_true_iff in H. tauto. Qed.

Lemma py_int_literal (f : text) (z : Z) :
  py_int f = Ok z -> int_literal f = Some z.
Proof.
  unfold py_int. destruct (int_literal f) as [v|]; [|discriminate].
  destruct (_ <? _); [discriminate|]. intros H. inversion H. reflexivity.
Qed.

(** A text that [int()] accepts holds whitespace, digits, underscores and
    signs only. *)
Lemma py_int_chars (f : text) (z : Z) :
  py_int f = Ok z -> forallb int_char f = true.
Proof.
  intros H. apply py_int_literal in H. unfold int_literal in H.
  destruct (strip_by_split int_space f) as [l [r [E [Fl Fr]]]].
  assert (Hs : forallb int_char (strip_by int_space f) = true).
  { destruct (strip_by int_space f) as [|c d]; [reflexivity|].
    destruct (Ascii.eqb c "+"%char) eqn:Hp.
    - destruct (digits_value 0 false d) eqn:Hd; [|discriminate].
      simpl. unfold int_char at 1. rewrite Hp, !orb_true_r. simpl.
      eapply forallb_impl; [|eapply digits_value_chars; exact Hd].
      apply digit_or_underscore_int_char.
    - destruct (Ascii.eqb c "-"%char) eqn:Hm.
      + destruct (digits_value 0 false d) eqn:Hd; [|discriminate].
        simpl. unfold int_char at 1. rewrite Hm, !orb_true_r. simpl.
        eapply forallb_impl; [|eapply digits_value_chars; exact Hd].
        apply digit_or_underscore_int_char.
      + destruct (digits_value 0 false (c :: d)) eqn:Hd; [|discriminate].
        eapply forallb_impl; [|eapply digits_value_chars; exact Hd].
        apply digit_or_underscore_int_char. }
  assert (Hw : forall w, forallb int_space w = true -> forallb int_char w = true).
  { intros w. apply forallb_impl. intros x Hx. unfold int_char.
    rewrite (int_space_isspace x Hx). reflexivity. }
  rewrite E, !forallb_app, Hs, (Hw l Fl), (Hw r Fr). reflexivity.
Qed.

Lemma py_int_free_of_colon (f : text) (z : Z) :
  py_int f = Ok z -> free_of ":"%char f = true.
Proof.
  intros H. unfold free_of.
  eapply forallb_impl; [apply int_char_not_colon | eapply py_int_chars; exact H].
Qed.

(** [int()] only ever raises [ValueError]. *)
Lemma py_int_raises (f : text) (e : exn) :
  py_int f = Raise e -> exists msg, e = ValueError msg.
Proof.
  unfold py_int. destruct (int_literal f); [destruct (_ <? _)|];
    intros H; inversion H; eauto.
Qed.

Lemma digits_value_decimal (s : text) : forall acc prev,
  forallb is_digit s = true -> (s <> [] \/ prev = true) ->
  digits_value acc prev s = Some (decimal acc s).
Proof.
  induction s as [|c s IH]; intros acc prev Hd Hne; simpl.
  - destruct Hne as [Hne | ->]; [congruence | reflexivity].
  - simpl in Hd. apply andb_true_iff in Hd. destruct Hd as [Hc Hs].
    rewrite Hc. apply IH; auto.
Qed.

Lemma is_digit_not_space (c : ascii) : is_digit c = true -> isspace c = false.
Proof. ascii_cases c; vm_compute; congruence. Qed.

Lemma is_digit_not_sign (c : ascii) :
  is_digit c = true ->
  Ascii.eqb c "+"%char = false /\ Ascii.eqb c "-"%char = false.
Proof. ascii_cases c; vm_compute; intuition congruence. Qed.

Lemma is_digit_not_int_space (c : ascii) :
  is_digit c = true -> int_space c = false.
Proof.
  intros H. unfold int_space. rewrite (is_digit_not_space c H). reflexivity.
Qed.

Lemma strip_by_digits (s : text) :
  forallb is_digit s = true -> strip_by int_space s = s.
Proof.
  intros Hd. unfold strip_by.
  assert (H1 : lstrip_by int_space s = s).
  { apply lstrip_by_fixed. destruct s as [|c s]; [exact I|]. simpl in Hd.
    apply andb_true_iff in Hd. apply is_digit_not_int_space, Hd. }
  rewrite H1, lstrip_by_fixed; [apply rev_involutive|].
  destruct (rev s) as [|c u] eqn:Hr; [exact I|].
  apply is_digit_not_int_space. rewrite forallb_forall in Hd. apply Hd.
  apply in_rev. rewrite Hr. left; reflexivity.
Qed.

Lemma py_int_decimal (s : text) :
  s <> [] -> forallb is_digit s = true ->
  List.length s <= INT_MAX_STR_DIGITS ->
  py_int s = Ok (decimal 0 s).
Proof.
  intros Hne Hd Hlen. unfold py_int.
  assert (Hl : (INT_MAX_STR_DIGITS <? List.length (filter is_digit s)) = false).
  { apply Nat.ltb_ge. eapply Nat.le_trans; [apply filter_length_le | exact Hlen]. }
  rewrite Hl. unfold int_literal. rewrite (strip_by_digits s Hd).
  destruct s as [|c d]; [congruence|].
  assert (Hc : is_digit c = true) by (simpl in Hd; apply andb_true_iff in Hd; tauto).
  destruct (is_digit_not_sign c Hc) as [-> ->].
  rewrite digits_value_decimal; auto; left; discriminate.
Qed.

(** ** The duration parser *)

Lemma parse_duration_unfold (t : text) :
  t <> [] -> t <> str "No data" ->
  parse_duration_to_minutes (Some t) =
  match split_on ":"%char t with
  | [h; m; s] =>
      match py_int h, py_int m, py_int s with
      | Ok hh, Ok mm, Ok ss =>
          quotient <- int_truediv ss 60 ;;
          whole <- float_of_int (hh * 60 + mm) ;;
          Ok (Some (float_add whole quotient))
      | _, _, _ => Ok None
      end
  | _ => Ok None
  end.
Proof.
  intros H1 H2. unfold parse_duration_to_minutes.
  apply text_eqb_neq in H1, H2. rewrite H1, H2. simpl.
  destruct (split_on ":"%char t) as [|h [|m [|s [|x l]]]]; try reflexivity.
  destruct (py_int h) as [hh|e1] eqn:Eh.
  - destruct (py_int m) as [mm|e2] eqn:Em.
    + destruct (py_int s) as [ss|e3] eqn:Es.
      * cbn [bind]. unfold int_truediv, float_of_int.
        change (60 =? 0)%Z with false. cbv iota.
        destruct (FLOAT_LIMIT * Z.abs 60 <=? Z.abs ss)%Z; [reflexivity|].
        cbn [bind].
        destruct (FLOAT_LIMIT <=? Z.abs (hh * 60 + mm))%Z; reflexivity.
      * destruct (py_int_raises _ _ Es) as [msg ->]. reflexivity.
    + destruct (py_int_raises _ _ Em) as [msg ->]. reflexivity.
  - destruct (py_int_raises _ _ Eh) as [msg ->]. reflexivity.
Qed.

Lemma three_fields_split (h m s : text) :
  free_of ":"%char h = true -> free_of ":"%char m = true ->
  free_of ":"%char s = true ->
  split_on ":"%char (h ++ ":"%char :: m ++ ":"%char :: s) = [h; m; s].
Proof.
  intros Hh Hm Hs.
  rewrite (split_on_app _ _ _ Hh), (split_on_app _ _ _ Hm), (split_on_free _ _ Hs).
  reflexivity.
Qed.

Lemma with_colon_not_free (h rest : text) :
  free_of ":"%char (h ++ ":"%char :: rest) = false.
Proof.
  unfold free_of. rewrite forallb_app. simpl. apply andb_false_r.
Qed.

(** *** The size of an integer field *)

Lemma digit_val_range (c : ascii) :
  is_digit c = true -> (0 <= digit_val c <= 9)%Z.
Proof. ascii_cases c; vm_compute; intuition congruence. Qed.

(** The digits read after [acc] add at most one decimal place each. *)
Lemma digits_value_bound (s : text) : forall acc prev z,
  (0 <= acc)%Z -> digits_value acc prev s = Some z ->
  (0 <= z < (acc + 1) * 10 ^ Z.of_nat (List.length s))%Z.
Proof.
  induction s as [|c s IH]; intros acc prev z Hacc H.
  - simpl in H. destruct prev; [|discriminate]. inversion H; subst.
    simpl. lia.
  - cbn [digits_value] in H.
    replace (Z.of_nat (List.length (c :: s)))
      with (Z.of_nat (List.length s) + 1)%Z by (simpl List.length; lia).
    rewrite Z.pow_add_r by lia.
    assert (Hp : (0 < 10 ^ Z.of_nat (List.length s))%Z)
      by (apply Z.pow_pos_nonneg; lia).
    destruct (is_digit c) eqn:Hd.
    + pose proof (digit_val_range c Hd) as Hv.
      apply IH in H; [|lia]. nia.
    + destruct (Ascii.eqb c "_"%char); [|discriminate].
      destruct prev; [|discriminate].
      apply IH in H; [|exact Hacc]. nia.
Qed.

(** An integer field of [n] characters is below [10^n] in absolute
    value. *)
Lemma py_int_bound (f : text) (z : Z) (n : nat) :
  py_int f = Ok z -> List.length f <= n -> (Z.abs z < 10 ^ Z.of_nat n)%Z.
Proof.
  intros H Hn. apply py_int_literal in H. unfold int_literal in H.
  destruct (strip_by_split int_space f) as [l [r [E _]]].
  assert (Hlen : List.length (strip_by int_space f) <= n).
  { rewrite E in Hn. rewrite !length_app in Hn. lia. }
  assert (Hmono : forall a b : nat, a <= b -> (10 ^ Z.of_nat a <= 10 ^ Z.of_nat b)%Z)
    by (intros a b Hab; apply Z.pow_le_mono_r; lia).
  destruct (strip_by int_space f) as [|c d]; [discriminate|].
  simpl in Hlen.
  assert (Hd : forall v, digits_value 0 false d = Some v ->
                         (0 <= v < 10 ^ Z.of_nat n)%Z).
  { intros v Hv. apply digits_value_bound in Hv; [|lia].
    specialize (Hmono (List.length d) n). lia. }
  destruct (Ascii.eqb c "+"%char).
  - destruct (digits_value 0 false d) as [v|] eqn:Ev; [|discriminate].
    inversion H; subst. specialize (Hd z eq_refl). lia.
  - destruct (Ascii.eqb c "-"%char).
    + destruct (digits_value 0 false d) as [v|] eqn:Ev; [|discriminate].
      inversion H; subst. specialize (Hd v eq_refl). simpl. lia.
    + destruct (digits_value 0 false (c :: d)) as [v|] eqn:Ev; [|discriminate].
      inversion H; subst. apply digits_value_bound in Ev; [|lia].
      specialize (Hmono (List.length (c :: d)) n). simpl List.length in *. lia.
Qed.

Lemma py_int_bound_300 (f : text) (z : Z) :
  py_int f = Ok z -> List.length f <= 300 -> (Z.abs z < 10 ^ 300)%Z.
Proof. intros H L. exact (py_int_bound f z 300 H L). Qed.

Lemma FLOAT_LIMIT_large : (61 * 10 ^ 300 < FLOAT_LIMIT)%Z.
Proof. vm_compute. reflexivity. Qed.

(** C6.  The duration parser, wherever the floats can hold the fields: on
    three colon-separated integer fields of at most 300 characters each
    it returns [hours*60 + minutes + seconds/60], computed as Python
    does: the quotient [seconds/60] rounded to a float, the integer
    [hours*60 + minutes] converted to a float, and their floating-point
    sum; on a missing cell, the empty text, the text [No data] and on
    every text that is not three colon-separated integer fields it
    returns no value, without raising.  ["01:02:03"] gives the float
    62.05, ["00:00:00"] gives 0.0, ["1:2"] gives no value. *)
Theorem parse_duration_to_minutes_spec (d : cell) :
  (forall h m s hh mm ss,
         d = Some (h ++ ":"%char :: m ++ ":"%char :: s) ->
         py_int h = Ok hh -> py_int m = Ok mm -> py_int s = Ok ss ->
         List.length h <= 300 -> List.length m <= 300 ->
         List.length s <= 300 ->
         exists whole quotient,
           float_of_int (hh * 60 + mm) = Ok whole
           /\ int_truediv ss 60 = Ok quotient
           /\ parse_duration_to_minutes d = Ok (Some (float_add whole quotient)))
  /\ (d = None \/ d = Some [] \/ d = Some (str "No data") ->
      parse_duration_to_minutes d = Ok None)
  /\ (forall t, d = Some t -> ~ three_integer_fields t ->
      parse_duration_to_minutes d = Ok None)
  /\ parse_duration_to_minutes (Some (str "01:02:03"))
     = Ok (Some (decimal_float 6205 2))
  /\ parse_duration_to_minutes (Some (str "00:00:00"))
     = Ok (Some (S754_zero false))
  /\ parse_duration_to_minutes (Some (str "1:2")) = Ok None.
Proof.
  split.
  { intros h m s hh mm ss -> Hh Hm Hs Lh Lm Ls.
    pose proof (with_colon_not_free h (m ++ ":"%char :: s)) as Hnf.
    pose proof (py_int_bound_300 h hh Hh Lh) as Bh.
    pose proof (py_int_bound_300 m mm Hm Lm) as Bm.
    pose proof (py_int_bound_300 s ss Hs Ls) as Bs.
    pose proof FLOAT_LIMIT_large as HL.
    remember (10 ^ 300)%Z as B eqn:EB. clear EB.
    remember FLOAT_LIMIT as L eqn:EL.
    assert (Es : (L * Z.abs 60 <=? Z.abs ss)%Z = false).
    { apply Z.leb_gt. change (Z.abs 60) with 60%Z. lia. }
    assert (Ew : (L <=? Z.abs (hh * 60 + mm))%Z = false).
    { apply Z.leb_gt. lia. }
    subst L.
    exists (binary_normalize 53 1024 (hh * 60 + mm) 0 false),
           (SFdiv 53 1024 (exact_int ss) (exact_int 60)).
    split; [unfold float_of_int; rewrite Ew; reflexivity|].
    split; [unfold int_truediv; change (60 =? 0)%Z with false; cbv iota;
            rewrite Es; reflexivity|].
    rewrite parse_duration_unfold.
    - rewrite three_fields_split by (eapply py_int_free_of_colon; eassumption).
      rewrite Hh, Hm, Hs. unfold int_truediv, float_of_int.
      change (60 =? 0)%Z with false. cbv iota. rewrite Es. cbn [bind].
      rewrite Ew. reflexivity.
    - intros E. rewrite E in Hnf. discriminate.
    - intros E. rewrite E in Hnf. discriminate. }
  split.
  { intros [-> | [-> | ->]]; reflexivity. }
  split.
  { intros t -> Hn.
    destruct (text_eq_dec t []) as [->|H1]; [reflexivity|].
    destruct (text_eq_dec t (str "No data")) as [->|H2]; [reflexivity|].
    rewrite (parse_duration_unfold t H1 H2).
    pose proof (join_split_on ":"%char t) as J.
    destruct (split_on ":"%char t) as [|h [|m [|s [|x l]]]]; try reflexivity.
    destruct (py_int h) as [hh|] eqn:Eh; [|reflexivity].
    destruct (py_int m) as [mm|] eqn:Em; [|reflexivity].
    destruct (py_int s) as [ss|] eqn:Es; [|reflexivity].
    exfalso. apply Hn. exists h, m, s. simpl in J.
    repeat split; [symmetry; exact J | | | ]; eexists; eassumption. }
  split; [vm_compute; reflexivity|].
  split; [vm_compute; reflexivity|].
  reflexivity.
Qed.

Lemma parse_duration_to_minutes_spec_witness :
  (exists whole quotient,
     float_of_int (0 * 60 + 25) = Ok whole
     /\ int_truediv 0 60 = Ok quotient
     /\ parse_duration_to_minutes (Some (str "00:25:00"))
        = Ok (Some (float_add whole quotient)))
  /\ parse_duration_to_minutes None = Ok None
  /\ parse_duration_to_minutes (Some (str "1:2")) = Ok None.
Proof.
  split; [|split].
  - apply (proj1 (parse_duration_to_minutes_spec (Some (str "00:25:00")))
             (str "00") (str "25") (str "00") 0%Z 25%Z 0%Z);
      try reflexivity; simpl; lia.
  - apply (proj1 (proj2 (parse_duration_to_minutes_spec None))).
    left. reflexivity.
  - apply (proj1 (proj2 (proj2 (parse_duration_to_minutes_spec
                                  (Some (str "1:2")))))
             (str "1:2") eq_refl).
    intros [h [m [s [E _]]]].
    apply (f_equal (fun t => List.length (filter (Ascii.eqb ":"%char) t))) in E.
    rewrite filter_app, length_app in E. cbn [filter] in E.
    rewrite Ascii.eqb_refl in E. cbn [List.length] in E.
    rewrite filter_app, length_app in E. cbn [filter] in E.
    rewrite Ascii.eqb_refl in E. cbn [List.length] in E.
    change (List.length (filter (Ascii.eqb ":"%char) (str "1:2"))) with 1 in E.
    lia.
Defined.

(** C6, the input on which the code departs from it: the token is three
    colon-separated integer fields, and the parser returns neither a
    number nor the no-value marker: [seconds / 60] is beyond the floats
    and raises [OverflowError], which the handler for [ValueError] and
    [AttributeError] does not catch. *)
Lemma parse_duration_overflows :
  three_integer_fields long_seconds
  /\ parse_duration_to_minutes (Some long_seconds)
     = Raise (OtherError (str "integer division result too large for a float")).
Proof.
  split; [|vm_compute; reflexivity].
  exists (str "0"), (str "0"), (str "1" ++ repeat "0"%char 400).
  split; [reflexivity|].
  repeat split; eexists; vm_compute; reflexivity.
Qed.

(** The separators that [str.isspace] accepts and [int()] refuses make a
    field malformed. *)
Example parse_duration_refuses_separator :
  parse_duration_to_minutes (Some ("028"%char :: str "1:2:3")) = Ok None.
Proof. vm_compute. reflexivity. Qed.
(** ** The identity matcher *)

Lemma nodup_two {A : Type} (dec : forall x y : A, {x = y} + {x <> y})
  (l : list A) :
  2 <= List.length (nodup dec l) <->
  exists x y, x <> y /\ In x l /\ In y l.
Proof.
  split.
  - intros H. pose proof (NoDup_nodup dec l) as Hn.
    destruct (nodup dec l) as [|x [|y r]] eqn:E; simpl in H; try lia.
    exists x, y. repeat split.
    + inversion Hn as [|? ? Hx _]; subst. intros ->. apply Hx. left; reflexivity.
    + apply (nodup_In dec). rewrite E. left; reflexivity.
    + apply (nodup_In dec). rewrite E. right; left; reflexivity.
  - intros [x [y [Hxy [Hx Hy]]]].
    apply (nodup_In dec) in Hx, Hy.
    destruct (nodup dec l) as [|u [|v r]]; simpl in *; try lia; try tauto.
    destruct Hx as [<- | []], Hy as [<- | []]. congruence.
Qed.

Lemma existsb_text_eqb (t : text) (l : list text) :
  existsb (text_eqb t) l = true <-> In t l.
Proof.
  rewrite existsb_exists. split.
  - intros [x [Hx E]]. apply text_eqb_eq in E. subst. exact Hx.
  - intros H. exists t. split; [exact H | apply text_eqb_refl].
Qed.

Lemma shared_parts_two (a b : text) :
  (2 <=? GetGustoHours.shared_parts a b) = true <-> share_two_tokens a b.
Proof.
  unfold GetGustoHours.shared_parts, share_two_tokens.
  rewrite Nat.leb_le, nodup_two. split.
  - intros [x [y [Hxy [Hx Hy]]]].
    apply filter_In in Hx, Hy. rewrite existsb_text_eqb in Hx, Hy.
    exists x, y. tauto.
  - intros [x [y [Hxy [Hxa [Hxb [Hya Hyb]]]]]].
    exists x, y. rewrite !filter_In, !existsb_text_eqb. tauto.
Qed.

Lemma share_two_tokens_sym (a b : text) :
  share_two_tokens a b -> share_two_tokens b a.
Proof.
  intros [x [y H]]. exists x, y. tauto.
Qed.

Lemma share_two_tokens_nonempty (a b : text) :
  share_two_tokens a b -> a <> [] /\ b <> [].
Proof.
  intros [x [y [_ [Ha [Hb _]]]]]. split; intros ->; simpl in *; tauto.
Qed.

(** The matcher over a whole set of visit-provider identities. *)
Lemma is_in_doxy_iff (doxy_normalized : list text) (a : text) :
  GetGustoHours.is_in_doxy doxy_normalized a = true <->
  a <> [] /\ exists b, In b doxy_normalized /\ (a = b \/ share_two_tokens a b).
Proof.
  unfold GetGustoHours.is_in_doxy. destruct a as [|c a].
  - split; [discriminate | intros [H _]; congruence].
  - rewrite existsb_exists. split.
    + intros [b [Hb H]]. split; [discriminate|]. exists b. split; [exact Hb|].
      apply orb_true_iff in H. destruct H as [H|H].
      * right. apply shared_parts_two, H.
      * left. apply text_eqb_eq, H.
    + intros [_ [b [Hb H]]]. exists b. split; [exact Hb|].
      apply orb_true_iff. destruct H as [H|H].
      * right. apply text_eqb_eq, H.
      * left. apply shared_parts_two, H.
Qed.

(** C5.  The identity matcher on a pair of normalized identities: for
    non-empty identities it answers true exactly when they are equal or
    share at least two whitespace-delimited tokens; when either one is
    empty it answers false. *)
Theorem identity_matcher_spec (a b : text) :
  (a <> [] -> b <> [] ->
   (GetGustoHours.is_in_doxy [b] a = true <-> a = b \/ share_two_tokens a b))
  /\ (a = [] \/ b = [] -> GetGustoHours.is_in_doxy [b] a = false).
Proof.
  split.
  - intros Ha Hb. rewrite is_in_doxy_iff. split.
    + intros [_ [b' [[<- | []] H]]]. exact H.
    + intros H. split; [exact Ha|]. exists b. split; [left; reflexivity | exact H].
  - intros H. destruct (GetGustoHours.is_in_doxy [b] a) eqn:E; [|reflexivity].
    apply is_in_doxy_iff in E. destruct E as [Ha [b' [[<- | []] Hm]]].
    destruct H as [H | H]; [congruence|]. subst b.
    destruct Hm as [Hm | Hm]; [congruence|].
    apply share_two_tokens_nonempty in Hm. tauto.
Qed.

Lemma identity_matcher_spec_witness :
  (GetGustoHours.is_in_doxy [str "jane doe"] (str "jane q doe") = true <->
   str "jane q doe" = str "jane doe"
   \/ share_two_tokens (str "jane q doe") (str "jane doe"))
  /\ GetGustoHours.is_in_doxy [str "jane doe"] [] = false.
Proof.
  split.
  - apply (proj1 (identity_matcher_spec (str "jane q doe") (str "jane doe")));
      discriminate.
  - apply (proj2 (identity_matcher_spec [] (str "jane doe"))).
    left. reflexivity.
Defined.

(** The matcher is symmetric. *)
Lemma is_in_doxy_symmetric (a b : text) :
  GetGustoHours.is_in_doxy [b] a = GetGustoHours.is_in_doxy [a] b.
Proof.
  assert (H : forall x y, GetGustoHours.is_in_doxy [y] x = true ->
                          GetGustoHours.is_in_doxy [x] y = true).
  { intros x y Hxy. apply is_in_doxy_iff in Hxy.
    destruct Hxy as [Hx [y' [[<- | []] Hm]]].
    apply is_in_doxy_iff. split.
    - destruct Hm as [<- | Hm]; [exact Hx|].
      apply share_two_tokens_nonempty in Hm. tauto.
    - exists x. split; [left; reflexivity|].
      destruct Hm as [-> | Hm]; [left; reflexivity|].
      right. apply share_two_tokens_sym, Hm. }
  destruct (GetGustoHours.is_in_doxy [b] a) eqn:E1,
           (GetGustoHours.is_in_doxy [a] b) eqn:E2; try reflexivity.
  - apply H in E1. congruence.
  - apply H in E2. congruence.
Qed.

(** ** Normalization: what fails *)


(** C4, as stated, fails: whitespace inside the name is not collapsed. *)
Lemma normalize_name_keeps_inner_whitespace :
  ~ (forall x : text,
       collapse_whitespace (GetGustoHours.normalize_name (Some x))
       = GetGustoHours.normalize_name (Some x)).
Proof.
  intros H. specialize (H (str "John  Smith")). vm_compute in H. discriminate.
Qed.

(** ** Sorting and grouping *)

Lemma insert_by_perm {A : Type} (f : A -> A -> bool) (x : A) (l : list A) :
  Permutation (insert_by f x l) (x :: l).
Proof.
  induction l as [|y l IH]; simpl; [reflexivity|].
  destruct (f x y); [reflexivity|].
  rewrite IH. apply perm_swap.
Qed.

Lemma sort_by_perm {A : Type} (f : A -> A -> bool) (l : list A) :
  Permutation (sort_by f l) l.
Proof.
  induction l as [|x l IH]; simpl; [reflexivity|].
  rewrite insert_by_perm, IH. reflexivity.
Qed.

Lemma sort_by_In {A : Type} (f : A -> A -> bool) (l : list A) (x : A) :
  In x (sort_by f l) <-> In x l.
Proof.
  split; apply Permutation_in;
    [apply sort_by_perm | apply Permutation_sym, sort_by_perm].
Qed.

Lemma sort_by_length {A : Type} (f : A -> A -> bool) (l : list A) :
  List.length (sort_by f l) = List.length l.
Proof. apply Permutation_length, sort_by_perm. Qed.

Lemma insert_by_sorted {A : Type} (f : A -> A -> bool) (x : A) (l : list A) :
  (forall a b, f a b = false -> f b a = true) ->
  Sorted (fun a b => f a b = true) l ->
  Sorted (fun a b => f a b = true) (insert_by f x l).
Proof.
  intros Htot. induction l as [|y l IH]; intros Hs; simpl.
  - repeat constructor.
  - destruct (f x y) eqn:E.
    + constructor; [exact Hs | constructor; exact E].
    + inversion Hs as [|? ? Hs' Hhd]; subst.
      constructor; [apply IH, Hs'|].
      destruct l as [|z l]; simpl.
      * constructor. apply Htot, E.
      * destruct (f x z); constructor.
        -- apply Htot, E.
        -- inversion Hhd; assumption.
Qed.

Lemma sort_by_sorted {A : Type} (f : A -> A -> bool) (l : list A) :
  (forall a b, f a b = false -> f b a = true) ->
  Sorted (fun a b => f a b = true) (sort_by f l).
Proof.
  intros Htot. induction l as [|x l IH]; simpl; [constructor|].
  apply insert_by_sorted; assumption.
Qed.

Lemma Sorted_impl {A : Type} (R S : A -> A -> Prop) (l : list A) :
  (forall a b, R a b -> S a b) -> Sorted R l -> Sorted S l.
Proof.
  intros H. induction 1 as [|x l Hs IH Hhd]; constructor; [exact IH|].
  destruct Hhd; constructor; auto.
Qed.

Lemma sort_desc_nat_sorted {A : Type} (key : A -> nat) (l : list A) :
  Sorted (fun a b => key b <= key a) (sort_desc_nat key l).
Proof.
  eapply Sorted_impl; [|apply sort_by_sorted].
  - intros a b H. simpl in H. apply Nat.leb_le, H.
  - intros a b H. simpl in *. apply Nat.leb_le. apply Nat.leb_gt in H. lia.
Qed.

Lemma Qleb_le (a b : Q) : Qleb a b = true <-> (a <= b)%Q.
Proof.
  unfold Qleb. destruct (Qcompare a b) eqn:E.
  - apply Qeq_alt in E. split; [intros _; rewrite E; apply Qle_refl | reflexivity].
  - apply Qlt_alt in E. split; [intros _; apply Qlt_le_weak, E | reflexivity].
  - apply Qgt_alt in E. split; [discriminate|].
    intros H. exfalso. apply (Qlt_not_le _ _ E H).
Qed.

Lemma Qltb_lt (a b : Q) : Qltb a b = true <-> (a < b)%Q.
Proof.
  unfold Qltb. rewrite Qlt_alt. destruct (Qcompare a b); split; congruence.
Qed.

Lemma sort_desc_Q_sorted {A : Type} (key : A -> Q) (l : list A) :
  Sorted (fun a b => (key b <= key a)%Q) (sort_desc_Q key l).
Proof.
  eapply Sorted_impl; [|apply sort_by_sorted].
  - intros a b H. simpl in H. apply Qleb_le, H.
  - intros a b H. simpl in *. apply Qleb_le.
    destruct (Qlt_le_dec (key a) (key b)) as [Hlt|Hle].
    + apply Qlt_le_weak, Hlt.
    + apply Qleb_le in Hle. congruence.
Qed.

Lemma present_In (cells : list cell) (k : text) :
  In k (present cells) <-> In (Some k) cells.
Proof.
  induction cells as [|[t|] cells IH]; simpl; [tauto | |].
  - rewrite IH. split; intros [H|H]; auto; left; congruence.
  - rewrite IH. split; [auto | intros [H|H]; [discriminate | exact H]].
Qed.

Lemma present_length (cells : list cell) :
  List.length (present cells) <= List.length cells.
Proof.
  induction cells as [|[t|] cells IH]; simpl; lia.
Qed.

Lemma nodup_length_le {A : Type} (dec : forall x y : A, {x = y} + {x <> y})
  (l : list A) : List.length (nodup dec l) <= List.length l.
Proof.
  induction l as [|x l IH]; simpl; [lia|].
  destruct (in_dec dec x l); simpl; lia.
Qed.

Lemma group_keys_In (cells : list cell) (k : text) :
  In k (group_keys cells) <-> In (Some k) cells.
Proof.
  unfold group_keys. rewrite sort_by_In, nodup_In. apply present_In.
Qed.

Lemma group_keys_NoDup (cells : list cell) : NoDup (group_keys cells).
Proof.
  unfold group_keys.
  eapply Permutation_NoDup; [apply Permutation_sym, sort_by_perm|].
  apply NoDup_nodup.
Qed.

Lemma group_keys_length (cells : list cell) :
  List.length (group_keys cells) <= List.length cells.
Proof.
  unfold group_keys. rewrite sort_by_length.
  etransitivity; [apply nodup_length_le | apply present_length].
Qed.

Lemma cell_eqb_eq (a b : cell) : cell_eqb a b = true <-> a = b.
Proof.
  destruct a as [x|], b as [y|]; simpl; try (split; congruence).
  rewrite text_eqb_eq. split; congruence.
Qed.

(** ** Rounding *)

Lemma round_half_even_close (q : Q) :
  (Qabs (inject_Z (round_half_even q) - q) <= 1 # 2)%Q.
Proof.
  unfold round_half_even.
  pose proof (Qfloor_le q) as H1. pose proof (Qlt_floor q) as H2.
  rewrite inject_Z_plus in H2.
  change (inject_Z 1) with 1%Q in H2.
  apply Qabs_Qle_condition.
  destruct (Qcompare (q - inject_Z (Qfloor q)) (1 # 2)) eqn:E.
  - apply Qeq_alt in E.
    destruct (Z.even (Qfloor q)); rewrite ?inject_Z_plus;
      change (inject_Z 1) with 1%Q; split; lra.
  - apply Qlt_alt in E. split; lra.
  - apply Qgt_alt in E. rewrite inject_Z_plus.
    change (inject_Z 1) with 1%Q. split; lra.
Qed.

Lemma pow10_pos (d : nat) : (0 < 10 ^ Z.of_nat d)%Z.
Proof. apply Z.pow_pos_nonneg; lia. Qed.

(** [py_round d q] is a whole number of units of [10^-d], at most half a
    unit away from [q]. *)
Lemma py_round_close (d : nat) (q : Q) :
  (Qabs (py_round d q - q) * inject_Z (10 ^ Z.of_nat d) <= 1 # 2)%Q.
Proof.
  unfold py_round.
  set (s := (10 ^ Z.of_nat d)%Z).
  assert (Hs : (0 < s)%Z) by apply pow10_pos.
  set (n := round_half_even (q * inject_Z s)).
  assert (Hq : (0 < inject_Z s)%Q).
  { change 0%Q with (inject_Z 0). rewrite <- Zlt_Qlt. exact Hs. }
  assert (E : (n # Z.to_pos s == inject_Z n / inject_Z s)%Q).
  { rewrite Qmake_Qdiv. rewrite Z2Pos.id by exact Hs. reflexivity. }
  rewrite E.
  rewrite <- (Qabs_pos (inject_Z s)) at 2 by (apply Qlt_le_weak, Hq).
  rewrite <- Qabs_Qmult.
  assert (E2 : ((inject_Z n / inject_Z s - q) * inject_Z s
                == inject_Z n - q * inject_Z s)%Q).
  { field. intros H0. rewrite H0 in Hq. apply (Qlt_irrefl _ Hq). }
  rewrite E2. apply round_half_even_close.
Qed.

Lemma py_round_2_close (q : Q) : (Qabs (py_round 2 q - q) <= 1 # 200)%Q.
Proof.
  pose proof (py_round_close 2 q) as H.
  change (inject_Z (10 ^ Z.of_nat 2)) with 100%Q in H.
  pose proof (Qabs_nonneg (py_round 2 q - q)) as H0.
  lra.
Qed.

(** ** Duration performance metrics *)

Lemma durations_of_valid (k : text) (df : list VisitRecord) :
  durations_of k (filter has_duration df) = durations_of k df.
Proof.
  unfold durations_of, has_duration.
  induction df as [|r df IH]; simpl; [reflexivity|].
  destruct (Duration_Minutes (duration r)) eqn:E; simpl.
  - rewrite E, IH. reflexivity.
  - rewrite IH. destruct (cell_eqb (provider_name r) (Some k)); reflexivity.
Qed.

Lemma map_sort_perm {A B : Type} (f : A -> A -> bool) (g : A -> B) (l : list A) :
  Permutation (map g (sort_by f l)) (map g l).
Proof. apply Permutation_map, sort_by_perm. Qed.

(** ** Estimated hours worked *)

Lemma in_flat_map_pairs {A B C : Type} (f : A -> B -> C) (p : A -> B -> bool)
  (la : list A) (lb : list B) (c : C) :
  In c (flat_map (fun a => map (f a) (filter (p a) lb)) la) <->
  exists a b, In a la /\ In b lb /\ p a b = true /\ c = f a b.
Proof.
  rewrite in_flat_map. split.
  - intros [a [Ha H]]. apply in_map_iff in H. destruct H as [b [E Hb]].
    apply filter_In in Hb. exists a, b. intuition congruence.
  - intros [a [b [Ha [Hb [Hp ->]]]]]. exists a. split; [exact Ha|].
    apply in_map_iff. exists b. split; [reflexivity|].
    apply filter_In. tauto.
Qed.

Lemma length_flat_map {A B : Type} (f : A -> list B) (l : list A) :
  List.length (flat_map f l) = list_sum (map (fun a => List.length (f a)) l).
Proof.
  induction l as [|a l IH]; simpl; [reflexivity|].
  rewrite length_app, IH. reflexivity.
Qed.

(** The number of rows of the join. *)
Lemma hours_worked_length (g : list GustoHoursRow) (m : list MetricsRow) :
  List.length (GetHoursWorked.get_hours_worked g m)
  = list_sum
      (map (fun gr => List.length (filter (GetHoursWorked.same_key gr) m)) g).
Proof.
  unfold GetHoursWorked.get_hours_worked, sort_desc_Q.
  rewrite sort_by_length, length_flat_map.
  f_equal. apply map_ext. intros gr. apply length_map.
Qed.

Lemma hours_worked_rows (g : list GustoHoursRow) (m : list MetricsRow)
  (row : HoursWorkedRow) :
  In row (GetHoursWorked.get_hours_worked g m) <->
  exists gr mr,
    In gr g /\ In mr m /\ GetHoursWorked.same_key gr mr = true
    /\ row = GetHoursWorked.merged_row gr mr.
Proof.
  unfold GetHoursWorked.get_hours_worked, sort_desc_Q.
  rewrite sort_by_In. apply in_flat_map_pairs.
Qed.

(** C1.  The Hours Worked reconciler is the inner join of the payroll
    table and the performance table on equality of the normalized names:
    a row is emitted exactly for each payroll row and metrics row with
    equal normalized names, and carries the payroll name and hours, the
    visit count and [visit_count * 20 / 60] rounded to 2 decimals; it has
    as many rows as there are such pairs; the rounded value is within
    0.005 of [visit_count * 20 / 60]; a payroll row without a metrics row
    of the same normalized name gives no row, and no error. *)
Theorem hours_worked_is_inner_join
  (gusto_hours : list GustoHoursRow) (metrics : list MetricsRow) :
  let out := GetHoursWorked.get_hours_worked gusto_hours metrics in
  (forall row,
     In row out <->
     exists g m,
       In g gusto_hours /\ In m metrics
       /\ GetHoursWorked.normalize_name (Some (gh_name g))
          = GetHoursWorked.normalize_name (Some (pm_provider m))
       /\ row = {| hw_provider := gh_name g;
                   hw_gusto_hours := gh_total_hours g;
                   hw_total_visits := pm_total_visits m;
                   hw_hours_worked :=
                     py_round 2
                       (inject_Z (Z.of_nat (pm_total_visits m) * 20)
                        / inject_Z 60)%Q |})
  /\ List.length out
     = list_sum
         (map (fun g =>
                 List.length
                   (filter (fun m =>
                              text_eqb
                                (GetHoursWorked.normalize_name (Some (gh_name g)))
                                (GetHoursWorked.normalize_name (Some (pm_provider m))))
                           metrics))
              gusto_hours)
  /\ (forall row, In row out ->
        (Qabs (hw_hours_worked row
               - inject_Z (Z.of_nat (hw_total_visits row) * 20) / inject_Z 60)
         <= 1 # 200)%Q)
  /\ Sorted (fun a b => (hw_gusto_hours b <= hw_gusto_hours a)%Q) out.
Proof.
  intros out. split; [|split; [|split]].
  - intros row. unfold out. rewrite hours_worked_rows.
    split; intros [g [m [Hg [Hm [Hk ->]]]]]; exists g, m;
      (repeat split; try assumption);
      [apply text_eqb_eq, Hk | apply text_eqb_eq, Hk].
  - apply hours_worked_length.
  - intros row H. unfold out in H. apply hours_worked_rows in H.
    destruct H as [g [m [_ [_ [_ ->]]]]].
    cbn [GetHoursWorked.merged_row hw_hours_worked hw_total_visits].
    apply py_round_2_close.
  - apply sort_desc_Q_sorted.
Qed.

(** The join on one payroll row and one metrics row of the same person. *)
Lemma hours_worked_is_inner_join_witness :
  let g := {| gh_name := str "Jane Doe"; gh_total_hours := 40 |} in
  let m := {| pm_provider := str "Jane Doe NP"; pm_total_visits := 3;
              pm_visits_over_20 := 3; pm_pct_over_20 := 100;
              pm_hours_over_20 := 5 # 4; pm_avg_duration := 25 |} in
  In {| hw_provider := str "Jane Doe"; hw_gusto_hours := 40;
        hw_total_visits := 3;
        hw_hours_worked :=
          py_round 2 (inject_Z (Z.of_nat 3 * 20) / inject_Z 60)%Q |}
     (GetHoursWorked.get_hours_worked [g] [m]).
Proof.
  intros g m.
  apply (proj2 (proj1 (hours_worked_is_inner_join [g] [m]) _)).
  exists g, m.
  split; [left; reflexivity|]. split; [left; reflexivity|].
  split; [vm_compute; reflexivity | reflexivity].
Defined.

(** The join uses equality of the keys, not the matcher: two names that
    the matcher accepts but whose keys differ give no row. *)
Example hours_worked_not_fuzzy :
  let g := {| gh_name := str "Jane Q Doe"; gh_total_hours := 40 |} in
  let m := {| pm_provider := str "Jane Doe"; pm_total_visits := 3;
              pm_visits_over_20 := 3; pm_pct_over_20 := 100;
              pm_hours_over_20 := 1.25; pm_avg_duration := 25 |} in
  GetGustoHours.is_in_doxy
    [GetGustoHours.normalize_name (Some (pm_provider m))]
    (GetGustoHours.normalize_name (Some (gh_name g))) = true
  /\ GetHoursWorked.get_hours_worked [g] [m] = [].
Proof. split; vm_compute; reflexivity. Qed.

(** Three visits matched to a payroll row give one hour. *)
Example hours_worked_three_visits :
  let g := {| gh_name := str "Jane Doe, NP"; gh_total_hours := 40 |} in
  exists row,
    GetHoursWorked.get_hours_worked
      [g] (get_doxy_performance_metrics three_visits) = [row]
    /\ (hw_hours_worked row == 1)%Q.
Proof. eexists. split; [vm_compute; reflexivity | reflexivity]. Qed.

(** ** Row counts *)

Lemma filter_length_le {A : Type} (p : A -> bool) (l : list A) :
  List.length (filter p l) <= List.length l.
Proof. induction l as [|x l IH]; simpl; [lia|]. destruct (p x); simpl; lia. Qed.

Lemma filter_filter_length {A : Type} (p q : A -> bool) (l : list A) :
  List.length (filter p (filter q l)) <= List.length (filter p l).
Proof.
  induction l as [|x l IH]; simpl; [lia|].
  destruct (q x); simpl; destruct (p x); simpl; lia.
Qed.

Lemma doxy_visits_length (df : list VisitRecord) :
  List.length (Api.get_doxy_visits df) <= List.length df.
Proof.
  unfold Api.get_doxy_visits, sort_desc_nat.
  rewrite sort_by_length, length_map.
  etransitivity; [apply group_keys_length|]. rewrite length_map. lia.
Qed.

Lemma performance_metrics_length (df : list VisitRecord) :
  List.length (Api.get_doxy_performance_metrics df) <= List.length df.
Proof.
  unfold Api.get_doxy_performance_metrics, sort_desc_nat.
  rewrite sort_by_length, length_map.
  etransitivity; [apply group_keys_length|]. rewrite length_map.
  apply filter_length_le.
Qed.

Lemma oncehub_length (df : list BookingSummaryRecord) :
  List.length (get_oncehub_visits df)
  = List.length (filter (fun r => not_excluded (booking_provider r)) df).
Proof.
  unfold get_oncehub_visits, sort_desc_Z.
  rewrite sort_by_length, length_map. reflexivity.
Qed.

Lemma program_pivot_length (df : list ProgramEventRecord) :
  List.length (program_rows (program_pivot df))
  <= List.length (filter (fun r => not_excluded (owner r)) df).
Proof.
  unfold program_pivot. destruct df as [|r0 df0]; [simpl; lia|].
  remember (r0 :: df0) as df. cbn [program_rows]. unfold sort_desc_nat.
  rewrite sort_by_length, length_map.
  etransitivity; [apply group_keys_length|]. rewrite length_map.
  apply filter_filter_length.
Qed.

Lemma gusto_hours_rows_length (rows : list PayrollRecord) (dp : list text) :
  List.length (GetGustoHours.gusto_hours_rows rows dp)
  <= List.length
       (filter (fun r => not_excluded (Some (GetGustoHours.clean_name r))) rows).
Proof.
  unfold GetGustoHours.gusto_hours_rows, sort_desc_Q. rewrite sort_by_length.
  induction rows as [|r rows IH]; [simpl; lia|].
  cbn [flat_map filter]. rewrite filter_app, length_app.
  destruct (not_excluded (Some (GetGustoHours.clean_name r))) eqn:E;
    destruct (GetGustoHours.is_in_doxy _ _);
    try destruct (total_hours r) as [h|];
    try destruct (Qltb 0 h);
    cbn [filter gh_name List.length app]; rewrite ?E;
    cbn [filter gh_name List.length app]; lia.
Qed.

Lemma list_sum_bound {A : Type} (f : A -> nat) (b : nat) (l : list A) :
  (forall x, In x l -> f x <= b) -> list_sum (map f l) <= List.length l * b.
Proof.
  induction l as [|x l IH]; simpl; intros H; [lia|].
  pose proof (H x (or_introl eq_refl)).
  assert (list_sum (map f l) <= List.length l * b) by (apply IH; auto).
  lia.
Qed.

Lemma filter_key_le_1 {A : Type} (f : A -> text) (k : text) (l : list A) :
  NoDup (map f l) ->
  List.length (filter (fun x => text_eqb k (f x)) l) <= 1.
Proof.
  induction l as [|x l IH]; simpl; intros Hn; [lia|].
  inversion Hn as [|? ? Hx Hn']; subst.
  destruct (text_eqb k (f x)) eqn:E; [|apply IH, Hn'].
  apply text_eqb_eq in E. subst k. simpl.
  assert (Hnone : filter (fun y => text_eqb (f x) (f y)) l = []).
  { clear IH Hn Hn'. induction l as [|y l IH]; simpl; [reflexivity|].
    destruct (text_eqb (f x) (f y)) eqn:E.
    - apply text_eqb_eq in E. exfalso. apply Hx. simpl. left. congruence.
    - apply IH. intros H. apply Hx. right. exact H. }
  rewrite Hnone. simpl. lia.
Qed.

Lemma filter_length_count {A : Type} (p : A -> bool) (l : list A) :
  List.length (filter p l) = list_sum (map (fun x => if p x then 1 else 0) l).
Proof.
  induction l as [|x l IH]; simpl; [reflexivity|].
  destruct (p x); simpl; rewrite IH; reflexivity.
Qed.

Lemma list_sum_map_add {A : Type} (f g : A -> nat) (l : list A) :
  list_sum (map (fun x => f x + g x) l)
  = list_sum (map f l) + list_sum (map g l).
Proof. induction l as [|x l IH]; simpl; [reflexivity|]. rewrite IH. lia. Qed.

(** Counting the matching pairs row by row or column by column. *)
Lemma count_pairs_swap {A B : Type} (p : A -> B -> bool)
  (la : list A) (lb : list B) :
  list_sum (map (fun a => List.length (filter (p a) lb)) la)
  = list_sum (map (fun b => List.length (filter (fun a => p a b) la)) lb).
Proof.
  induction la as [|a la IH]; simpl.
  - induction lb as [|b lb IHb]; simpl; [reflexivity | exact IHb].
  - rewrite IH, filter_length_count, <- list_sum_map_add.
    f_equal. apply map_ext. intros b. destruct (p a b); reflexivity.
Qed.

Lemma text_eqb_sym (a b : text) : text_eqb a b = text_eqb b a.
Proof.
  destruct (text_eqb a b) eqn:E.
  - apply text_eqb_eq in E. subst. symmetry. apply text_eqb_refl.
  - symmetry. apply text_eqb_neq. apply text_eqb_neq in E. congruence.
Qed.

(** C2, as stated, fails: one payroll row joined with the two metrics rows
    of the same person under two credentials gives two rows. *)
Lemma hours_worked_outgrows_payroll :
  let gusto_hours :=
    GetGustoHours.gusto_hours_rows one_payroll_row
      (map dv_provider_name (get_doxy_visits two_credentials_log)) in
  let metrics := get_doxy_performance_metrics two_credentials_log in
  ~ (List.length (GetHoursWorked.get_hours_worked gusto_hours metrics)
     <= List.length gusto_hours).
Proof. vm_compute. intros H. inversion H as [|? H']. inversion H'. Qed.

(** C2, amended.  Every table other than Hours Worked has at most as many
    rows as its source has after the exclusion filter.  Hours Worked has
    one row per pair of a payroll row and a metrics row with the same
    normalized name: at most the product of the two row counts, and at
    most the row count of one table when the normalized names of the
    other are pairwise distinct. *)
Theorem row_counts_bounded
  (doxy_df : list VisitRecord) (booking_df : list BookingSummaryRecord)
  (account_df : list ProgramEventRecord) (gusto_df : list PayrollRecord)
  (doxy_providers : list text)
  (gusto_hours : list GustoHoursRow) (metrics : list MetricsRow) :
  List.length (get_doxy_visits doxy_df)
  <= List.length (filter (fun r => not_excluded (provider_name r)) doxy_df)
  /\ List.length (get_oncehub_visits booking_df)
     <= List.length
          (filter (fun r => not_excluded (booking_provider r)) booking_df)
  /\ List.length (program_rows (program_pivot account_df))
     <= List.length (filter (fun r => not_excluded (owner r)) account_df)
  /\ List.length (GetGustoHours.gusto_hours_rows gusto_df doxy_providers)
     <= List.length
          (filter (fun r => not_excluded (Some (GetGustoHours.clean_name r)))
                  gusto_df)
  /\ List.length (get_doxy_performance_metrics doxy_df)
     <= List.length (filter (fun r => not_excluded (provider_name r)) doxy_df)
  /\ List.length (GetHoursWorked.get_hours_worked gusto_hours metrics)
     <= List.length gusto_hours * List.length metrics
  /\ (NoDup (map metrics_key metrics) ->
      List.length (GetHoursWorked.get_hours_worked gusto_hours metrics)
      <= List.length gusto_hours)
  /\ (NoDup (map gusto_key gusto_hours) ->
      List.length (GetHoursWorked.get_hours_worked gusto_hours metrics)
      <= List.length metrics).
Proof.
  repeat split.
  - apply doxy_visits_length.
  - rewrite oncehub_length. lia.
  - apply program_pivot_length.
  - apply gusto_hours_rows_length.
  - apply performance_metrics_length.
  - rewrite hours_worked_length. apply list_sum_bound.
    intros g _. apply filter_length_le.
  - intros Hn. rewrite hours_worked_length.
    rewrite <- (Nat.mul_1_r (List.length gusto_hours)).
    apply list_sum_bound. intros g _.
    apply (filter_key_le_1 metrics_key (gusto_key g) metrics Hn).
  - intros Hn. rewrite hours_worked_length, count_pairs_swap.
    rewrite <- (Nat.mul_1_r (List.length metrics)).
    apply list_sum_bound. intros m _.
    unfold GetHoursWorked.same_key.
    erewrite filter_ext;
      [apply (filter_key_le_1 gusto_key (metrics_key m) gusto_hours Hn)|].
    intros g. apply text_eqb_sym.
Qed.

Lemma row_counts_bounded_witness :
  let gusto_hours :=
    GetGustoHours.gusto_hours_rows one_payroll_row
      (map dv_provider_name (get_doxy_visits two_providers_log)) in
  let metrics := get_doxy_performance_metrics two_providers_log in
  List.length (GetHoursWorked.get_hours_worked gusto_hours metrics)
  <= List.length gusto_hours
  /\ List.length (GetHoursWorked.get_hours_worked gusto_hours metrics)
     <= List.length metrics.
Proof.
  intros gusto_hours metrics.
  pose proof (row_counts_bounded [] [] [] [] [] gusto_hours metrics) as H.
  destruct H as [_ [_ [_ [_ [_ [_ [H1 H2]]]]]]].
  split.
  - apply H1. vm_compute. repeat constructor; simpl; intuition discriminate.
  - apply H2. vm_compute. repeat constructor; simpl; intuition discriminate.
Defined.

(** ** The exclusion filter *)

Lemma starts_with_iff (d s : text) :
  starts_with d s = true <-> exists q, s = d ++ q.
Proof.
  revert s. induction d as [|x d IH]; intros s; simpl.
  - split; [intros _; exists s; reflexivity | reflexivity].
  - destruct s as [|y s].
    + split; [discriminate | intros [q H]; discriminate].
    + rewrite andb_true_iff, Ascii.eqb_eq, IH. split.
      * intros [-> [q ->]]. exists q. reflexivity.
      * intros [q H]. injection H as -> ->. split; [reflexivity | eauto].
Qed.

Lemma contains_iff (d s : text) :
  contains d s = true <-> exists p q, s = p ++ d ++ q.
Proof.
  induction s as [|c s IH].
  - simpl. rewrite orb_false_r, starts_with_iff. split.
    + intros [q H]. exists [], q. exact H.
    + intros [p [q H]]. destruct p; [exists q; exact H | discriminate].
  - change (contains d (c :: s))
      with (starts_with d (c :: s) || contains d s).
    rewrite orb_true_iff, starts_with_iff, IH. split.
    + intros [[q H] | [p [q H]]].
      * exists [], q. exact H.
      * exists (c :: p), q. rewrite H. reflexivity.
    + intros [p [q H]]. destruct p as [|c' p].
      * left. exists q. exact H.
      * right. injection H as -> ->. exists p, q. reflexivity.
Qed.

Lemma bool_eq_iff (a b : bool) : (a = true <-> b = true) -> a = b.
Proof. destruct a, b; intuition congruence. Qed.

Lemma contains_rev (d s : text) : contains (rev d) (rev s) = contains d s.
Proof.
  apply bool_eq_iff. rewrite !contains_iff. split.
  - intros [p [q H]]. exists (rev q), (rev p).
    apply (f_equal (@rev ascii)) in H.
    rewrite rev_involutive, !rev_app_distr, rev_involutive in H.
    rewrite H, app_assoc. reflexivity.
  - intros [p [q ->]]. exists (rev q), (rev p).
    rewrite !rev_app_distr, app_assoc. reflexivity.
Qed.

Lemma contains_lstrip (d s : text) :
  d <> [] -> starts_in_space d = false ->
  contains d (lstrip s) = contains d s.
Proof.
  intros Hne Hd. destruct d as [|x d]; [congruence|]. simpl in Hd.
  induction s as [|c s IH]; [reflexivity|].
  change (contains (x :: d) (c :: s))
    with (starts_with (x :: d) (c :: s) || contains (x :: d) s).
  simpl lstrip. destruct (isspace c) eqn:Hc; [|reflexivity].
  rewrite IH. simpl starts_with.
  destruct (Ascii.eqb x c) eqn:E; [|reflexivity].
  apply Ascii.eqb_eq in E. congruence.
Qed.

Lemma starts_in_space_rev (d : text) : starts_in_space (rev d) = ends_in_space d.
Proof. unfold ends_in_space, last_char. destruct (rev d); reflexivity. Qed.

Lemma contains_rstrip (d s : text) :
  d <> [] -> ends_in_space d = false ->
  contains d (rstrip s) = contains d s.
Proof.
  intros Hne Hd. unfold rstrip.
  rewrite <- (contains_rev d (rev (lstrip (rev s)))), rev_involutive.
  rewrite contains_lstrip.
  - apply contains_rev.
  - intros H. apply Hne. rewrite <- (rev_involutive d), H. reflexivity.
  - rewrite starts_in_space_rev. exact Hd.
Qed.

Lemma contains_strip (d s : text) :
  d <> [] -> starts_in_space d = false -> ends_in_space d = false ->
  contains d (strip s) = contains d s.
Proof.
  intros Hne H1 H2. unfold strip.
  rewrite contains_rstrip, contains_lstrip; auto.
Qed.

(** A name is excluded exactly when its lower-case form contains an entry
    of the denylist. *)
Lemma should_exclude_name_iff (n : text) :
  should_exclude_name (Some n) = true <->
  exists d, In d EXCLUDED_NAMES /\ contains d (lower n) = true.
Proof.
  unfold should_exclude_name. rewrite existsb_exists.
  split; intros [d [Hd H]]; exists d; (split; [exact Hd|]);
    simpl in Hd; destruct Hd as [<- | [<- | [<- | []]]];
    (rewrite contains_strip in * by (try discriminate; reflexivity); exact H)
    || (rewrite contains_strip by (try discriminate; reflexivity); exact H).
Qed.

Lemma not_excluded_false (c : cell) :
  not_excluded c = true <-> should_exclude_name c = false.
Proof. unfold not_excluded. destruct (should_exclude_name c); simpl; intuition congruence. Qed.

Lemma doxy_visits_rows (df : list VisitRecord) (row : DoxyVisitsRow) :
  In row (Api.get_doxy_visits df) ->
  exists r, In r df /\ provider_name r = Some (dv_provider_name row).
Proof.
  unfold Api.get_doxy_visits, sort_desc_nat. rewrite sort_by_In, in_map_iff.
  intros [k [<- Hk]]. apply group_keys_In, in_map_iff in Hk.
  destruct Hk as [r [E Hr]]. exists r. simpl. auto.
Qed.

Lemma metrics_rows (df : list VisitRecord) (row : MetricsRow) :
  In row (Api.get_doxy_performance_metrics df) ->
  exists r, In r df /\ provider_name r = Some (pm_provider row).
Proof.
  unfold Api.get_doxy_performance_metrics, sort_desc_nat.
  rewrite sort_by_In, in_map_iff.
  intros [k [<- Hk]]. apply group_keys_In, in_map_iff in Hk.
  destruct Hk as [r [E Hr]]. apply filter_In in Hr.
  exists r. simpl. tauto.
Qed.

Lemma program_pivot_rows (df : list ProgramEventRecord) (row : ProgramRow) :
  In row (program_rows (program_pivot df)) ->
  exists r, In r df /\ owner r = Some (pv_provider row)
            /\ status r = Some (str "Completed")
            /\ not_excluded (owner r) = true.
Proof.
  unfold program_pivot. destruct df as [|r0 df0]; [intros []|].
  remember (r0 :: df0) as df. cbn [program_rows]. unfold sort_desc_nat.
  rewrite sort_by_In, in_map_iff.
  intros [k [<- Hk]]. apply group_keys_In, in_map_iff in Hk.
  destruct Hk as [r [E Hr]]. apply filter_In in Hr. destruct Hr as [Hr Hx].
  apply filter_In in Hr. destruct Hr as [Hr Hs].
  exists r. simpl. apply cell_eqb_eq in Hs. auto.
Qed.

Lemma gusto_hours_rows_kept (rows : list PayrollRecord) (dp : list text)
  (g : GustoHoursRow) :
  In g (GetGustoHours.gusto_hours_rows rows dp) ->
  not_excluded (Some (gh_name g)) = true
  /\ exists r, In r rows /\ gh_name g = GetGustoHours.clean_name r
               /\ total_hours r = Some (gh_total_hours g)
               /\ (0 < gh_total_hours g)%Q
               /\ GetGustoHours.is_in_doxy
                    (map (fun p => GetGustoHours.normalize_name (Some p)) dp)
                    (GetGustoHours.normalize_name (Some (gh_name g))) = true.
Proof.
  unfold GetGustoHours.gusto_hours_rows, sort_desc_Q.
  rewrite sort_by_In, filter_In, in_flat_map.
  intros [[r [Hr H]] Hx]. split; [exact Hx|]. exists r.
  destruct (GetGustoHours.is_in_doxy _ _) eqn:Hd; [|destruct H].
  destruct (total_hours r) as [h|]; [|destruct H].
  destruct (Qltb 0 h) eqn:Hh; [|destruct H].
  destruct H as [<- | []]. simpl. apply Qltb_lt in Hh. auto.
Qed.

(** C8, as stated, fails: a booking page whose raw label contains a
    denylisted name in its parenthesised part is kept, because the test is
    made on the label with that part removed. *)
Lemma oncehub_keeps_denylisted_raw_label :
  ~ (forall booking_df : list BookingSummaryRecord,
       (forall r, In r booking_df -> should_exclude_name (booking_page r) = true) ->
       get_oncehub_visits booking_df = []).
Proof.
  intros H. specialize (H denylisted_booking).
  assert (E : get_oncehub_visits denylisted_booking = []).
  { apply H. intros r [<- | []]. vm_compute. reflexivity. }
  vm_compute in E. discriminate.
Qed.

(** The serverless variant has no exclusion filter at all. *)
Lemma api_doxy_visits_keeps_denylisted :
  (forall r, In r denylisted_visit -> should_exclude_name (provider_name r) = true)
  /\ Api.get_doxy_visits denylisted_visit <> []
  /\ get_doxy_visits denylisted_visit = [].
Proof.
  split; [intros r [<- | []]; vm_compute; reflexivity|].
  split; vm_compute; [discriminate | reflexivity].
Qed.

(** C8, amended.  In [app.py] no row of any output table shows a name
    that the denylist excludes, where a name is excluded exactly when its
    lower-case form contains a denylist entry; the name tested is the one
    the table shows (for OnceHub Visits the booking-page label without its
    parenthesised part, for Gusto Hours and Hours Worked the payroll name
    without quotes).  For Doxy Visits, Doxy Performance Metrics and Visits
    by Program, whose names are the raw ones, a record with an excluded
    raw name gives no row. *)
Theorem excluded_names_absent
  (doxy_df : list VisitRecord) (booking_df : list BookingSummaryRecord)
  (account_df : list ProgramEventRecord) (gusto_df : list PayrollRecord)
  (doxy_providers : list text) :
  (forall row, In row (get_doxy_visits doxy_df) ->
     should_exclude_name (Some (dv_provider_name row)) = false)
  /\ (forall row, In row (get_oncehub_visits booking_df) ->
        should_exclude_name (oh_provider row) = false)
  /\ (forall row, In row (program_rows (program_pivot account_df)) ->
        should_exclude_name (Some (pv_provider row)) = false)
  /\ (forall row,
        In row (GetGustoHours.gusto_hours_rows gusto_df doxy_providers) ->
        should_exclude_name (Some (gh_name row)) = false)
  /\ (forall row, In row (get_doxy_performance_metrics doxy_df) ->
        should_exclude_name (Some (pm_provider row)) = false)
  /\ (forall row,
        In row (GetHoursWorked.get_hours_worked
                  (GetGustoHours.gusto_hours_rows gusto_df doxy_providers)
                  (get_doxy_performance_metrics doxy_df)) ->
        should_exclude_name (Some (hw_provider row)) = false)
  /\ (forall n, should_exclude_name (Some n) = true <->
                exists d, In d EXCLUDED_NAMES /\ contains d (lower n) = true)
  /\ (forall r, In r doxy_df -> should_exclude_name (provider_name r) = true ->
        (forall row, In row (get_doxy_visits doxy_df) ->
           provider_name r <> Some (dv_provider_name row))
        /\ (forall row, In row (get_doxy_performance_metrics doxy_df) ->
              provider_name r <> Some (pm_provider row)))
  /\ (forall r, In r account_df -> should_exclude_name (owner r) = true ->
        forall row, In row (program_rows (program_pivot account_df)) ->
          owner r <> Some (pv_provider row)).
Proof.
  assert (D : forall row, In row (get_doxy_visits doxy_df) ->
                should_exclude_name (Some (dv_provider_name row)) = false).
  { intros row H. apply doxy_visits_rows in H. destruct H as [r [Hr E]].
    apply filter_In in Hr. destruct Hr as [_ Hx]. rewrite E in Hx.
    apply not_excluded_false, Hx. }
  assert (M : forall row, In row (get_doxy_performance_metrics doxy_df) ->
                should_exclude_name (Some (pm_provider row)) = false).
  { intros row H. apply metrics_rows in H. destruct H as [r [Hr E]].
    apply filter_In in Hr. destruct Hr as [_ Hx]. rewrite E in Hx.
    apply not_excluded_false, Hx. }
  assert (P : forall row, In row (program_rows (program_pivot account_df)) ->
                should_exclude_name (Some (pv_provider row)) = false).
  { intros row H. apply program_pivot_rows in H.
    destruct H as [r [_ [E [_ Hx]]]]. rewrite E in Hx.
    apply not_excluded_false, Hx. }
  assert (G : forall row,
                In row (GetGustoHours.gusto_hours_rows gusto_df doxy_providers) ->
                should_exclude_name (Some (gh_name row)) = false).
  { intros row H. apply gusto_hours_rows_kept in H.
    apply not_excluded_false, H. }
  split; [exact D|].
  split.
  { intros row H. unfold get_oncehub_visits, sort_desc_Z in H.
    apply sort_by_In, in_map_iff in H. destruct H as [r [<- Hr]].
    apply filter_In in Hr. cbn [oh_provider]. apply not_excluded_false, Hr. }
  split; [exact P|]. split; [exact G|]. split; [exact M|].
  split.
  { intros row H. apply hours_worked_rows in H.
    destruct H as [g [m [Hg [_ [_ ->]]]]].
    cbn [GetHoursWorked.merged_row hw_provider]. apply G, Hg. }
  split; [apply should_exclude_name_iff|].
  split.
  { intros r _ Hx. split; intros row H E; rewrite E in Hx.
    - rewrite (D row H) in Hx. discriminate.
    - rewrite (M row H) in Hx. discriminate. }
  intros r _ Hx row H E. rewrite E in Hx.
  rewrite (P row H) in Hx. discriminate.
Qed.

(** The provider shown for the three visits is not a denylisted one. *)
Lemma excluded_names_absent_witness :
  should_exclude_name (Some (str "Jane Doe, NP")) = false.
Proof.
  apply (proj1 (excluded_names_absent three_visits [] [] [] [])
           {| dv_provider_name := str "Jane Doe, NP"; dv_total_visits := 3 |}).
  vm_compute. left. reflexivity.
Defined.

(** ** Reading the sources and assembling the report *)

Section PipelineFacts.

Variable decode_utf_16 decode_utf_8 decode_cp1252 : list Byte.byte -> option content.
Variable account_read_csv : content -> result CsvFrame.
Variable soup_find_all_tr : content -> list (list Td).
Variable doxy_io : Readers DoxyFrame.
Variable gusto_io : Readers GustoFrame.
Variable booking_io : Readers BookingFrame.

Abbreviation decode_loop :=
  (decode_first decode_utf_16 decode_utf_8 decode_cp1252 ENCODINGS).
Abbreviation read_frame :=
  (read_file_as_dataframe decode_utf_16 decode_utf_8 decode_cp1252).
Abbreviation booking_frame :=
  (read_booking decode_utf_16 decode_utf_8 decode_cp1252 booking_io).
Abbreviation sections :=
  (generate_sections account_read_csv soup_find_all_tr).
Abbreviation report :=
  (generate_report decode_utf_16 decode_utf_8 decode_cp1252
     account_read_csv soup_find_all_tr doxy_io gusto_io booking_io).

(** The latin-1 candidate ends the loop at the latest. *)
Lemma decode_loop_total (b : list Byte.byte) :
  exists c, decode_loop b = Some c.
Proof.
  unfold ENCODINGS, decode_first, decode.
  destruct (decode_utf_16 b); [eauto|].
  destruct (decode_utf_8 b); eauto.
Qed.

Lemma call_trace {A B : Type} (fn : string) (r : result A)
  (k : A -> result B * list event) :
  exists tr, snd (call fn r k) = Aggregate (str fn) :: tr.
Proof.
  unfold call. destruct r as [a|e]; [|eexists; reflexivity].
  destruct (k a). eexists; reflexivity.
Qed.

(** Once the sections are computed, an aggregation function has run. *)
Lemma sections_trace (doxy_df : DoxyFrame) (ac : content) (is_csv : bool)
  (gusto_df : GustoFrame) (booking_df : option BookingFrame) :
  exists tr,
    snd (sections doxy_df ac is_csv gusto_df booking_df)
    = Aggregate (str "get_doxy_visits") :: tr.
Proof. unfold generate_sections. apply call_trace. Qed.

Lemma call_ok {A B : Type} (fn : string) (r : result A)
  (k : A -> result B * list event) (b : B) (tr : list event) :
  call fn r k = (Ok b, tr) ->
  exists a tr', r = Ok a /\ k a = (Ok b, tr') /\ tr = Aggregate (str fn) :: tr'.
Proof.
  unfold call. destruct r as [a|e]; [|discriminate].
  destruct (k a) as [b' tr'] eqn:E. intros H. inversion H; subst.
  exists a, tr'. auto.
Qed.

(** Without a booking table the report has no OnceHub section, and the
    OnceHub aggregation is not called. *)
Lemma sections_without_booking (doxy_df : DoxyFrame) (ac : content)
  (is_csv : bool) (gusto_df : GustoFrame) (rep : Report) (tr : list event) :
  sections doxy_df ac is_csv gusto_df None = (Ok rep, tr) ->
  oncehub_visits rep = None
  /\ ~ In (Aggregate (str "get_oncehub_visits")) tr.
Proof.
  unfold generate_sections. cbn [option_map call_if_some]. intros H.
  apply call_ok in H. destruct H as [a1 [t1 [_ [H ->]]]].
  apply call_ok in H. destruct H as [a2 [t2 [_ [H ->]]]].
  apply call_ok in H. destruct H as [a3 [t3 [_ [H ->]]]].
  apply call_ok in H. destruct H as [a4 [t4 [_ [H ->]]]].
  apply call_ok in H. destruct H as [a5 [t5 [_ [H ->]]]].
  inversion H; subst. split; [reflexivity|].
  simpl. intros [E | [E | [E | [E | [E | []]]]]]; discriminate.
Qed.

Lemma doxy_errors_nil (r : result DoxyFrame) :
  doxy_errors r = [] <->
  exists df, r = Ok df
             /\ has_column (str "Provider name") (doxy_columns df) = true
             /\ has_column (str "Duration") (doxy_columns df) = true.
Proof.
  unfold doxy_errors. destruct r as [df|e].
  - split.
    + intros H. exists df.
      destruct (has_column (str "Provider name") (doxy_columns df));
        destruct (has_column (str "Duration") (doxy_columns df));
        try discriminate. auto.
    + intros [df' [H [H1 H2]]]. inversion H; subst df'.
      rewrite H1, H2. reflexivity.
  - split; [discriminate | intros [df [H _]]; discriminate].
Qed.

Lemma gusto_errors_nil (r : result GustoFrame) :
  gusto_errors r = [] <-> exists df, r = Ok df.
Proof.
  unfold gusto_errors. destruct r as [df|e].
  - split; eauto.
  - split; [discriminate | intros [df H]; discriminate].
Qed.

Lemma account_errors_decoded (b : list Byte.byte) :
  account_errors (decode_loop b) = [].
Proof. destruct (decode_loop_total b) as [c ->]. reflexivity. Qed.

(** The two outcomes of [generate_report]: the collected errors, raised
    before any section is computed, or the sections. *)
Lemma report_outcomes (doxy_file account_file gusto_file : FileStorage)
  (booking_file : option FileStorage) :
  let errors :=
    doxy_errors (read_frame doxy_io doxy_file 0)
    ++ gusto_errors (read_frame gusto_io gusto_file 8) in
  (errors <> []
   /\ report doxy_file account_file gusto_file booking_file
      = (Raise (ValueError errors), []))
  \/ (exists doxy_df ac gusto_df,
        read_frame doxy_io doxy_file 0 = Ok doxy_df
        /\ has_column (str "Provider name") (doxy_columns doxy_df) = true
        /\ has_column (str "Duration") (doxy_columns doxy_df) = true
        /\ decode_loop (stream account_file) = Some ac
        /\ read_frame gusto_io gusto_file 8 = Ok gusto_df
        /\ report doxy_file account_file gusto_file booking_file
           = sections doxy_df ac
               (ends_with (lower (filename account_file)) (str ".csv"))
               gusto_df (booking_frame booking_file)).
Proof.
  intros errors. unfold generate_report.
  rewrite account_errors_decoded. cbn [app].
  fold errors.
  destruct errors as [|m ms] eqn:E.
  - right. apply app_eq_nil in E. destruct E as [Ed Eg].
    apply doxy_errors_nil in Ed. destruct Ed as [doxy_df [Hd [H1 H2]]].
    apply gusto_errors_nil in Eg. destruct Eg as [gusto_df Hg].
    destruct (decode_loop_total (stream account_file)) as [ac Ha].
    exists doxy_df, ac, gusto_df. rewrite Hd, Ha, Hg. auto 10.
  - left. split; [discriminate | reflexivity].
Qed.

Lemma decode_error_not_collected (rd : result DoxyFrame) (rg : result GustoFrame) :
  ~ In DECODE_ERROR (doxy_errors rd ++ gusto_errors rg).
Proof.
  intros H. apply in_app_or in H. destruct H as [H | H].
  - unfold doxy_errors in H. destruct rd as [df|e].
    + destruct (has_column _ _), (has_column _ _); simpl in H;
        intuition discriminate.
    + simpl in H. destruct H as [H | []]. discriminate.
  - unfold gusto_errors in H. destruct rg as [df|e]; simpl in H; [tauto|].
    destruct H as [H | []]. discriminate.
Qed.

(** C10.  For every byte sequence the encoding-fallback loop yields a
    text, because latin-1 decodes every byte sequence: the account content
    is never missing, no decode error is collected, and a [ValueError]
    raised before the sections never carries the decode message.  The same
    loop in [read_file_as_dataframe] yields a text as well. *)
Theorem account_report_always_decodes
  (doxy_file account_file gusto_file : FileStorage)
  (booking_file : option FileStorage) (b : list Byte.byte) :
  (exists c, decode_loop b = Some c)
  /\ account_errors (decode_loop (stream account_file)) = []
  /\ match report doxy_file account_file gusto_file booking_file with
     | (Raise (ValueError msgs), []) => ~ In DECODE_ERROR msgs
     | _ => True
     end.
Proof.
  split; [apply decode_loop_total|].
  split; [apply account_errors_decoded|].
  destruct (report_outcomes doxy_file account_file gusto_file booking_file)
    as [[_ ->] | [doxy_df [ac [gusto_df [_ [_ [_ [_ [_ ->]]]]]]]]].
  - apply decode_error_not_collected.
  - destruct (sections_trace doxy_df ac
                (ends_with (lower (filename account_file)) (str ".csv"))
                gusto_df (booking_frame booking_file)) as [tr Htr].
    destruct (sections _ _ _ _ _) as [[rep|e] t]; [exact I|].
    simpl in Htr. subst t. destruct e; exact I.
Qed.

Lemma read_booking_unavailable (booking_file : option FileStorage) :
  booking_file = None
  \/ (exists f, booking_file = Some f
                /\ (filename f = []
                    \/ exists e, read_frame booking_io f 0 = Raise e)) ->
  booking_frame booking_file = None.
Proof.
  intros [-> | [f [-> [H | [e H]]]]]; unfold read_booking.
  - reflexivity.
  - rewrite H. reflexivity.
  - destruct (text_eqb (filename f) []); [reflexivity|]. rewrite H. reflexivity.
Qed.

Lemma report_booking_frame (doxy_file account_file gusto_file : FileStorage)
  (b1 b2 : option FileStorage) :
  booking_frame b1 = booking_frame b2 ->
  report doxy_file account_file gusto_file b1
  = report doxy_file account_file gusto_file b2.
Proof. intros H. unfold generate_report. rewrite H. reflexivity. Qed.

Lemma report_when_errors (doxy_file account_file gusto_file : FileStorage)
  (booking_file : option FileStorage) :
  let errors :=
    doxy_errors (read_frame doxy_io doxy_file 0)
    ++ gusto_errors (read_frame gusto_io gusto_file 8) in
  errors <> [] ->
  report doxy_file account_file gusto_file booking_file
  = (Raise (ValueError errors), []).
Proof.
  intros errors Hne.
  destruct (report_outcomes doxy_file account_file gusto_file booking_file)
    as [[_ E] | [doxy_df [ac [gusto_df [Hd [H1 [H2 [_ [Hg _]]]]]]]]];
    [exact E|].
  exfalso. apply Hne. unfold errors. rewrite Hd, Hg. unfold doxy_errors.
  rewrite H1, H2. reflexivity.
Qed.

Lemma call_trace_in {A B : Type} (fn : string) (r : result A)
  (k : A -> result B * list event) (ev : event) :
  In ev (snd (call fn r k)) ->
  ev = Aggregate (str fn) \/ exists a, r = Ok a /\ In ev (snd (k a)).
Proof.
  unfold call. destruct r as [a|e].
  - destruct (k a) as [b tr] eqn:E. simpl. intros [<- | H]; [left; reflexivity|].
    right. exists a. rewrite E. auto.
  - simpl. intros [<- | []]. left. reflexivity.
Qed.

(** Without a booking table the OnceHub aggregation is not called,
    whatever the outcome of the run. *)
Lemma sections_without_booking_trace (doxy_df : DoxyFrame) (ac : content)
  (is_csv : bool) (gusto_df : GustoFrame) :
  ~ In (Aggregate (str "get_oncehub_visits"))
       (snd (sections doxy_df ac is_csv gusto_df None)).
Proof.
  unfold generate_sections. cbn [option_map call_if_some]. intros H.
  apply call_trace_in in H. destruct H as [H | [a1 [_ H]]]; [discriminate|].
  apply call_trace_in in H. destruct H as [H | [a2 [_ H]]]; [discriminate|].
  apply call_trace_in in H. destruct H as [H | [a3 [_ H]]]; [discriminate|].
  apply call_trace_in in H. destruct H as [H | [a4 [_ H]]]; [discriminate|].
  apply call_trace_in in H. destruct H as [H | [a5 [_ H]]]; [discriminate|].
  destruct H.
Qed.

(** C9, amended.  When the booking summary is not supplied, or reading it
    fails, the run is the one without it, with the same report or the same
    exception: that source adds no error, the OnceHub aggregation is not
    called, and a workbook that is produced has no OnceHub Visits sheet.
    A visit log or payroll export that cannot be read, or a visit log
    without its [Provider name] or [Duration] column, raises the collected
    errors before any aggregation function is called. *)
Theorem booking_summary_is_optional
  (doxy_file account_file gusto_file : FileStorage)
  (booking_file : option FileStorage) :
  ((booking_file = None
    \/ (exists f, booking_file = Some f
                  /\ (filename f = []
                      \/ exists e, read_frame booking_io f 0 = Raise e))) ->
   report doxy_file account_file gusto_file booking_file
   = report doxy_file account_file gusto_file None
   /\ ~ In (Aggregate (str "get_oncehub_visits"))
          (snd (report doxy_file account_file gusto_file booking_file))
   /\ (forall rep tr,
         report doxy_file account_file gusto_file booking_file = (Ok rep, tr) ->
         oncehub_visits rep = None
         /\ ~ In (str "OnceHub Visits") (sheet_names rep)))
  /\ ((exists e, read_frame doxy_io doxy_file 0 = Raise e)
      \/ (exists df, read_frame doxy_io doxy_file 0 = Ok df
                     /\ (has_column (str "Provider name") (doxy_columns df) = false
                         \/ has_column (str "Duration") (doxy_columns df) = false))
      \/ (exists e, read_frame gusto_io gusto_file 8 = Raise e) ->
      exists msgs,
        msgs <> []
        /\ report doxy_file account_file gusto_file booking_file
           = (Raise (ValueError msgs), [])).
Proof.
  split.
  - intros Hb. apply read_booking_unavailable in Hb.
    split; [apply report_booking_frame; rewrite Hb; reflexivity|].
    destruct (report_outcomes doxy_file account_file gusto_file booking_file)
      as [[_ E] | [doxy_df [ac [gusto_df [_ [_ [_ [_ [_ E]]]]]]]]];
      rewrite E.
    + split; [intros []|]. intros rep tr H. discriminate.
    + rewrite Hb. split; [apply sections_without_booking_trace|].
      intros rep tr H. apply sections_without_booking in H.
      destruct H as [Ho _]. split; [exact Ho|].
      unfold sheet_names. rewrite Ho. simpl.
      intros [E' | [E' | [E' | [E' | [E' | []]]]]]; discriminate.
  - intros H.
    assert (Hne : doxy_errors (read_frame doxy_io doxy_file 0)
                  ++ gusto_errors (read_frame gusto_io gusto_file 8) <> []).
    { intros E. apply app_eq_nil in E. destruct E as [Ed Eg].
      apply doxy_errors_nil in Ed. destruct Ed as [df [Hd [H1 H2]]].
      apply gusto_errors_nil in Eg. destruct Eg as [g Hg].
      destruct H as [[e H] | [[df' [H [Hc | Hc]]] | [e H]]]; try congruence;
        rewrite Hd in H; inversion H; subst df'; congruence. }
    eexists. split; [exact Hne | apply report_when_errors, Hne].
Qed.

End PipelineFacts.


(** C9, as stated, fails: a delimited account report without a provider
    column is not caught by the checks; the error surfaces from
    [get_visits_by_program], after [get_doxy_visits] has run. *)
Lemma account_schema_failure_during_aggregation :
  sample_run account_without_provider sample_gusto_frame
  = (Raise (KeyError (str "Provider")),
     [Aggregate (str "get_doxy_visits");
      Aggregate (str "get_visits_by_program")]).
Proof. vm_compute. reflexivity. Qed.

(** The same for a payroll export without a [Name] column. *)
Lemma payroll_schema_failure_during_aggregation :
  snd (sample_run sample_account gusto_without_name)
  = [Aggregate (str "get_doxy_visits");
     Aggregate (str "get_visits_by_program");
     Aggregate (str "get_gusto_hours")]
  /\ fst (sample_run sample_account gusto_without_name)
     = Raise (KeyError (str "Name")).
Proof. split; vm_compute; reflexivity. Qed.

(** A run with a booking summary that cannot be read, on a visit log
    whose first provider is matched by the payroll row; and a run on a
    visit log that cannot be read. *)
Lemma booking_summary_is_optional_witness :
  (exists rep tr,
     generate_report no_codec no_codec no_codec
       (fun _ => Ok sample_account) (fun _ => [])
       (sample_io two_providers_frame) (sample_io sample_gusto_frame)
       (failing_io BookingFrame)
       (upload "doxy.csv") (upload "account.xls") (upload "gusto.csv")
       (Some (upload "booking.csv"))
     = (Ok rep, tr)
     /\ oncehub_visits rep = None
     /\ ~ In (str "OnceHub Visits") (sheet_names rep))
  /\ (exists msgs,
        msgs <> []
        /\ generate_report no_codec no_codec no_codec
             (fun _ => Ok sample_account) (fun _ => [])
             (failing_io DoxyFrame) (sample_io sample_gusto_frame)
             (failing_io BookingFrame)
             (upload "doxy.csv") (upload "account.csv") (upload "gusto.csv") None
           = (Raise (ValueError msgs), [])).
Proof.
  split.
  - destruct (generate_report no_codec no_codec no_codec
                (fun _ => Ok sample_account) (fun _ => [])
                (sample_io two_providers_frame) (sample_io sample_gusto_frame)
                (failing_io BookingFrame)
                (upload "doxy.csv") (upload "account.xls") (upload "gusto.csv")
                (Some (upload "booking.csv"))) as [[rep|e] tr] eqn:E;
      [|vm_compute in E; discriminate E].
    exists rep, tr. split; [reflexivity|].
    apply (proj2 (proj2 (proj1 (booking_summary_is_optional
                                  no_codec no_codec no_codec
                                  (fun _ => Ok sample_account) (fun _ => [])
                                  (sample_io two_providers_frame)
                                  (sample_io sample_gusto_frame)
                                  (failing_io BookingFrame)
                                  (upload "doxy.csv") (upload "account.xls")
                                  (upload "gusto.csv")
                                  (Some (upload "booking.csv")))
                          (or_intror
                             (ex_intro _ (upload "booking.csv")
                                (conj eq_refl
                                   (or_intror
                                      (ex_intro _ _ eq_refl)))))))
             rep tr E).
  - apply (proj2 (booking_summary_is_optional no_codec no_codec no_codec
                    (fun _ => Ok sample_account) (fun _ => [])
                    (failing_io DoxyFrame) (sample_io sample_gusto_frame)
                    (failing_io BookingFrame)
                    (upload "doxy.csv") (upload "account.csv")
                    (upload "gusto.csv") None)).
    left. eexists. vm_compute. reflexivity.
Defined.

(** ** The matcher against what a regular expression may match *)

Section MatcherFacts.

Variable ic : bool.

Lemma star_k_sound (p : ascii -> bool) (k : text -> option text) (s out : text) :
  star_k p k s = Some out ->
  exists s', matches ic (Star p) s s' /\ k s' = Some out.
Proof.
  induction s as [|c s IH]; simpl.
  - intros H. exists []. split; [constructor | exact H].
  - destruct (p c) eqn:Hc.
    + destruct (star_k p k s) as [o|] eqn:E.
      * intros H. inversion H; subst o.
        destruct (IH eq_refl) as [s' [Hm Hk]].
        exists s'. split; [constructor; assumption | exact Hk].
      * intros H. exists (c :: s). split; [constructor | exact H].
    + intros H. exists (c :: s). split; [constructor | exact H].
Qed.

Lemma star_k_complete (p : ascii -> bool) (k : text -> option text) (s s' : text) :
  matches ic (Star p) s s' -> k s' <> None -> star_k p k s <> None.
Proof.
  intros Hm. remember (Star p) as r eqn:Er.
  induction Hm; inversion Er; subst; intros Hk.
  - destruct s as [|c s]; simpl; [exact Hk|].
    destruct (p c); [|exact Hk].
    destruct (star_k p k s); [discriminate | exact Hk].
  - simpl. rewrite H.
    specialize (IHHm eq_refl Hk).
    destruct (star_k p k s); [discriminate | congruence].
Qed.

(** Whatever the matcher finds is a match. *)
Lemma match_k_sound (r : regex) : forall (s : text) (k : text -> option text) out,
  match_k ic r s k = Some out ->
  exists s', matches ic r s s' /\ k s' = Some out.
Proof.
  induction r as [| c | p | | r1 IH1 r2 IH2 | r1 IH1 r2 IH2 | r1 IH1 | p | p];
    intros s k out; simpl.
  - intros H. exists s. split; [constructor | exact H].
  - destruct s as [|x s]; [discriminate|].
    destruct (chr_eq ic c x) eqn:E; [|discriminate].
    intros H. exists s. split; [constructor; exact E | exact H].
  - destruct s as [|x s]; [discriminate|].
    destruct (p x) eqn:E; [|discriminate].
    intros H. exists s. split; [constructor; exact E | exact H].
  - destruct (at_end s) eqn:E; [|discriminate].
    intros H. exists s. split; [constructor; exact E | exact H].
  - intros H. apply IH1 in H. destruct H as [s1 [H1 H]].
    apply IH2 in H. destruct H as [s2 [H2 H]].
    exists s2. split; [econstructor; eassumption | exact H].
  - destruct (match_k ic r1 s k) as [o|] eqn:E.
    + intros H. inversion H; subst o. apply IH1 in E.
      destruct E as [s' [Hm Hk]]. exists s'. split; [apply M_AltL, Hm | exact Hk].
    + intros H. apply IH2 in H.
      destruct H as [s' [Hm Hk]]. exists s'. split; [apply M_AltR, Hm | exact Hk].
  - destruct (match_k ic r1 s k) as [o|] eqn:E.
    + intros H. inversion H; subst o. apply IH1 in E.
      destruct E as [s' [Hm Hk]]. exists s'. split; [apply M_OptSome, Hm | exact Hk].
    + intros H. exists s. split; [apply M_OptNone | exact H].
  - apply star_k_sound.
  - destruct s as [|x s]; [discriminate|].
    destruct (p x) eqn:E; [|discriminate].
    intros H. apply star_k_sound in H. destruct H as [s' [Hm Hk]].
    exists s'. split; [constructor; assumption | exact Hk].
Qed.

(** Wherever there is a match that the continuation accepts, the matcher
    finds one. *)
Lemma match_k_complete (r : regex) (s s' : text) :
  matches ic r s s' ->
  forall k : text -> option text, k s' <> None -> match_k ic r s k <> None.
Proof.
  induction 1; intros k Hk; simpl.
  - exact Hk.
  - rewrite H. exact Hk.
  - rewrite H. exact Hk.
  - rewrite H. exact Hk.
  - apply IHmatches1. apply IHmatches2. exact Hk.
  - specialize (IHmatches k Hk).
    destruct (match_k ic r1 s k); [discriminate | congruence].
  - destruct (match_k ic r1 s k); [discriminate | apply IHmatches, Hk].
  - specialize (IHmatches k Hk).
    destruct (match_k ic r s k); [discriminate | congruence].
  - destruct (match_k ic r s k); [discriminate | exact Hk].
  - apply (star_k_complete p k s s); [constructor | exact Hk].
  - apply (star_k_complete p k (x :: s) s'); [constructor; assumption | exact Hk].
  - rewrite H. apply (star_k_complete p k s s'); assumption.
Qed.

Lemma match_at_sound (r : regex) (s rest : text) :
  match_at ic r s = Some rest -> matches ic r s rest.
Proof.
  unfold match_at. intros H. apply match_k_sound in H.
  destruct H as [s' [Hm Hk]]. inversion Hk; subst. exact Hm.
Qed.

Lemma match_at_complete (r : regex) (s s' : text) :
  matches ic r s s' -> match_at ic r s <> None.
Proof.
  intros H. unfold match_at. eapply match_k_complete; [exact H | discriminate].
Qed.

(** A match consumes a prefix. *)
Lemma matches_prefix (r : regex) (s s' : text) :
  matches ic r s s' -> exists m, s = m ++ s'.
Proof.
  induction 1.
  - exists []; reflexivity.
  - exists [x]; reflexivity.
  - exists [x]; reflexivity.
  - exists []; reflexivity.
  - destruct IHmatches1 as [m1 ->], IHmatches2 as [m2 ->].
    exists (m1 ++ m2). rewrite app_assoc. reflexivity.
  - assumption.
  - assumption.
  - assumption.
  - exists []; reflexivity.
  - exists []; reflexivity.
  - destruct IHmatches as [m ->]. exists (x :: m). reflexivity.
  - destruct IHmatches as [m ->]. exists (x :: m). reflexivity.
Qed.

(** *** Substitution *)

Lemma sub_scan_skip (r : regex) (n : nat) (s : text) :
  sub_scan ic r n s = sub_scan ic r 0 (skipn n s).
Proof.
  revert s. induction n as [|n IH]; intros s; [reflexivity|].
  destruct s as [|c s]; [reflexivity|]. simpl skipn. rewrite <- IH.
  reflexivity.
Qed.

(** No match anywhere: the text is unchanged. *)
Lemma re_sub_no_match (r : regex) (s : text) :
  (forall p q, s = p ++ q -> match_at ic r q = None) -> re_sub ic r s = s.
Proof.
  unfold re_sub. induction s as [|c s IH]; intros H; [reflexivity|].
  simpl. rewrite (H [] (c :: s) eq_refl). f_equal. apply IH.
  intros p q E. apply (H (c :: p) q). rewrite E. reflexivity.
Qed.

(** The leftmost match is removed and the scan goes on after it. *)
Lemma re_sub_first_match (r : regex) (b t rest : text) :
  (forall b1 b2, b = b1 ++ b2 -> b2 <> [] -> match_at ic r (b2 ++ t) = None) ->
  match_at ic r t = Some rest ->
  List.length rest < List.length t ->
  re_sub ic r (b ++ t) = b ++ re_sub ic r rest.
Proof.
  unfold re_sub. intros Hb Hm Hlen.
  induction b as [|c b IH].
  - simpl app. destruct t as [|c t]; [simpl in Hlen; lia|].
    cbn [sub_scan]. rewrite Hm.
    destruct (matches_prefix _ _ _ (match_at_sound _ _ _ Hm)) as [m E].
    assert (Hl : List.length (c :: t) - List.length rest = List.length m).
    { rewrite E, length_app. lia. }
    rewrite Hl. destruct m as [|x m].
    + simpl in E. rewrite E in Hlen. lia.
    + simpl in E. injection E as -> ->. cbn [List.length].
      rewrite sub_scan_skip, skipn_app, skipn_all, Nat.sub_diag. reflexivity.
  - simpl app. cbn [sub_scan].
    assert (H0 : match_at ic r (c :: b ++ t) = None)
      by (apply (Hb [] (c :: b) eq_refl); discriminate).
    rewrite H0. f_equal. apply IH. intros b1 b2 E Hne.
    apply (Hb (c :: b1) b2); [rewrite E; reflexivity | exact Hne].
Qed.

(** *** The shape of the matches of each construct *)

Lemma matches_Seq (r1 r2 : regex) (s s' : text) :
  matches ic (Seq r1 r2) s s' <->
  exists m, matches ic r1 s m /\ matches ic r2 m s'.
Proof.
  split.
  - intros H. inversion H; subst. eauto.
  - intros [m [H1 H2]]. econstructor; eassumption.
Qed.

Lemma matches_Alt (r1 r2 : regex) (s s' : text) :
  matches ic (Alt r1 r2) s s' <-> matches ic r1 s s' \/ matches ic r2 s s'.
Proof.
  split.
  - intros H. inversion H; subst; auto.
  - intros [H | H]; [apply M_AltL | apply M_AltR]; exact H.
Qed.

Lemma matches_Opt (r : regex) (s s' : text) :
  matches ic (Opt r) s s' <-> matches ic r s s' \/ s = s'.
Proof.
  split.
  - intros H. inversion H; subst; auto.
  - intros [H | ->]; [apply M_OptSome, H | apply M_OptNone].
Qed.

Lemma matches_Lit (c : ascii) (s s' : text) :
  matches ic (Lit c) s s' <-> exists x, s = x :: s' /\ chr_eq ic c x = true.
Proof.
  split.
  - intros H. inversion H; subst. eauto.
  - intros [x [-> H]]. constructor. exact H.
Qed.

Lemma matches_End (s s' : text) :
  matches ic EndAnchor s s' <-> s = s' /\ at_end s = true.
Proof.
  split.
  - intros H. inversion H; subst. auto.
  - intros [<- H]. constructor. exact H.
Qed.

Lemma matches_Eps (s s' : text) : matches ic Eps s s' <-> s = s'.
Proof.
  split; [intros H; inversion H; reflexivity | intros ->; constructor].
Qed.

Lemma matches_Star (p : ascii -> bool) (s s' : text) :
  matches ic (Star p) s s' <->
  exists ws, s = ws ++ s' /\ forallb p ws = true.
Proof.
  split.
  - intros H. remember (Star p) as r eqn:Er.
    induction H; inversion Er; subst.
    + exists []. auto.
    + destruct (IHmatches eq_refl) as [ws [-> Hw]].
      exists (x :: ws). simpl. rewrite H, Hw. auto.
  - intros [ws [-> Hw]]. induction ws as [|x ws IH]; simpl.
    + constructor.
    + simpl in Hw. apply andb_true_iff in Hw. destruct Hw as [Hx Hw].
      constructor; [exact Hx | apply IH, Hw].
Qed.

Lemma matches_Plus (p : ascii -> bool) (s s' : text) :
  matches ic (Plus p) s s' <->
  exists ws, s = ws ++ s' /\ ws <> [] /\ forallb p ws = true.
Proof.
  split.
  - intros H. inversion H as [| | | | | | | | | | |p' x s0 s0' Hx Hs]; subst.
    apply matches_Star in Hs. destruct Hs as [ws [-> Hw]].
    exists (x :: ws). simpl. rewrite Hx, Hw. repeat split. discriminate.
  - intros [ws [-> [Hne Hw]]]. destruct ws as [|x ws]; [congruence|].
    simpl in Hw. apply andb_true_iff in Hw. destruct Hw as [Hx Hw].
    simpl. constructor; [exact Hx|]. apply matches_Star. eauto.
Qed.

End MatcherFacts.

(** ** The matches of the two suffix patterns *)

(** A literal word under [re.IGNORECASE]. *)
Lemma matches_lit (w s s' : text) :
  matches true (lit w) s s' <-> exists m, s = m ++ s' /\ lower m = lower w.
Proof.
  revert s. induction w as [|c w IH]; intros s; simpl lit.
  - rewrite matches_Eps. split.
    + intros ->. exists []. auto.
    + intros [m [-> H]]. destruct m; [reflexivity | discriminate].
  - rewrite matches_Seq. split.
    + intros [m1 [H1 H2]]. apply matches_Lit in H1. destruct H1 as [x [-> Hx]].
      apply IH in H2. destruct H2 as [m [-> Hm]].
      exists (x :: m). split; [reflexivity|]. simpl. rewrite Hm.
      unfold chr_eq in Hx. apply Ascii.eqb_eq in Hx. rewrite Hx. reflexivity.
    + intros [m [-> Hm]]. destruct m as [|x m]; [discriminate|].
      simpl in Hm. injection Hm as Hx Hm.
      exists (m ++ s'). split.
      * apply matches_Lit. exists x. split; [reflexivity|].
        unfold chr_eq. rewrite Hx. apply Ascii.eqb_refl.
      * apply IH. exists m. auto.
Qed.

Lemma lower_char_dot (x : ascii) : lower_char x = "."%char -> x = "."%char.
Proof. ascii_cases x; vm_compute; congruence. Qed.

Lemma lower_char_comma (x : ascii) : lower_char x = ","%char -> x = ","%char.
Proof. ascii_cases x; vm_compute; congruence. Qed.

Lemma is_credential_iff (tok : text) :
  is_credential tok = true <-> In (lower tok) CREDENTIALS.
Proof. unfold is_credential. apply existsb_text_eqb. Qed.

Lemma lower_app (a b : text) : lower (a ++ b) = lower a ++ lower b.
Proof. apply map_app. Qed.

Lemma lower_length (a : text) : List.length (lower a) = List.length a.
Proof. apply length_map. Qed.

(** A word with an optional full stop after it. *)
Lemma matches_word_dot (w s s' : text) :
  matches true (Seq (lit w) (Opt (Lit "."%char))) s s' <->
  exists m, s = m ++ s'
            /\ (lower m = lower w \/ lower m = lower w ++ ["."%char]).
Proof.
  rewrite matches_Seq. split.
  - intros [m1 [H1 H2]]. apply matches_lit in H1. destruct H1 as [m [-> Hm]].
    apply matches_Opt in H2. destruct H2 as [H2 | <-].
    + apply matches_Lit in H2. destruct H2 as [x [-> Hx]].
      exists (m ++ [x]). split; [rewrite <- app_assoc; reflexivity|].
      right. rewrite lower_app, Hm. simpl.
      unfold chr_eq in Hx. apply Ascii.eqb_eq in Hx.
      rewrite <- Hx. reflexivity.
    + exists m. split; [reflexivity|]. left. exact Hm.
  - intros [m [-> [H | H]]].
    + exists s'. split; [apply matches_lit; eauto | apply matches_Opt; auto].
    + apply map_eq_app in H. destruct H as [m1 [m2 [-> [H1 H2]]]].
      destruct m2 as [|x [|y m2]]; try discriminate.
      simpl in H2. injection H2 as Hx. apply lower_char_dot in Hx. subst x.
      exists ("."%char :: s'). split.
      * apply matches_lit. exists m1. rewrite <- app_assoc. auto.
      * apply matches_Opt. left. apply matches_Lit.
        exists "."%char. auto.
Qed.

Ltac in_disj tac :=
  first [ solve [tac]
        | match goal with |- _ \/ _ => left; in_disj tac end
        | match goal with |- _ \/ _ => right; in_disj tac end ].

(** The alternatives of the credential pattern of [get_gusto_hours]
    match exactly the credential tokens, in any case. *)
Lemma credential_re_shape (s s' : text) :
  matches true credential_re s s' <->
  exists tok, s = tok ++ s' /\ is_credential tok = true.
Proof.
  unfold credential_re. cbn [alts].
  rewrite !matches_Alt, !matches_word_dot, !matches_lit.
  split.
  - intros H.
    repeat (destruct H as [H | H]);
      destruct H as [m [-> Hm]]; exists m; (split; [reflexivity|]);
      apply is_credential_iff;
      try (destruct Hm as [Hm | Hm]); rewrite Hm; cbv; tauto.
  - intros [tok [-> H]]. apply is_credential_iff in H.
    unfold CREDENTIALS in H. simpl In in H.
    repeat (destruct H as [H | H]); try contradiction;
      in_disj ltac:(exists tok; split;
                    [reflexivity
                    | first [ rewrite <- H; reflexivity
                            | left; rewrite <- H; reflexivity
                            | right; rewrite <- H; reflexivity ] ]).
Qed.

(** The same for the pattern of [get_hours_worked]. *)
Lemma credential_re_hw_shape (s s' : text) :
  matches true GetHoursWorked.credential_re s s' <->
  exists tok, s = tok ++ s' /\ is_credential tok = true.
Proof.
  unfold GetHoursWorked.credential_re. cbn [alts].
  rewrite !matches_Alt, !matches_word_dot, !matches_lit.
  split.
  - intros H.
    repeat (destruct H as [H | H]);
      destruct H as [m [-> Hm]]; exists m; (split; [reflexivity|]);
      apply is_credential_iff;
      try (destruct Hm as [Hm | Hm]); rewrite Hm; cbv; tauto.
  - intros [tok [-> H]]. apply is_credential_iff in H.
    unfold CREDENTIALS in H. simpl In in H.
    repeat (destruct H as [H | H]); try contradiction;
      in_disj ltac:(exists tok; split;
                    [reflexivity
                    | first [ rewrite <- H; reflexivity
                            | left; rewrite <- H; reflexivity
                            | right; rewrite <- H; reflexivity ] ]).
Qed.

Lemma np_shape (s s' : text) :
  matches true (lit (str "NP")) s s' <->
  exists m, s = m ++ s' /\ lower m = str "np".
Proof. apply matches_lit. Qed.

Lemma np_hw_shape (s s' : text) :
  matches true (lit (str "np")) s s' <->
  exists m, s = m ++ s' /\ lower m = str "np".
Proof. apply matches_lit. Qed.

(** A credential token is not empty and holds no whitespace and no
    comma. *)
Lemma credential_chars (tok : text) :
  is_credential tok = true ->
  2 <= List.length tok
  /\ forallb (fun c => negb (isspace c) && negb (Ascii.eqb c ","%char)) tok = true.
Proof.
  intros H. apply is_credential_iff in H.
  assert (E : forallb (fun c => negb (isspace c) && negb (Ascii.eqb c ","%char)) tok
              = forallb (fun c => negb (isspace c) && negb (Ascii.eqb c ","%char))
                        (lower tok)).
  { unfold lower. clear H. induction tok as [|x tok IH]; [reflexivity|].
    simpl. rewrite IH, isspace_lower. f_equal. f_equal.
    destruct (Ascii.eqb x ","%char) eqn:E1,
             (Ascii.eqb (lower_char x) ","%char) eqn:E2; try reflexivity.
    - apply Ascii.eqb_eq in E1. subst x. discriminate.
    - apply Ascii.eqb_eq in E2. apply lower_char_comma in E2. subst x.
      discriminate. }
  rewrite E, <- (lower_length tok).
  unfold CREDENTIALS in H. simpl In in H.
  repeat (destruct H as [H | H]); try contradiction; rewrite <- H;
    split; vm_compute; (reflexivity || lia || (repeat constructor)).
Qed.

(** ** Ends of texts *)

Lemma at_end_cases (r : text) : at_end r = true -> r = [] \/ r = ["010"%char].
Proof.
  destruct r as [|c [|d r]]; simpl; try discriminate; auto.
  intros H. apply Ascii.eqb_eq in H. subst c. auto.
Qed.

Lemma ends_in_space_app (s t : text) :
  t <> [] -> ends_in_space (s ++ t) = ends_in_space t.
Proof. intros H. unfold ends_in_space. rewrite last_char_app_ne; auto. Qed.

Lemma last_char_forallb (p : ascii -> bool) (l : text) :
  forallb p l = true -> l <> [] ->
  exists c, last_char l = Some c /\ p c = true.
Proof.
  intros H Hne. destruct (exists_last Hne) as [l' [c ->]].
  exists c. rewrite last_char_app. split; [reflexivity|].
  rewrite forallb_app in H. simpl in H.
  apply andb_true_iff in H. destruct H as [_ H].
  apply andb_true_iff in H. tauto.
Qed.

Lemma spaces_end_in_space (ws : text) :
  ws <> [] -> forallb isspace ws = true -> ends_in_space ws = true.
Proof.
  intros Hne H. destruct (last_char_forallb _ _ H Hne) as [c [E Hc]].
  unfold ends_in_space. rewrite E. exact Hc.
Qed.

Lemma no_space_end (t : text) :
  no_space t = true -> ends_in_space t = false.
Proof.
  intros H. destruct t as [|x t]; [reflexivity|].
  destruct (last_char_forallb _ (x :: t) H) as [c [E Hc]]; [discriminate|].
  unfold ends_in_space. rewrite E. apply negb_true_iff, Hc.
Qed.

Lemma no_space_app (a b : text) :
  no_space (a ++ b) = no_space a && no_space b.
Proof. apply forallb_app. Qed.

Lemma credential_no_space (tok : text) :
  is_credential tok = true -> no_space tok = true /\ tok <> [].
Proof.
  intros H. destruct (credential_chars tok H) as [Hl Hc]. split.
  - unfold no_space. eapply forallb_impl; [|exact Hc].
    intros x Hx. apply andb_true_iff in Hx. tauto.
  - intros ->. simpl in Hl. lia.
Qed.

(** Two ways of cutting a text after a whitespace character, with no
    whitespace after the cut, are the same. *)
Lemma last_space_split (X X' tok tok' : text) :
  X ++ tok = X' ++ tok' ->
  ends_in_space X = true -> ends_in_space X' = true ->
  no_space tok = true -> no_space tok' = true ->
  X = X' /\ tok = tok'.
Proof.
  intros E HX HX' Ht Ht'.
  apply app_eq_app in E. destruct E as [l [[E1 E2] | [E1 E2]]].
  - destruct l as [|x l].
    + rewrite app_nil_r in E1. simpl in E2. auto.
    + exfalso. subst. rewrite ends_in_space_app in HX by discriminate.
      rewrite no_space_app in Ht'. apply andb_true_iff in Ht'.
      destruct Ht' as [Hl _]. apply no_space_end in Hl. congruence.
  - destruct l as [|x l].
    + rewrite app_nil_r in E1. simpl in E2. auto.
    + exfalso. subst. rewrite ends_in_space_app in HX' by discriminate.
      rewrite no_space_app in Ht. apply andb_true_iff in Ht.
      destruct Ht as [Hl _]. apply no_space_end in Hl. congruence.
Qed.

Lemma ends_with_app (a c : text) : ends_with (a ++ c) c = true.
Proof.
  unfold ends_with. rewrite rev_app_distr. apply starts_with_iff. eauto.
Qed.

Lemma ends_with_elim (s c : text) :
  ends_with s c = true -> exists a, s = a ++ c.
Proof.
  unfold ends_with. intros H. apply starts_with_iff in H.
  destruct H as [q H]. exists (rev q).
  rewrite <- (rev_involutive s), H, rev_app_distr, rev_involutive.
  reflexivity.
Qed.

Lemma firstn_length_app (a b : text) : firstn (List.length a) (a ++ b) = a.
Proof. induction a as [|x a IH]; simpl; [reflexivity | rewrite IH; reflexivity]. Qed.

Lemma skipn_length_app (a b : text) : skipn (List.length a) (a ++ b) = b.
Proof. induction a as [|x a IH]; simpl; [reflexivity | exact IH]. Qed.

Lemma ends_with_credential_intro (a tok : text) :
  ends_in_space a = true -> is_credential tok = true ->
  ends_with_credential (a ++ tok) = true.
Proof.
  intros Ha Ht. unfold ends_with_credential. apply existsb_exists.
  exists (lower tok). split; [apply is_credential_iff, Ht|].
  rewrite lower_app, ends_with_app. simpl.
  rewrite length_app, lower_length.
  replace (List.length a + List.length tok - List.length tok)
    with (List.length a) by lia.
  rewrite firstn_length_app. exact Ha.
Qed.

Lemma ends_with_credential_elim (t : text) :
  ends_with_credential t = true ->
  exists a tok,
    t = a ++ tok /\ ends_in_space a = true /\ is_credential tok = true.
Proof.
  unfold ends_with_credential. intros H. apply existsb_exists in H.
  destruct H as [c [Hc H]]. apply andb_true_iff in H. destruct H as [He Hs].
  set (n := List.length t - List.length c) in *.
  exists (firstn n t), (skipn n t). split; [symmetry; apply firstn_skipn|].
  split; [exact Hs|]. apply is_credential_iff.
  apply ends_with_elim in He. destruct He as [a' Ea].
  assert (Hn : n = List.length a').
  { unfold n. rewrite <- (lower_length t), Ea, length_app. lia. }
  assert (E : lower (skipn n t) = c).
  { unfold lower. rewrite <- skipn_map.
    change (map lower_char t) with (lower t).
    rewrite Ea, Hn. apply skipn_length_app. }
  rewrite E. exact Hc.
Qed.

Lemma lstrip_app_spaces (ws s : text) :
  forallb isspace ws = true -> lstrip (ws ++ s) = lstrip s.
Proof.
  induction ws as [|c ws IH]; simpl; [reflexivity|].
  intros H. apply andb_true_iff in H. destruct H as [Hc H].
  rewrite Hc. apply IH, H.
Qed.

Lemma rstrip_app_spaces (a ws : text) :
  forallb isspace ws = true -> rstrip (a ++ ws) = rstrip a.
Proof.
  intros H. unfold rstrip. rewrite rev_app_distr, lstrip_app_spaces;
    [reflexivity|].
  rewrite forallb_forall in *. intros x Hx. apply H, in_rev, Hx.
Qed.

Lemma np_length (m : text) : lower m = str "np" -> List.length m = 2.
Proof. intros H. rewrite <- lower_length, H. reflexivity. Qed.

Lemma np_no_space (m : text) : lower m = str "np" -> no_space m = true /\ m <> [].
Proof.
  intros H. apply credential_no_space. apply is_credential_iff.
  rewrite H. left. reflexivity.
Qed.

Lemma ends_with_comma_np_intro (p ws m : text) :
  forallb isspace ws = true -> lower m = str "np" ->
  ends_with_comma_np (p ++ ","%char :: ws ++ m) = true.
Proof.
  intros Hw Hm. unfold ends_with_comma_np.
  replace (p ++ ","%char :: ws ++ m) with ((p ++ ","%char :: ws) ++ m)
    by (rewrite <- app_assoc; reflexivity).
  rewrite lower_app, Hm, ends_with_app. simpl andb.
  rewrite length_app, (np_length m Hm).
  replace (List.length (p ++ ","%char :: ws) + 2 - 2)
    with (List.length (p ++ ","%char :: ws)) by lia.
  rewrite firstn_length_app.
  replace (p ++ ","%char :: ws) with ((p ++ [","%char]) ++ ws)
    by (rewrite <- app_assoc; reflexivity).
  rewrite rstrip_app_spaces by exact Hw.
  rewrite rstrip_fixed.
  - rewrite last_char_app. reflexivity.
  - unfold ends_in_space. rewrite last_char_app. reflexivity.
Qed.

(** ** What the two substitutions remove *)

Lemma app_eq_length_tail {A : Type} (a a' b b' : list A) :
  a ++ b = a' ++ b' -> List.length b = List.length b' -> a = a' /\ b = b'.
Proof.
  intros E Hl. apply app_eq_app in E.
  destruct E as [l [[E1 E2] | [E1 E2]]]; subst;
    rewrite length_app in Hl; destruct l; simpl in Hl; try lia;
    rewrite app_nil_r; auto.
Qed.

Lemma re_sub_nil (ic : bool) (r : regex) : re_sub ic r [] = [].
Proof. reflexivity. Qed.

Section SuffixPatterns.

(** The credential alternatives and the word [NP] of either
    normalizer. *)
Variable cred : regex.
Hypothesis cred_shape : forall s s',
  matches true cred s s' <->
  exists tok, s = tok ++ s' /\ is_credential tok = true.

Variable np_word : regex.
Hypothesis np_word_shape : forall s s',
  matches true np_word s s' <-> exists m, s = m ++ s' /\ lower m = str "np".

Abbreviation suffix_pattern := (Seq (Plus isspace) (Seq cred EndAnchor)).
Abbreviation comma_pattern :=
  (Seq (Lit ","%char) (Seq (Star isspace) (Seq np_word EndAnchor))).

Lemma suffix_shape (s s' : text) :
  matches true suffix_pattern s s' <->
  exists ws tok,
    s = ws ++ tok ++ s' /\ ws <> [] /\ forallb isspace ws = true
    /\ is_credential tok = true /\ at_end s' = true.
Proof.
  rewrite matches_Seq. split.
  - intros [m1 [H1 H2]]. apply matches_Plus in H1.
    destruct H1 as [ws [-> [Hne Hw]]].
    apply matches_Seq in H2. destruct H2 as [m2 [H2 H3]].
    apply cred_shape in H2. destruct H2 as [tok [-> Ht]].
    apply matches_End in H3. destruct H3 as [-> He].
    exists ws, tok. auto.
  - intros [ws [tok [-> [Hne [Hw [Ht He]]]]]].
    exists (tok ++ s'). split.
    + apply matches_Plus. exists ws. auto.
    + apply matches_Seq. exists s'. split.
      * apply cred_shape. exists tok. auto.
      * apply matches_End. auto.
Qed.

Lemma newline_ends_in_space (a : text) :
  ends_in_space (a ++ ["010"%char]) = true.
Proof. unfold ends_in_space. rewrite last_char_app. reflexivity. Qed.

Lemma suffix_match_inv (p q rest : text) :
  match_at true suffix_pattern q = Some rest ->
  ends_in_space (p ++ q) = false ->
  rest = []
  /\ exists ws tok,
       q = ws ++ tok /\ ws <> [] /\ forallb isspace ws = true
       /\ is_credential tok = true.
Proof.
  intros Hm He. apply match_at_sound, suffix_shape in Hm.
  destruct Hm as [ws [tok [-> [Hne [Hw [Ht Hr]]]]]].
  apply at_end_cases in Hr. destruct Hr as [-> | ->].
  - split; [reflexivity|]. exists ws, tok. rewrite app_nil_r. auto.
  - exfalso. rewrite !app_assoc, newline_ends_in_space in He. discriminate.
Qed.

(** Without whitespace and a credential at the end, the first
    substitution changes nothing. *)
Lemma suffix_sub_none (t : text) :
  ends_in_space t = false -> ends_with_credential t = false ->
  re_sub true suffix_pattern t = t.
Proof.
  intros He Hc. apply re_sub_no_match. intros p q E.
  destruct (match_at true suffix_pattern q) as [rest|] eqn:M; [|reflexivity].
  exfalso. rewrite E in He.
  destruct (suffix_match_inv p q rest M He) as [_ [ws [tok [-> [Hne [Hw Ht]]]]]].
  assert (H : ends_with_credential t = true).
  { rewrite E, app_assoc. apply ends_with_credential_intro; [|exact Ht].
    rewrite ends_in_space_app by exact Hne.
    apply spaces_end_in_space; assumption. }
  congruence.
Qed.

(** Whitespace and a credential at the end are removed, whitespace
    included. *)
Lemma suffix_sub_strip (u ws tok : text) :
  ws <> [] -> forallb isspace ws = true -> is_credential tok = true ->
  ends_in_space u = false ->
  re_sub true suffix_pattern (u ++ ws ++ tok) = u.
Proof.
  intros Hne Hw Ht Hu.
  destruct (credential_no_space tok Ht) as [Hns Htne].
  assert (Hend : forall a, ends_in_space (a ++ ws ++ tok) = false).
  { intros a. rewrite app_assoc, ends_in_space_app by exact Htne.
    apply no_space_end, Hns. }
  rewrite (re_sub_first_match true suffix_pattern u (ws ++ tok) []).
  - rewrite re_sub_nil. apply app_nil_r.
  - intros b1 b2 E Hb2.
    destruct (match_at true suffix_pattern (b2 ++ ws ++ tok)) as [rest|] eqn:M;
      [|reflexivity].
    exfalso.
    destruct (suffix_match_inv [] _ rest M (Hend b2))
      as [_ [ws' [tok' [E' [Hne' [Hw' Ht']]]]]].
    destruct (credential_no_space tok' Ht') as [Hns' _].
    rewrite app_assoc in E'.
    apply last_space_split in E'; try assumption.
    + destruct E' as [E' _].
      assert (Hb : forallb isspace b2 = true).
      { rewrite <- E', forallb_app in Hw'. apply andb_true_iff in Hw'. tauto. }
      rewrite E, ends_in_space_app in Hu by exact Hb2.
      rewrite (spaces_end_in_space b2 Hb2 Hb) in Hu. discriminate.
    + rewrite ends_in_space_app by exact Hne.
      apply spaces_end_in_space; assumption.
    + apply spaces_end_in_space; assumption.
  - destruct (match_at true suffix_pattern (ws ++ tok)) as [rest|] eqn:M.
    + destruct (suffix_match_inv [] _ rest M (Hend [])) as [-> _]. reflexivity.
    + exfalso. revert M. apply (match_at_complete true _ _ []).
      apply suffix_shape. exists ws, tok. rewrite app_nil_r. auto.
  - rewrite length_app. destruct ws; [congruence | simpl; lia].
Qed.

Lemma comma_shape (s s' : text) :
  matches true comma_pattern s s' <->
  exists ws m,
    s = ","%char :: ws ++ m ++ s' /\ forallb isspace ws = true
    /\ lower m = str "np" /\ at_end s' = true.
Proof.
  rewrite matches_Seq. split.
  - intros [m1 [H1 H2]]. apply matches_Lit in H1.
    destruct H1 as [x [-> Hx]].
    unfold chr_eq in Hx. apply Ascii.eqb_eq in Hx. symmetry in Hx.
    apply lower_char_comma in Hx. subst x.
    apply matches_Seq in H2. destruct H2 as [m2 [H2 H3]].
    apply matches_Star in H2. destruct H2 as [ws [-> Hw]].
    apply matches_Seq in H3. destruct H3 as [m3 [H3 H4]].
    apply np_word_shape in H3. destruct H3 as [m [-> Hm]].
    apply matches_End in H4. destruct H4 as [-> He].
    exists ws, m. auto.
  - intros [ws [m [-> [Hw [Hm He]]]]].
    exists (ws ++ m ++ s'). split.
    + apply matches_Lit. exists ","%char. auto.
    + apply matches_Seq. exists (m ++ s'). split.
      * apply matches_Star. exists ws. auto.
      * apply matches_Seq. exists s'. split.
        -- apply np_word_shape. exists m. auto.
        -- apply matches_End. auto.
Qed.

Lemma comma_match_inv (p q rest : text) :
  match_at true comma_pattern q = Some rest ->
  ends_in_space (p ++ q) = false ->
  rest = []
  /\ exists ws m,
       q = ","%char :: ws ++ m /\ forallb isspace ws = true
       /\ lower m = str "np".
Proof.
  intros Hm He. apply match_at_sound, comma_shape in Hm.
  destruct Hm as [ws [m [-> [Hw [Hn Hr]]]]].
  apply at_end_cases in Hr. destruct Hr as [-> | ->].
  - split; [reflexivity|]. exists ws, m. rewrite app_nil_r. auto.
  - exfalso.
    replace (p ++ ","%char :: ws ++ m ++ ["010"%char])
      with ((p ++ ","%char :: ws ++ m) ++ ["010"%char]) in He
      by (rewrite <- !app_assoc; simpl; rewrite <- !app_assoc; reflexivity).
    rewrite newline_ends_in_space in He. discriminate.
Qed.

(** Without a comma, optional whitespace and [NP] at the end, the second
    substitution changes nothing. *)
Lemma comma_sub_none (u : text) :
  ends_in_space u = false -> ends_with_comma_np u = false ->
  re_sub true comma_pattern u = u.
Proof.
  intros He Hc. apply re_sub_no_match. intros p q E.
  destruct (match_at true comma_pattern q) as [rest|] eqn:M; [|reflexivity].
  exfalso. rewrite E in He.
  destruct (comma_match_inv p q rest M He) as [_ [ws [m [-> [Hw Hm]]]]].
  rewrite E, ends_with_comma_np_intro in Hc by assumption. discriminate.
Qed.

(** A comma, optional whitespace and [NP] at the end are removed. *)
Lemma comma_sub_strip (v ws m : text) :
  forallb isspace ws = true -> lower m = str "np" ->
  re_sub true comma_pattern (v ++ ","%char :: ws ++ m) = v.
Proof.
  intros Hw Hm.
  destruct (np_no_space m Hm) as [Hns Hmne].
  assert (Hend : forall a, ends_in_space (a ++ ","%char :: ws ++ m) = false).
  { intros a.
    replace (a ++ ","%char :: ws ++ m) with ((a ++ ","%char :: ws) ++ m)
      by (rewrite <- app_assoc; reflexivity).
    rewrite ends_in_space_app by exact Hmne. apply no_space_end, Hns. }
  rewrite (re_sub_first_match true comma_pattern v (","%char :: ws ++ m) []).
  - rewrite re_sub_nil. apply app_nil_r.
  - intros b1 b2 E Hb2.
    destruct (match_at true comma_pattern (b2 ++ ","%char :: ws ++ m))
      as [rest|] eqn:M; [|reflexivity].
    exfalso.
    destruct (comma_match_inv [] _ rest M (Hend b2))
      as [_ [ws' [m' [E' [Hw' Hm']]]]].
    replace (b2 ++ ","%char :: ws ++ m) with ((b2 ++ ","%char :: ws) ++ m) in E'
      by (rewrite <- app_assoc; reflexivity).
    change (","%char :: ws' ++ m') with ((","%char :: ws') ++ m') in E'.
    apply app_eq_length_tail in E';
      [|rewrite (np_length m Hm), (np_length m' Hm'); reflexivity].
    destruct E' as [E' _].
    destruct b2 as [|x b2]; [congruence|].
    simpl in E'. injection E' as _ E'.
    rewrite <- E', forallb_app in Hw'. simpl in Hw'.
    apply andb_true_iff in Hw'. destruct Hw' as [_ Hw']. discriminate.
  - destruct (match_at true comma_pattern (","%char :: ws ++ m)) as [rest|] eqn:M.
    + destruct (comma_match_inv [] _ rest M (Hend [])) as [-> _]. reflexivity.
    + exfalso. revert M. apply (match_at_complete true _ _ []).
      apply comma_shape. exists ws, m. rewrite app_nil_r. auto.
  - simpl. lia.
Qed.

End SuffixPatterns.

(** ** The normalizers, step by step *)

Abbreviation gusto_suffix_sub_none :=
  (suffix_sub_none credential_re credential_re_shape).
Abbreviation gusto_suffix_sub_strip :=
  (suffix_sub_strip credential_re credential_re_shape).
Abbreviation gusto_comma_sub_none :=
  (comma_sub_none (lit (str "NP")) np_shape).
Abbreviation gusto_comma_sub_strip :=
  (comma_sub_strip (lit (str "NP")) np_shape).
Abbreviation hw_suffix_sub_none :=
  (suffix_sub_none GetHoursWorked.credential_re credential_re_hw_shape).
Abbreviation hw_suffix_sub_strip :=
  (suffix_sub_strip GetHoursWorked.credential_re credential_re_hw_shape).
Abbreviation hw_comma_sub_none :=
  (comma_sub_none (lit (str "np")) np_hw_shape).
Abbreviation hw_comma_sub_strip :=
  (comma_sub_strip (lit (str "np")) np_hw_shape).

Lemma last_char_lower (s : text) :
  last_char (lower s) = option_map lower_char (last_char s).
Proof.
  unfold last_char, lower. rewrite <- map_rev. destruct (rev s); reflexivity.
Qed.

Lemma eqb_comma_lower (c : ascii) :
  Ascii.eqb (lower_char c) ","%char = Ascii.eqb c ","%char.
Proof. ascii_cases c; reflexivity. Qed.

Lemma firstn_lower (n : nat) (s : text) : firstn n (lower s) = lower (firstn n s).
Proof. unfold lower. apply firstn_map. Qed.

Lemma ends_with_credential_lower (t : text) :
  ends_with_credential (lower t) = ends_with_credential t.
Proof.
  unfold ends_with_credential. rewrite lower_idem, lower_length.
  induction CREDENTIALS as [|c l IH]; [reflexivity|].
  simpl. rewrite IH, firstn_lower, ends_in_space_lower. reflexivity.
Qed.

Lemma ends_with_comma_np_lower (t : text) :
  ends_with_comma_np (lower t) = ends_with_comma_np t.
Proof.
  unfold ends_with_comma_np.
  rewrite lower_idem, lower_length, firstn_lower, rstrip_lower, last_char_lower.
  destruct (last_char (rstrip (firstn (List.length t - 2) t))); simpl;
    [rewrite eqb_comma_lower|]; reflexivity.
Qed.

Lemma is_credential_lower (tok : text) :
  is_credential (lower tok) = is_credential tok.
Proof. unfold is_credential. rewrite lower_idem. reflexivity. Qed.

Lemma forallb_isspace_lower (ws : text) :
  forallb isspace (lower ws) = forallb isspace ws.
Proof.
  induction ws as [|c ws IH]; [reflexivity|].
  simpl. rewrite IH, isspace_lower. reflexivity.
Qed.

Lemma strip_prefix_fixed (x u v : text) :
  strip x = u ++ v -> ends_in_space u = false -> strip u = u.
Proof.
  intros E Hu. apply strip_fixed; [|exact Hu].
  pose proof (strip_start x) as H. rewrite E in H.
  destruct u; [reflexivity | exact H].
Qed.

Lemma lower_strip_fixed (s : text) :
  starts_in_space s = false -> ends_in_space s = false ->
  strip (lower s) = lower s.
Proof. intros H1 H2. rewrite strip_lower, strip_fixed; auto. Qed.

(** A text that ends with a comma and [NP] does not end with whitespace
    and a credential. *)
Lemma comma_np_not_credential (u m : text) :
  lower m = str "np" -> ends_with_credential (u ++ ","%char :: m) = false.
Proof.
  intros Hm. destruct (ends_with_credential (u ++ ","%char :: m)) eqn:E;
    [|reflexivity].
  exfalso. apply ends_with_credential_elim in E.
  destruct E as [a [tok [E [Ha Ht]]]].
  destruct (credential_chars tok Ht) as [Hl Hc].
  assert (Hcomma : ends_in_space (u ++ [","%char]) = false).
  { unfold ends_in_space. rewrite last_char_app. reflexivity. }
  replace (u ++ ","%char :: m) with ((u ++ [","%char]) ++ m) in E
    by (rewrite <- app_assoc; reflexivity).
  apply app_eq_app in E. destruct E as [l [[E1 E2] | [E1 E2]]].
  - (* the credential reaches over the comma *)
    destruct l as [|c0 l].
    + rewrite app_nil_r in E1. congruence.
    + destruct (exists_last (l := c0 :: l)) as [l' [c El]]; [discriminate|].
      rewrite El in *. rewrite app_assoc in E1.
      apply app_inj_tail in E1. destruct E1 as [_ <-].
      rewrite E2, <- app_assoc, forallb_app in Hc.
      apply andb_true_iff in Hc. destruct Hc as [_ Hc].
      simpl in Hc. discriminate.
  - (* the credential is no longer than NP *)
    assert (l = []).
    { destruct l; [reflexivity|]. exfalso.
      apply (f_equal (@List.length ascii)) in E2.
      rewrite length_app, (np_length m Hm) in E2. simpl in E2. lia. }
    subst l. rewrite app_nil_r in E1. congruence.
Qed.

Section BothNormalizers.

Variable x : text.

Lemma gusto_plain :
  ends_with_credential (strip x) = false ->
  ends_with_comma_np (strip x) = false ->
  GetGustoHours.normalize_name (Some x) = lower (strip x).
Proof.
  intros H1 H2. unfold GetGustoHours.normalize_name, suffix_re, comma_np_re.
  rewrite gusto_suffix_sub_none by (apply strip_end || exact H1).
  rewrite gusto_comma_sub_none by (apply strip_end || exact H2).
  rewrite strip_lower, strip_idem. reflexivity.
Qed.

Lemma hw_plain :
  ends_with_credential (strip x) = false ->
  ends_with_comma_np (strip x) = false ->
  GetHoursWorked.normalize_name (Some x) = lower (strip x).
Proof.
  intros H1 H2.
  unfold GetHoursWorked.normalize_name, GetHoursWorked.suffix_re,
    GetHoursWorked.comma_np_re.
  assert (He : ends_in_space (lower (strip x)) = false)
    by (rewrite ends_in_space_lower; apply strip_end).
  rewrite hw_suffix_sub_none
    by (exact He || (rewrite ends_with_credential_lower; exact H1)).
  rewrite hw_comma_sub_none
    by (exact He || (rewrite ends_with_comma_np_lower; exact H2)).
  rewrite strip_lower, strip_idem. reflexivity.
Qed.

Variables u ws tok : text.
Hypothesis cut : strip x = u ++ ws ++ tok.
Hypothesis ws_not_empty : ws <> [].
Hypothesis ws_spaces : forallb isspace ws = true.
Hypothesis tok_credential : is_credential tok = true.
Hypothesis u_end : ends_in_space u = false.
Hypothesis u_no_comma_np : ends_with_comma_np u = false.

Lemma gusto_credential : GetGustoHours.normalize_name (Some x) = lower u.
Proof.
  unfold GetGustoHours.normalize_name, suffix_re, comma_np_re.
  rewrite cut, gusto_suffix_sub_strip by assumption.
  rewrite gusto_comma_sub_none by assumption.
  rewrite strip_lower, (strip_prefix_fixed x u (ws ++ tok) cut u_end).
  reflexivity.
Qed.

Lemma hw_credential : GetHoursWorked.normalize_name (Some x) = lower u.
Proof.
  unfold GetHoursWorked.normalize_name, GetHoursWorked.suffix_re,
    GetHoursWorked.comma_np_re.
  rewrite cut, !lower_app.
  rewrite hw_suffix_sub_strip.
  - rewrite hw_comma_sub_none.
    + rewrite strip_lower, (strip_prefix_fixed x u (ws ++ tok) cut u_end).
      reflexivity.
    + rewrite ends_in_space_lower. exact u_end.
    + rewrite ends_with_comma_np_lower. exact u_no_comma_np.
  - intros E. apply ws_not_empty. destruct ws; [reflexivity | discriminate].
  - rewrite forallb_isspace_lower. exact ws_spaces.
  - rewrite is_credential_lower. exact tok_credential.
  - rewrite ends_in_space_lower. exact u_end.
Qed.

End BothNormalizers.

Lemma gusto_comma_np (x u m : text) :
  strip x = u ++ ","%char :: m -> lower m = str "np" ->
  GetGustoHours.normalize_name (Some x) = lower (strip u).
Proof.
  intros E Hm. unfold GetGustoHours.normalize_name, suffix_re, comma_np_re.
  rewrite gusto_suffix_sub_none.
  - rewrite E. change (u ++ ","%char :: m) with (u ++ ","%char :: [] ++ m).
    rewrite gusto_comma_sub_strip by (reflexivity || exact Hm).
    apply strip_lower.
  - apply strip_end.
  - rewrite E. apply comma_np_not_credential, Hm.
Qed.

Lemma hw_comma_np (x u m : text) :
  strip x = u ++ ","%char :: m -> lower m = str "np" ->
  GetHoursWorked.normalize_name (Some x) = lower (strip u).
Proof.
  intros E Hm.
  unfold GetHoursWorked.normalize_name, GetHoursWorked.suffix_re,
    GetHoursWorked.comma_np_re.
  rewrite hw_suffix_sub_none.
  - rewrite E, lower_app.
    change (lower (","%char :: m)) with (","%char :: [] ++ lower m).
    rewrite hw_comma_sub_strip by (reflexivity || (rewrite lower_idem; exact Hm)).
    apply strip_lower.
  - rewrite ends_in_space_lower. apply strip_end.
  - rewrite ends_with_credential_lower, E.
    apply comma_np_not_credential, Hm.
Qed.

Lemma ends_with_credential_cut (y : text) :
  ends_with_credential y = true ->
  exists u ws tok,
    y = u ++ ws ++ tok /\ ws <> [] /\ forallb isspace ws = true
    /\ is_credential tok = true /\ ends_in_space u = false.
Proof.
  intros H. apply ends_with_credential_elim in H.
  destruct H as [a [tok [-> [Ha Ht]]]].
  destruct (rstrip_split a) as [ws [E Hw]].
  exists (rstrip a), ws, tok. rewrite app_assoc, <- E.
  repeat split; try assumption; [|apply rstrip_end].
  intros ->. rewrite app_nil_r in E. rewrite E, rstrip_end in Ha. discriminate.
Qed.

Lemma ends_with_comma_np_cut (y : text) :
  ends_with_comma_np y = true ->
  exists p ws m,
    y = p ++ ","%char :: ws ++ m /\ forallb isspace ws = true
    /\ lower m = str "np".
Proof.
  unfold ends_with_comma_np. intros H. apply andb_true_iff in H.
  destruct H as [He Hl]. apply ends_with_elim in He. destruct He as [a' Ea].
  set (n := List.length y - 2) in *.
  assert (Hn : n = List.length a').
  { unfold n. rewrite <- (lower_length y), Ea, length_app. simpl. lia. }
  assert (Em : lower (skipn n y) = str "np").
  { unfold lower. rewrite <- skipn_map.
    change (map lower_char y) with (lower y).
    rewrite Ea, Hn. apply skipn_length_app. }
  destruct (rstrip_split (firstn n y)) as [ws [E Hw]].
  destruct (last_char (rstrip (firstn n y))) as [c|] eqn:Hc; [|discriminate].
  apply Ascii.eqb_eq in Hl. subst c.
  unfold last_char in Hc.
  destruct (rev (rstrip (firstn n y))) as [|c r] eqn:Hr; [discriminate|].
  injection Hc as ->.
  assert (Er : rstrip (firstn n y) = rev r ++ [","%char]).
  { rewrite <- (rev_involutive (rstrip (firstn n y))), Hr. reflexivity. }
  exists (rev r), ws, (skipn n y). repeat split; try assumption.
  rewrite <- (firstn_skipn n y) at 1. rewrite E, Er, <- !app_assoc.
  reflexivity.
Qed.

Lemma np_is_credential (m : text) : lower m = str "np" -> is_credential m = true.
Proof. intros H. unfold is_credential. rewrite H. reflexivity. Qed.

(** A credential after a part that itself ends with a comma and [NP]:
    both substitutions apply. *)
Lemma gusto_credential_comma (x u ws tok v ws' m : text) :
  strip x = u ++ ws ++ tok -> ws <> [] -> forallb isspace ws = true ->
  is_credential tok = true -> ends_in_space u = false ->
  u = v ++ ","%char :: ws' ++ m -> forallb isspace ws' = true ->
  lower m = str "np" ->
  GetGustoHours.normalize_name (Some x) = lower (strip v).
Proof.
  intros E Hne Hw Ht Hu Ev Hw' Hm.
  unfold GetGustoHours.normalize_name, suffix_re, comma_np_re.
  rewrite E, gusto_suffix_sub_strip by assumption.
  rewrite Ev, gusto_comma_sub_strip by assumption.
  apply strip_lower.
Qed.

Lemma hw_credential_comma (x u ws tok v ws' m : text) :
  strip x = u ++ ws ++ tok -> ws <> [] -> forallb isspace ws = true ->
  is_credential tok = true -> ends_in_space u = false ->
  u = v ++ ","%char :: ws' ++ m -> forallb isspace ws' = true ->
  lower m = str "np" ->
  GetHoursWorked.normalize_name (Some x) = lower (strip v).
Proof.
  intros E Hne Hw Ht Hu Ev Hw' Hm.
  unfold GetHoursWorked.normalize_name, GetHoursWorked.suffix_re,
    GetHoursWorked.comma_np_re.
  rewrite E, !lower_app.
  rewrite hw_suffix_sub_strip.
  - rewrite Ev, lower_app.
    change (lower (","%char :: ws' ++ m)) with (","%char :: lower (ws' ++ m)).
    rewrite lower_app.
    rewrite hw_comma_sub_strip.
    + apply strip_lower.
    + rewrite forallb_isspace_lower. exact Hw'.
    + rewrite lower_idem. exact Hm.
  - intros E0. apply Hne. destruct ws; [reflexivity | discriminate].
  - rewrite forallb_isspace_lower. exact Hw.
  - rewrite is_credential_lower. exact Ht.
  - rewrite ends_in_space_lower. exact Hu.
Qed.

(** The three forms of a text: no ending that a substitution removes;
    whitespace and a credential after a part that ends in no whitespace;
    a comma directly followed by [NP]. *)
Lemma name_forms (t : text) :
  (ends_with_credential t = false /\ ends_with_comma_np t = false)
  \/ (exists u ws tok,
        t = u ++ ws ++ tok /\ ws <> [] /\ forallb isspace ws = true
        /\ is_credential tok = true /\ ends_in_space u = false
        /\ (ends_with_comma_np u = false
            \/ exists v ws' m,
                 u = v ++ ","%char :: ws' ++ m /\ forallb isspace ws' = true
                 /\ lower m = str "np"))
  \/ (exists u m, t = u ++ ","%char :: m /\ lower m = str "np").
Proof.
  destruct (ends_with_credential t) eqn:Ec.
  - right. left. apply ends_with_credential_cut in Ec.
    destruct Ec as [u [ws [tok [E [Hne [Hw [Ht Hu]]]]]]].
    exists u, ws, tok. repeat (split; [assumption|]).
    destruct (ends_with_comma_np u) eqn:En; [right | left; reflexivity].
    apply ends_with_comma_np_cut, En.
  - destruct (ends_with_comma_np t) eqn:En; [|left; auto].
    right. right. apply ends_with_comma_np_cut in En.
    destruct En as [v [ws [m [E [Hw Hm]]]]].
    destruct ws as [|c ws]; [exists v, m; auto|].
    exfalso.
    assert (H : ends_with_credential t = true).
    { rewrite E.
      replace (v ++ ","%char :: (c :: ws) ++ m)
        with ((v ++ ","%char :: c :: ws) ++ m)
        by (rewrite <- app_assoc; reflexivity).
      apply ends_with_credential_intro; [|apply np_is_credential, Hm].
      replace (v ++ ","%char :: c :: ws) with ((v ++ [","%char]) ++ c :: ws)
        by (rewrite <- app_assoc; reflexivity).
      rewrite ends_in_space_app by discriminate.
      apply spaces_end_in_space; [discriminate | exact Hw]. }
    congruence.
Qed.

(** C4, amended.  On names of Latin-1 characters either normalizer trims
    the name, removes one trailing credential token (NP, FNP-C, MD, PA,
    LLC, Inc, Inc., PLLC, in any case) together with the whitespace that
    must precede it, then removes a trailing NP that follows a comma,
    directly or after whitespace, together with that comma, and
    lower-cases and trims what is left; whitespace inside the name is kept
    as it is.  Every trimmed name [t] has one of three forms.  Without
    such an ending the result is [t] in lower case.  With whitespace and a
    credential after a part [u], the result is [u] in lower case (a comma
    at the end of [u] stays), or, when [u] itself ends with a comma and
    NP, the part [v] before that comma, trimmed, in lower case.  With a
    comma directly followed by NP after a part [u], the result is [u],
    trimmed, in lower case.  The one case about which nothing is stated is
    a name that ends with a comma, whitespace and NP. *)
Theorem normalize_name_steps (normalize : cell -> text) (x : text) :
  normalize = GetGustoHours.normalize_name
  \/ normalize = GetHoursWorked.normalize_name ->
  let t := strip x in
  (ends_with_credential t = false -> ends_with_comma_np t = false ->
   normalize (Some x) = lower t)
  /\ (forall u ws tok,
        t = u ++ ws ++ tok -> ws <> [] -> forallb isspace ws = true ->
        is_credential tok = true -> ends_in_space u = false ->
        ~ (last_char u = Some ","%char /\ lower tok = str "np") ->
        (ends_with_comma_np u = false -> normalize (Some x) = lower u)
        /\ (forall v ws' m,
              u = v ++ ","%char :: ws' ++ m -> forallb isspace ws' = true ->
              lower m = str "np" ->
              normalize (Some x) = lower (strip v)))
  /\ (forall u m,
        t = u ++ ","%char :: m -> lower m = str "np" ->
        normalize (Some x) = lower (strip u))
  /\ ((ends_with_credential t = false /\ ends_with_comma_np t = false)
      \/ (exists u ws tok,
            t = u ++ ws ++ tok /\ ws <> [] /\ forallb isspace ws = true
            /\ is_credential tok = true /\ ends_in_space u = false
            /\ (ends_with_comma_np u = false
                \/ exists v ws' m,
                     u = v ++ ","%char :: ws' ++ m
                     /\ forallb isspace ws' = true /\ lower m = str "np"))
      \/ (exists u m, t = u ++ ","%char :: m /\ lower m = str "np")).
Proof.
  intros Hn t.
  split; [|split; [|split]]; [| | |apply name_forms].
  - intros H1 H2. destruct Hn as [-> | ->];
      [apply gusto_plain | apply hw_plain]; assumption.
  - intros u ws tok E Hne Hw Ht Hu Hslip. split.
    + intros Hc. destruct Hn as [-> | ->];
        [apply (gusto_credential x u ws tok)
        |apply (hw_credential x u ws tok)]; assumption.
    + intros v ws' m Ev Hw' Hm. destruct Hn as [-> | ->];
        [apply (gusto_credential_comma x u ws tok v ws' m)
        |apply (hw_credential_comma x u ws tok v ws' m)]; assumption.
  - intros u m E Hm. destruct Hn as [-> | ->];
      [apply (gusto_comma_np x u m) | apply (hw_comma_np x u m)]; assumption.
Qed.

Lemma normalize_name_steps_witness :
  GetGustoHours.normalize_name (Some (str "  John  Smith "))
  = lower (str "John  Smith")
  /\ GetGustoHours.normalize_name (Some (str "Acme, LLC")) = lower (str "Acme,")
  /\ GetHoursWorked.normalize_name (Some (str "Jane,NP MD"))
     = lower (strip (str "Jane"))
  /\ GetHoursWorked.normalize_name (Some (str "Jane Doe,NP"))
     = lower (strip (str "Jane Doe")).
Proof.
  split; [|split; [|split]].
  - apply (proj1 (normalize_name_steps GetGustoHours.normalize_name
                    (str "  John  Smith ") (or_introl eq_refl)));
      vm_compute; reflexivity.
  - apply (proj1 (proj1 (proj2 (normalize_name_steps GetGustoHours.normalize_name
                                  (str "Acme, LLC") (or_introl eq_refl)))
                    (str "Acme,") (str " ") (str "LLC")
                    eq_refl ltac:(discriminate) eq_refl eq_refl eq_refl
                    ltac:(intros [_ H]; discriminate H))).
    reflexivity.
  - apply (proj2 (proj1 (proj2 (normalize_name_steps GetHoursWorked.normalize_name
                                  (str "Jane,NP MD") (or_intror eq_refl)))
                    (str "Jane,NP") (str " ") (str "MD")
                    eq_refl ltac:(discriminate) eq_refl eq_refl eq_refl
                    ltac:(intros [H _]; discriminate H))
             (str "Jane") [] (str "NP"));
      reflexivity.
  - apply (proj1 (proj2 (proj2 (normalize_name_steps GetHoursWorked.normalize_name
                                  (str "Jane Doe,NP") (or_intror eq_refl))))
             (str "Jane Doe") (str "NP"));
      reflexivity.
Defined.

Lemma sub_scan_lower_fixed (r : regex) (s : text) :
  lower s = s -> forall n, lower (sub_scan true r n s) = sub_scan true r n s.
Proof.
  induction s as [|c s IH]; intros Hs n; [reflexivity|].
  unfold lower in Hs. cbn [map] in Hs. injection Hs as Hc Hs.
  cbn [sub_scan]. destruct n as [|n]; [|apply IH, Hs].
  assert (Hk : lower (c :: sub_scan true r 0 s) = c :: sub_scan true r 0 s).
  { unfold lower. cbn [map]. rewrite Hc. f_equal. apply IH, Hs. }
  destruct (match_at true r (c :: s)) as [rest|]; [|exact Hk].
  destruct (List.length (c :: s) - List.length rest); [exact Hk | apply IH, Hs].
Qed.

Lemma normalized_is_fixed_by_strip_and_lower (normalize : cell -> text) (x : text) :
  normalize = GetGustoHours.normalize_name
  \/ normalize = GetHoursWorked.normalize_name ->
  strip (normalize (Some x)) = normalize (Some x)
  /\ lower (normalize (Some x)) = normalize (Some x).
Proof.
  intros [-> | ->]; cbn [GetGustoHours.normalize_name GetHoursWorked.normalize_name].
  - split; [apply strip_idem|]. rewrite strip_lower. apply lower_idem.
  - split; [apply strip_idem|].
    rewrite <- strip_lower. f_equal. unfold re_sub.
    apply sub_scan_lower_fixed, sub_scan_lower_fixed, lower_idem.
Qed.

Lemma sub_scan_length (ic : bool) (r : regex) (s : text) :
  forall n, List.length (sub_scan ic r n s) <= List.length s.
Proof.
  induction s as [|c s IH]; intros n; [simpl; lia|].
  cbn [sub_scan]. destruct n as [|n].
  - destruct (match_at ic r (c :: s)) as [rest|].
    + destruct (List.length (c :: s) - List.length rest) as [|k].
      * simpl. specialize (IH 0). lia.
      * specialize (IH k). simpl. lia.
    + simpl. specialize (IH 0). lia.
  - specialize (IH n). simpl. lia.
Qed.

Lemma re_sub_length (ic : bool) (r : regex) (s : text) :
  List.length (re_sub ic r s) <= List.length s.
Proof. apply sub_scan_length. Qed.

Lemma strip_length (s : text) : List.length (strip s) <= List.length s.
Proof.
  destruct (strip_split s) as [l [r [E _]]].
  rewrite E at 2. rewrite !length_app. lia.
Qed.





(* ================================================================== *)
(** * Part III: further properties of the code *)
(* ================================================================== *)

(** ** The exclusion test *)

(** X1.  [should_exclude_name] is a substring test on the lower-cased
    name: a missing name is never excluded, case and surrounding
    whitespace do not matter, and every name that embeds an excluded name
    is excluded too. *)
Theorem exclusion_is_substring_test (n a b : text) :
  should_exclude_name None = false
  /\ should_exclude_name (Some (lower n)) = should_exclude_name (Some n)
  /\ should_exclude_name (Some (strip n)) = should_exclude_name (Some n)
  /\ (should_exclude_name (Some n) = true ->
      should_exclude_name (Some (a ++ n ++ b)) = true).
Proof.
  split; [reflexivity|]. split; [|split].
  - apply bool_eq_iff. rewrite !should_exclude_name_iff, lower_idem. tauto.
  - apply bool_eq_iff. rewrite !should_exclude_name_iff.
    split; intros [d [Hd H]]; exists d; (split; [exact Hd|]);
      simpl in Hd; destruct Hd as [<- | [<- | [<- | []]]];
      rewrite <- strip_lower in *;
      (rewrite contains_strip in * by (try discriminate; reflexivity); exact H)
      || (rewrite contains_strip by (try discriminate; reflexivity); exact H).
  - rewrite !should_exclude_name_iff. intros [d [Hd H]]. exists d.
    split; [exact Hd|]. apply contains_iff in H. destruct H as [p [q E]].
    apply contains_iff. exists (lower a ++ p), (q ++ lower b).
    rewrite !lower_app, E, <- !app_assoc. reflexivity.
Qed.

Lemma exclusion_is_substring_test_witness :
  should_exclude_name (Some (str "Jordan Raphael, NP")) = true.
Proof.
  apply (proj2 (proj2 (proj2 (exclusion_is_substring_test
                                (str "dan Raphael") (str "Jor") (str ", NP"))))).
  reflexivity.
Defined.

(** ** Visit counts *)

Lemma list_sum_perm (l l' : list nat) :
  Permutation l l' -> list_sum l = list_sum l'.
Proof. induction 1; simpl; lia. Qed.

Lemma list_sum_cons (x : nat) (l : list nat) :
  list_sum (x :: l) = x + list_sum l.
Proof. reflexivity. Qed.

Lemma key_count_one (keys : list text) (x : text) :
  NoDup keys -> In x keys ->
  List.length (filter (fun k => text_eqb x k) keys) = 1.
Proof.
  induction keys as [|k keys IH]; intros Hn Hx; [destruct Hx|].
  inversion Hn as [|? ? Hk Hn']; subst. simpl.
  destruct (text_eqb x k) eqn:E.
  - apply text_eqb_eq in E. subst k. simpl. f_equal.
    assert (H : List.length (filter (fun k => text_eqb x k) keys) <= 0).
    { clear IH Hn Hn' Hx. induction keys as [|y keys IH]; simpl; [lia|].
      destruct (text_eqb x y) eqn:E.
      - apply text_eqb_eq in E. subst y. exfalso. apply Hk. left. reflexivity.
      - apply IH. intros H. apply Hk. right. exact H. }
    lia.
  - apply IH; [exact Hn'|]. destruct Hx as [-> | Hx]; [|exact Hx].
    rewrite text_eqb_refl in E. discriminate.
Qed.

(** The sizes of the groups of a column add up to the number of its
    present cells. *)
Lemma group_sizes_sum (cells : list cell) :
  list_sum
    (map (fun k => List.length (filter (fun c => cell_eqb c (Some k)) cells))
         (group_keys cells))
  = List.length (present cells).
Proof.
  rewrite (count_pairs_swap (fun k c => cell_eqb c (Some k))).
  assert (H : forall keys, NoDup keys ->
                forall cs, (forall k, In (Some k) cs -> In k keys) ->
                list_sum
                  (map (fun c => List.length
                                   (filter (fun k => cell_eqb c (Some k)) keys))
                       cs)
                = List.length (present cs)).
  { intros keys Hn cs. induction cs as [|[t|] cs IH]; intros Hin.
    - reflexivity.
    - cbn [map present List.length]. rewrite list_sum_cons.
      rewrite IH by (intros k Hk; apply Hin; right; exact Hk).
      change (filter (fun k => cell_eqb (Some t) (Some k)) keys)
        with (filter (fun k => text_eqb t k) keys).
      rewrite key_count_one; [reflexivity | exact Hn |].
      apply Hin. left. reflexivity.
    - cbn [map present]. rewrite list_sum_cons.
      rewrite IH by (intros k Hk; apply Hin; right; exact Hk).
      change (filter (fun k => cell_eqb None (Some k)) keys)
        with (filter (fun _ : text => false) keys).
      assert (E : filter (fun _ : text => false) keys = []).
      { clear. induction keys; simpl; auto. }
      rewrite E. reflexivity. }
  apply H; [apply group_keys_NoDup|].
  intros k Hk. apply group_keys_In, Hk.
Qed.

Lemma filter_map_length {A B : Type} (f : A -> B) (p : B -> bool) (l : list A) :
  List.length (filter (fun x => p (f x)) l) = List.length (filter p (map f l)).
Proof.
  induction l as [|x l IH]; simpl; [reflexivity|].
  destruct (p (f x)); simpl; rewrite IH; reflexivity.
Qed.

Lemma present_map_length (df : list VisitRecord) :
  List.length (present (map provider_name df))
  = List.length
      (filter (fun r => match provider_name r with
                        | Some _ => true
                        | None => false
                        end) df).
Proof.
  induction df as [|r df IH]; simpl; [reflexivity|].
  destruct (provider_name r); simpl; rewrite IH; reflexivity.
Qed.

Lemma filter_filter {A : Type} (p q : A -> bool) (l : list A) :
  filter p (filter q l) = filter (fun x => q x && p x) l.
Proof.
  induction l as [|x l IH]; simpl; [reflexivity|].
  destruct (q x); simpl; [destruct (p x)|]; rewrite IH; reflexivity.
Qed.

Lemma doxy_visits_sum (df : list VisitRecord) :
  list_sum (map dv_total_visits (Api.get_doxy_visits df))
  = List.length
      (filter (fun r => match provider_name r with
                        | Some _ => true
                        | None => false
                        end) df).
Proof.
  unfold Api.get_doxy_visits, sort_desc_nat.
  rewrite (list_sum_perm _ _ (map_sort_perm _ dv_total_visits _)).
  rewrite map_map. cbn [dv_total_visits].
  rewrite <- present_map_length, <- group_sizes_sum.
  f_equal. apply map_ext. intros k.
  apply (filter_map_length provider_name (fun c => cell_eqb c (Some k))).
Qed.

Lemma doxy_visits_sum_kept (df : list VisitRecord) :
  list_sum (map dv_total_visits (get_doxy_visits df))
  = List.length
      (filter (fun r => match provider_name r with
                        | Some _ => not_excluded (provider_name r)
                        | None => false
                        end) df).
Proof.
  unfold get_doxy_visits. rewrite doxy_visits_sum, filter_filter.
  f_equal. apply filter_ext. intros r.
  destruct (provider_name r); [apply andb_true_r | apply andb_false_r].
Qed.

(** The rows of one name in the log that the exclusion filter leaves are
    its rows in the log, when the name is not excluded. *)
Lemma filter_kept_name (k : text) (q : VisitRecord -> bool)
  (df : list VisitRecord) :
  not_excluded (Some k) = true ->
  filter (fun r => cell_eqb (provider_name r) (Some k) && q r)
         (filter (fun r => not_excluded (provider_name r)) df)
  = filter (fun r => cell_eqb (provider_name r) (Some k) && q r) df.
Proof.
  intros Hk. rewrite filter_filter. apply filter_ext. intros r.
  destruct (cell_eqb (provider_name r) (Some k)) eqn:E; cbn [andb].
  - apply cell_eqb_eq in E. rewrite E, Hk. reflexivity.
  - apply andb_false_r.
Qed.

Lemma filter_kept_name_all (k : text) (df : list VisitRecord) :
  not_excluded (Some k) = true ->
  filter (fun r => cell_eqb (provider_name r) (Some k))
         (filter (fun r => not_excluded (provider_name r)) df)
  = filter (fun r => cell_eqb (provider_name r) (Some k)) df.
Proof.
  intros Hk.
  pose proof (filter_kept_name k (fun _ => true) df Hk) as H.
  erewrite (filter_ext _ (fun r => cell_eqb (provider_name r) (Some k))) in H
    by (intros r; apply andb_true_r).
  erewrite (filter_ext (fun r => cell_eqb (provider_name r) (Some k) && true)
              (fun r => cell_eqb (provider_name r) (Some k))) in H
    by (intros r; apply andb_true_r).
  exact H.
Qed.

(** The rows of the table of [api/index.py]. *)
Lemma api_visits_rows (df : list VisitRecord) (row : DoxyVisitsRow) :
  In row (Api.get_doxy_visits df) ->
  (exists r, In r df /\ provider_name r = Some (dv_provider_name row))
  /\ 1 <= dv_total_visits row
  /\ dv_total_visits row
     = List.length
         (filter (fun r => cell_eqb (provider_name r)
                                    (Some (dv_provider_name row)))
                 df).
Proof.
  intros Hrow. unfold Api.get_doxy_visits, sort_desc_nat in Hrow.
  apply sort_by_In, in_map_iff in Hrow. destruct Hrow as [k [<- Hk]].
  cbn [dv_total_visits dv_provider_name].
  apply group_keys_In, in_map_iff in Hk. destruct Hk as [r [E Hr]].
  split; [exists r; auto|]. split; [|reflexivity].
  assert (Hin : In r (filter (fun r0 => cell_eqb (provider_name r0) (Some k))
                             df)).
  { apply filter_In. split; [exact Hr|]. apply cell_eqb_eq, E. }
  destruct (filter _ df); [destruct Hin | simpl; lia].
Qed.

Lemma api_visits_names (df : list VisitRecord) :
  NoDup (map dv_provider_name (Api.get_doxy_visits df)).
Proof.
  unfold Api.get_doxy_visits, sort_desc_nat.
  eapply Permutation_NoDup; [apply Permutation_sym, map_sort_perm|].
  rewrite map_map. cbn [dv_provider_name]. rewrite map_id.
  apply group_keys_NoDup.
Qed.

(** X2.  Doxy Visits has one row per distinct provider name, each with
    the number of visit records of that name (at least one), in
    descending order of that number; the numbers add up to the number of
    records that have a provider name.  In [app.py] no row has an excluded
    name, the numbers add up to the number of records whose name is
    present and not excluded, and a log without rows gives no table but
    [KeyError].  No visit is counted twice or lost. *)
Theorem doxy_visits_conserve_visits (doxy_df : list VisitRecord) :
  (let out := Api.get_doxy_visits doxy_df in
   NoDup (map dv_provider_name out)
   /\ (forall row, In row out ->
         1 <= dv_total_visits row
         /\ dv_total_visits row
            = List.length
                (filter (fun r => cell_eqb (provider_name r)
                                           (Some (dv_provider_name row)))
                        doxy_df))
   /\ Sorted (fun a b => dv_total_visits b <= dv_total_visits a) out
   /\ list_sum (map dv_total_visits out)
      = List.length
          (filter (fun r => match provider_name r with
                            | Some _ => true
                            | None => false
                            end) doxy_df))
  /\ (doxy_df = [] ->
      get_doxy_visits_df doxy_df = Raise (KeyError (str "Provider name")))
  /\ (doxy_df <> [] ->
      exists out,
        get_doxy_visits_df doxy_df = Ok out
        /\ NoDup (map dv_provider_name out)
        /\ (forall row, In row out ->
              should_exclude_name (Some (dv_provider_name row)) = false
              /\ 1 <= dv_total_visits row
              /\ dv_total_visits row
                 = List.length
                     (filter (fun r => cell_eqb (provider_name r)
                                                (Some (dv_provider_name row)))
                             doxy_df))
        /\ Sorted (fun a b => dv_total_visits b <= dv_total_visits a) out
        /\ list_sum (map dv_total_visits out)
           = List.length
               (filter (fun r => match provider_name r with
                                 | Some _ => not_excluded (provider_name r)
                                 | None => false
                                 end) doxy_df)).
Proof.
  split; [|split].
  - cbv zeta. split; [apply api_visits_names|]. split; [|split].
    + intros row Hrow. apply api_visits_rows in Hrow. tauto.
    + apply sort_desc_nat_sorted.
    + apply doxy_visits_sum.
  - intros ->. reflexivity.
  - intros Hne. exists (get_doxy_visits doxy_df).
    split; [destruct doxy_df; [congruence | reflexivity]|].
    unfold get_doxy_visits.
    split; [apply api_visits_names|]. split; [|split].
    + intros row Hrow. apply api_visits_rows in Hrow.
      destruct Hrow as [[r [Hr Hk]] [H1 Hc]].
      apply filter_In in Hr. destruct Hr as [_ Hx]. rewrite Hk in Hx.
      split; [apply not_excluded_false, Hx|]. split; [exact H1|].
      rewrite Hc. rewrite filter_kept_name_all by exact Hx. reflexivity.
    + apply sort_desc_nat_sorted.
    + apply doxy_visits_sum_kept.
Qed.

Lemma doxy_visits_conserve_visits_witness :
  exists out,
    get_doxy_visits_df three_visits = Ok out
    /\ NoDup (map dv_provider_name out)
    /\ list_sum (map dv_total_visits out) = 3.
Proof.
  destruct (proj2 (proj2 (doxy_visits_conserve_visits three_visits)))
    as [out [E [Hn [_ [_ Hs]]]]]; [discriminate|].
  exists out. split; [exact E|]. split; [exact Hn|]. rewrite Hs. reflexivity.
Defined.

(** ** The performance table and the visit counts *)

Lemma durations_of_In (k : text) (df : list VisitRecord) (r : VisitRecord)
  (m : Q) :
  In r df -> provider_name r = Some k ->
  Duration_Minutes (duration r) = Some m -> In m (durations_of k df).
Proof.
  intros Hr Hk Hm. unfold durations_of. apply in_flat_map. exists r.
  split; [exact Hr|]. rewrite Hk, Hm.
  replace (cell_eqb (Some k) (Some k)) with true
    by (symmetry; apply cell_eqb_eq; reflexivity).
  left. reflexivity.
Qed.

Lemma metrics_row_inv (df : list VisitRecord) (row : MetricsRow) :
  In row (Api.get_doxy_performance_metrics df) ->
  exists k,
    In (Some k) (map provider_name (filter has_duration df))
    /\ let x := durations_of k df in
       row = {| pm_provider := k;
                pm_total_visits := List.length x;
                pm_visits_over_20 := List.length (over_20 x);
                pm_pct_over_20 :=
                  py_round 1
                    (inject_Z (Z.of_nat (List.length (over_20 x)))
                     / inject_Z (Z.of_nat (List.length x)) * inject_Z 100)%Q;
                pm_hours_over_20 :=
                  py_round 2 (Qsum (over_20 x) / inject_Z 60)%Q;
                pm_avg_duration :=
                  py_round 2 (Qsum x / inject_Z (Z.of_nat (List.length x)))%Q |}.
Proof.
  unfold Api.get_doxy_performance_metrics, sort_desc_nat.
  rewrite sort_by_In, in_map_iff. intros [k [<- Hk]].
  exists k. split; [apply group_keys_In, Hk|].
  cbv zeta. rewrite durations_of_valid. reflexivity.
Qed.

(** The visits of one provider are those with a duration that parses and
    those without. *)
Lemma visits_split_by_duration (k : text) (df : list VisitRecord) :
  List.length (filter (fun r => cell_eqb (provider_name r) (Some k)) df)
  = List.length (durations_of k df)
    + List.length
        (filter (fun r => cell_eqb (provider_name r) (Some k)
                          && negb (has_duration r)) df).
Proof.
  unfold durations_of, has_duration.
  induction df as [|r df IH]; [reflexivity|].
  cbn [filter flat_map]. rewrite length_app.
  destruct (cell_eqb (provider_name r) (Some k)); cbn [andb].
  - destruct (Duration_Minutes (duration r)); cbn [negb List.length];
      rewrite IH; lia.
  - cbn [List.length]. exact IH.
Qed.

Lemma metrics_row_has_visits_row (df : list VisitRecord) (mrow : MetricsRow) :
  In mrow (Api.get_doxy_performance_metrics df) ->
  exists vrow,
    In vrow (Api.get_doxy_visits df)
    /\ dv_provider_name vrow = pm_provider mrow
    /\ dv_total_visits vrow
       = pm_total_visits mrow
         + List.length
             (filter (fun r => cell_eqb (provider_name r)
                                        (Some (pm_provider mrow))
                               && negb (has_duration r)) df).
Proof.
  intros H. apply metrics_row_inv in H. destruct H as [k [Hk ->]].
  cbv zeta. cbn [pm_provider pm_total_visits].
  exists {| dv_provider_name := k;
            dv_total_visits :=
              List.length
                (filter (fun r => cell_eqb (provider_name r) (Some k)) df) |}.
  split; [|split; [reflexivity | apply visits_split_by_duration]].
  unfold Api.get_doxy_visits, sort_desc_nat.
  apply sort_by_In, in_map_iff. exists k. split; [reflexivity|].
  apply group_keys_In. apply in_map_iff in Hk. destruct Hk as [r [E Hr]].
  apply filter_In in Hr. apply in_map_iff. exists r. tauto.
Qed.

(** X4.  Every provider of Doxy Performance Metrics has a row in Doxy
    Visits of the same log, and its metrics count the visits of that row
    for which the parser returns a value: the two totals differ by the
    number of the provider's visits for which it returns none.  This holds
    of the tables of [api/index.py] on a log on which the parser does not
    raise, and of the tables of [app.py] whenever
    [get_doxy_performance_metrics] returns one; [get_doxy_visits] then
    returns one as well. *)
Theorem metrics_within_visit_counts (df : list VisitRecord) (mrow : MetricsRow) :
  ((forall r, In r df ->
      exists v, parse_duration_to_minutes (duration r) = Ok v) ->
   In mrow (Api.get_doxy_performance_metrics df) ->
   exists vrow,
     In vrow (Api.get_doxy_visits df)
     /\ dv_provider_name vrow = pm_provider mrow
     /\ dv_total_visits vrow
        = pm_total_visits mrow
          + List.length
              (filter (fun r => cell_eqb (provider_name r)
                                         (Some (pm_provider mrow))
                                && negb (has_duration r)) df))
  /\ (forall metrics,
        get_doxy_performance_metrics_df df = Ok metrics -> In mrow metrics ->
        exists visits vrow,
          get_doxy_visits_df df = Ok visits
          /\ In vrow visits
          /\ dv_provider_name vrow = pm_provider mrow
          /\ dv_total_visits vrow
             = pm_total_visits mrow
               + List.length
                   (filter (fun r => cell_eqb (provider_name r)
                                              (Some (pm_provider mrow))
                                     && negb (has_duration r)) df)
          /\ pm_total_visits mrow <= dv_total_visits vrow).
Proof.
  split; [intros _; apply metrics_row_has_visits_row|].
  intros metrics E Hin.
  unfold get_doxy_performance_metrics_df in E.
  destruct df as [|r0 df0] eqn:Edf; [discriminate|]. rewrite <- Edf in *.
  destruct (apply_parse_duration _); [|discriminate].
  inversion E; subst metrics; clear E.
  unfold get_doxy_performance_metrics in Hin.
  pose proof (metrics_row_inv _ _ Hin) as [k [Hk Hrow]].
  apply metrics_row_has_visits_row in Hin.
  destruct Hin as [vrow [Hv [Hn Hc]]].
  assert (Hx : not_excluded (Some (pm_provider mrow)) = true).
  { rewrite Hrow. cbn [pm_provider]. apply in_map_iff in Hk.
    destruct Hk as [r [Er Hr]]. apply filter_In in Hr. destruct Hr as [Hr _].
    apply filter_In in Hr. destruct Hr as [_ Hr]. rewrite Er in Hr. exact Hr. }
  rewrite (filter_kept_name _ (fun r => negb (has_duration r)) df Hx) in Hc.
  exists (get_doxy_visits df), vrow.
  split; [rewrite Edf; reflexivity|].
  split; [exact Hv|]. split; [exact Hn|]. split; [exact Hc | lia].
Qed.

Lemma metrics_within_visit_counts_witness :
  let mrow :=
    hd {| pm_provider := []; pm_total_visits := 0; pm_visits_over_20 := 0;
          pm_pct_over_20 := 0; pm_hours_over_20 := 0; pm_avg_duration := 0 |}
       (get_doxy_performance_metrics three_visits) in
  exists visits vrow,
    get_doxy_visits_df three_visits = Ok visits
    /\ In vrow visits
    /\ dv_provider_name vrow = pm_provider mrow
    /\ pm_total_visits mrow <= dv_total_visits vrow.
Proof.
  intros mrow.
  destruct (proj2 (metrics_within_visit_counts three_visits mrow)
              (get_doxy_performance_metrics three_visits) eq_refl)
    as [visits [vrow [H1 [H2 [H3 [_ H4]]]]]].
  - subst mrow. vm_compute. left. reflexivity.
  - exists visits, vrow. auto.
Defined.

(** ** Visits by program *)

Lemma upper_lower_char (c : ascii) : upper_char (lower_char c) = upper_char c.
Proof. ascii_cases c; reflexivity. Qed.

Lemma upper_lower (e : text) : upper (lower e) = upper e.
Proof.
  unfold upper, lower. induction e as [|c e IH]; [reflexivity|].
  cbn [map flat_map]. rewrite IH, upper_lower_char. reflexivity.
Qed.

Lemma upper_app (a b : text) : upper (a ++ b) = upper a ++ upper b.
Proof. apply flat_map_app. Qed.

Lemma contains_embedded (d s a b : text) :
  contains d s = true -> contains d (a ++ s ++ b) = true.
Proof.
  rewrite !contains_iff. intros [p [q ->]]. exists (a ++ p), (q ++ b).
  rewrite <- !app_assoc. reflexivity.
Qed.

Lemma fountaintrt_is_trt (u : text) :
  contains (str "FOUNTAINTRT") u = true -> contains (str "TRT") u = true.
Proof.
  rewrite !contains_iff. intros [p [q ->]].
  exists (p ++ str "FOUNTAIN"), q. rewrite <- !app_assoc. reflexivity.
Qed.

Lemma get_category_keyword (e : text) :
  get_category (Some e)
  = if contains (str "TRT") (upper e) then TRT
    else if contains (str "HRT") (upper e) then HRT else Other.
Proof.
  unfold get_category.
  destruct (contains (str "TRT") (upper e)) eqn:Et; [reflexivity|].
  destruct (contains (str "FOUNTAINTRT") (upper e)) eqn:Ef; [|reflexivity].
  apply fountaintrt_is_trt in Ef. congruence.
Qed.

(** X5.  [get_category] looks for the keywords in any case: an event type
    is TRT when it contains [trt], else HRT when it contains [hrt], else
    Other, and a missing one is Other; the separate test for
    [FOUNTAINTRT] changes nothing.  An event type that embeds a TRT event
    type is TRT, whatever else it says. *)
Theorem get_category_by_keyword (e a b : text) :
  get_category None = Other
  /\ get_category (Some e)
     = (if contains (str "TRT") (upper e) then TRT
        else if contains (str "HRT") (upper e) then HRT else Other)
  /\ get_category (Some (lower e)) = get_category (Some e)
  /\ (get_category (Some e) = TRT ->
      get_category (Some (a ++ e ++ b)) = TRT)
  /\ (get_category (Some e) = HRT ->
      get_category (Some (a ++ e ++ b)) <> Other).
Proof.
  split; [reflexivity|]. split; [apply get_category_keyword|].
  split; [rewrite !get_category_keyword, upper_lower; reflexivity|].
  rewrite !get_category_keyword, !upper_app.
  destruct (contains (str "TRT") (upper e)) eqn:Et.
  - split; [|intros H; discriminate H]. intros _.
    rewrite (contains_embedded _ _ (upper a) (upper b) Et). reflexivity.
  - split;
      [destruct (contains (str "HRT") (upper e)); intros H; discriminate H|].
    destruct (contains (str "HRT") (upper e)) eqn:Eh;
      [|intros H; discriminate H].
    intros _. rewrite (contains_embedded _ _ (upper a) (upper b) Eh).
    destruct (contains (str "TRT") (upper a ++ upper e ++ upper b));
      intros H; discriminate H.
Qed.

Lemma get_category_by_keyword_witness :
  get_category (Some (str "Follow-up: FountainTRT / hrt consult")) = TRT
  /\ get_category (Some (str "New: hrt intake (video)")) <> Other.
Proof.
  split.
  - apply (proj1 (proj2 (proj2 (proj2
             (get_category_by_keyword (str "FountainTRT") (str "Follow-up: ")
                (str " / hrt consult")))))).
    reflexivity.
  - apply (proj2 (proj2 (proj2 (proj2
             (get_category_by_keyword (str "hrt") (str "New: ")
                (str " intake (video)")))))).
    reflexivity.
Defined.

Lemma existsb_columns (P : Category -> bool) (c : Category) :
  existsb (Category_eqb c) (filter P [TRT; HRT; Other]) = P c.
Proof.
  destruct c; simpl; destruct (P TRT), (P HRT), (P Other); reflexivity.
Qed.

(** A category without a column has no event of any provider. *)
Lemma no_column_no_event (k : text) (c : Category)
  (l : list ProgramEventRecord) :
  existsb (fun r => Category_eqb (get_category (event_type r)) c)
          (filter (fun r => match owner r with
                            | Some _ => true
                            | None => false
                            end) l) = false ->
  count_category k c l = 0.
Proof.
  unfold count_category. induction l as [|r l IH]; [reflexivity|].
  cbn [filter]. destruct (owner r) as [t|] eqn:Eo.
  - cbn [existsb]. intros H. apply orb_false_iff in H. destruct H as [H1 H2].
    rewrite H1, andb_false_r. apply IH, H2.
  - intros H. cbn [cell_eqb andb]. apply IH, H.
Qed.

Lemma category_counts_add_up (k : text) (l : list ProgramEventRecord) :
  count_category k TRT l + count_category k HRT l + count_category k Other l
  = List.length (filter (fun r => cell_eqb (owner r) (Some k)) l).
Proof.
  unfold count_category. induction l as [|r l IH]; [reflexivity|].
  cbn [filter]. destruct (cell_eqb (owner r) (Some k)); cbn [andb].
  - destruct (get_category (event_type r)); cbn [Category_eqb List.length];
      lia.
  - exact IH.
Qed.

Lemma present_owner_length (l : list ProgramEventRecord) :
  List.length (present (map owner l))
  = List.length
      (filter (fun r => match owner r with
                        | Some _ => true
                        | None => false
                        end) l).
Proof.
  induction l as [|r l IH]; simpl; [reflexivity|].
  destruct (owner r); simpl; rewrite IH; reflexivity.
Qed.

(** The rows of the pivot, one per provider of the events that are
    counted. *)
Lemma program_pivot_rows_eq (r0 : ProgramEventRecord)
  (df0 : list ProgramEventRecord) :
  let kept :=
    filter (fun r => not_excluded (owner r))
           (filter (fun r => cell_eqb (status r) (Some (str "Completed")))
                   (r0 :: df0)) in
  program_rows (program_pivot (r0 :: df0))
  = sort_desc_nat pv_total
      (map (fun k =>
              {| pv_provider := k;
                 pv_trt := count_category k TRT kept;
                 pv_hrt := count_category k HRT kept;
                 pv_other := count_category k Other kept;
                 pv_total :=
                   List.length
                     (filter (fun r => cell_eqb (owner r) (Some k)) kept) |})
           (group_keys (map owner kept))).
Proof.
  intros kept. unfold program_pivot. fold kept. cbn [program_rows].
  f_equal. apply map_ext. intros k.
  assert (Hn : forall c,
            (if existsb (Category_eqb c)
                  (filter
                     (fun c0 =>
                        existsb
                          (fun r => Category_eqb (get_category (event_type r)) c0)
                          (filter (fun r => match owner r with
                                            | Some _ => true
                                            | None => false
                                            end) kept))
                     [TRT; HRT; Other])
             then count_category k c kept else 0)
            = count_category k c kept).
  { intros c. rewrite existsb_columns.
    destruct (existsb _ _) eqn:E; [reflexivity|].
    symmetry. apply no_column_no_event, E. }
  rewrite !Hn, category_counts_add_up. reflexivity.
Qed.

(** The rows of the pivot count the events that are completed and not
    excluded. *)
Lemma program_pivot_counts (df : list ProgramEventRecord) :
  let rows := program_rows (program_pivot df) in
  let counted r :=
    cell_eqb (status r) (Some (str "Completed")) && not_excluded (owner r) in
  NoDup (map pv_provider rows)
  /\ (forall row, In row rows ->
        let mine c :=
          List.length
            (filter (fun r => counted r
                              && (cell_eqb (owner r) (Some (pv_provider row))
                                  && Category_eqb (get_category (event_type r)) c))
                    df) in
        pv_trt row = mine TRT /\ pv_hrt row = mine HRT
        /\ pv_other row = mine Other
        /\ pv_total row = pv_trt row + pv_hrt row + pv_other row
        /\ 1 <= pv_total row)
  /\ list_sum (map pv_total rows)
     = List.length
         (filter (fun r => counted r
                           && match owner r with
                              | Some _ => true
                              | None => false
                              end) df)
  /\ Sorted (fun a b => pv_total b <= pv_total a) rows.
Proof.
  cbv zeta. destruct df as [|r0 df0].
  { cbn. split; [constructor|]. split; [intros row []|].
    split; [reflexivity | constructor]. }
  rewrite program_pivot_rows_eq. cbv zeta.
  set (df := r0 :: df0).
  set (kept := filter (fun r => not_excluded (owner r))
                 (filter (fun r => cell_eqb (status r) (Some (str "Completed")))
                         df)).
  assert (Hk : forall p, filter p kept
                         = filter (fun r =>
                                     cell_eqb (status r) (Some (str "Completed"))
                                     && not_excluded (owner r) && p r) df).
  { intros p. unfold kept. rewrite !filter_filter. apply filter_ext.
    intros r. apply andb_assoc. }
  split; [|split; [|split]].
  - unfold sort_desc_nat.
    eapply Permutation_NoDup; [apply Permutation_sym, map_sort_perm|].
    rewrite map_map. cbn [pv_provider]. rewrite map_id.
    apply group_keys_NoDup.
  - intros row Hrow. unfold sort_desc_nat in Hrow.
    apply sort_by_In, in_map_iff in Hrow. destruct Hrow as [k [<- Hkey]].
    cbn [pv_provider pv_trt pv_hrt pv_other pv_total].
    unfold count_category. rewrite !Hk.
    split; [reflexivity|]. split; [reflexivity|]. split; [reflexivity|].
    split.
    + rewrite <- !Hk. symmetry. apply (category_counts_add_up k kept).
    + rewrite <- Hk. apply group_keys_In, in_map_iff in Hkey.
      destruct Hkey as [r [E Hr]].
      assert (Hin : In r (filter (fun r1 => cell_eqb (owner r1) (Some k)) kept)).
      { apply filter_In. split; [exact Hr | apply cell_eqb_eq, E]. }
      destruct (filter _ kept); [destruct Hin | simpl; lia].
  - unfold sort_desc_nat.
    rewrite (list_sum_perm _ _ (map_sort_perm _ pv_total _)).
    rewrite map_map. cbn [pv_total].
    rewrite <- Hk, <- present_owner_length, <- group_sizes_sum.
    f_equal. apply map_ext. intros k.
    apply (filter_map_length owner (fun c => cell_eqb c (Some k))).
  - apply sort_desc_nat_sorted.
Qed.

(** X6.  [get_visits_by_program], once the events are read: without
    events the table has no row; with events of which none has status
    [Completed] there is no table but [KeyError] on [Event Type]; and
    when some [Completed] event has a provider that is not excluded,
    Visits by Program has one row per provider, at least one, whose TRT,
    HRT and Other cells count that provider's [Completed] events in each
    category, whether or not the category has a column, with Total their
    sum and at least 1; the totals add up to the number of [Completed]
    events with a provider that is not excluded, and the rows are in
    descending order of Total.  Nothing is stated of events that are all
    excluded or without provider. *)
Theorem program_pivot_totals (df : list ProgramEventRecord) :
  let counted r :=
    cell_eqb (status r) (Some (str "Completed")) && not_excluded (owner r) in
  (df = [] ->
   exists table, program_table df = Ok table /\ program_rows table = [])
  /\ (df <> [] ->
      existsb (fun r => cell_eqb (status r) (Some (str "Completed"))) df
      = false ->
      program_table df = Raise (KeyError (str "Event Type")))
  /\ (existsb (fun r => counted r
                        && match owner r with
                           | Some _ => true
                           | None => false
                           end) df = true ->
      exists table,
        program_table df = Ok table
        /\ program_rows table <> []
        /\ NoDup (map pv_provider (program_rows table))
        /\ (forall row, In row (program_rows table) ->
              let mine c :=
                List.length
                  (filter (fun r =>
                             counted r
                             && (cell_eqb (owner r) (Some (pv_provider row))
                                 && Category_eqb (get_category (event_type r))
                                                 c))
                          df) in
              pv_trt row = mine TRT /\ pv_hrt row = mine HRT
              /\ pv_other row = mine Other
              /\ pv_total row = pv_trt row + pv_hrt row + pv_other row
              /\ 1 <= pv_total row)
        /\ list_sum (map pv_total (program_rows table))
           = List.length
               (filter (fun r => counted r
                                 && match owner r with
                                    | Some _ => true
                                    | None => false
                                    end) df)
        /\ Sorted (fun a b => pv_total b <= pv_total a) (program_rows table)).
Proof.
  cbv zeta. split; [|split].
  - intros ->. eexists. split; reflexivity.
  - intros Hne Hc. unfold program_table.
    destruct df as [|r0 df0]; [congruence|]. rewrite Hc. reflexivity.
  - intros Hsome.
    assert (Hc : existsb
                   (fun r => cell_eqb (status r) (Some (str "Completed"))) df
                 = true).
    { apply existsb_exists in Hsome. destruct Hsome as [r [Hr Hb]].
      apply existsb_exists. exists r. split; [exact Hr|].
      apply andb_true_iff in Hb. destruct Hb as [Hb _].
      apply andb_true_iff in Hb. tauto. }
    exists (program_pivot df). split.
    { unfold program_table. destruct df as [|r0 df0]; [reflexivity|].
      rewrite Hc. reflexivity. }
    pose proof (program_pivot_counts df) as H. cbv zeta in H.
    destruct H as [H1 [H2 [H3 H4]]].
    split; [|split; [exact H1|]; split; [exact H2|]; split; assumption].
    intros E. rewrite E in H3. cbn [map list_sum] in H3.
    apply existsb_exists in Hsome. destruct Hsome as [r [Hr Hb]].
    assert (Hin : In r (filter
                          (fun r1 =>
                             cell_eqb (status r1) (Some (str "Completed"))
                             && not_excluded (owner r1)
                             && match owner r1 with
                                | Some _ => true
                                | None => false
                                end) df)).
    { apply filter_In. split; assumption. }
    destruct (filter _ df); [destruct Hin | discriminate H3].
Qed.

(** ** The markup of the account report *)

(** X7.  Every record taken from the markup comes from a table row of at
    least seven cells whose first cell has a style containing
    [border-style:solid], and has its three fields: the reads of the
    cells 3, 5 and 6 are in range. *)
Theorem html_data_fields_in_range (rows : list (list Td))
  (r : ProgramEventRecord) :
  In r (html_data rows) ->
  exists cells first st,
    In cells rows /\ 7 <= List.length cells
    /\ hd_error cells = Some first /\ td_style first = Some st
    /\ contains (str "border-style:solid") st = true
    /\ exists s o e,
         nth_error cells 3 = Some s /\ status r = Some (td_text s)
         /\ nth_error cells 5 = Some o /\ owner r = Some (td_text o)
         /\ nth_error cells 6 = Some e /\ event_type r = Some (td_text e).
Proof.
  unfold html_data. rewrite in_flat_map. intros [cells [Hc H]].
  destruct (7 <=? List.length cells) eqn:E7; [|destruct H].
  apply Nat.leb_le in E7.
  destruct cells as [|first cells']; [destruct H|].
  destruct (td_style first) as [st|] eqn:Es; [|destruct H].
  destruct (negb (text_eqb st []) && contains (str "border-style:solid") st)
    eqn:Eb; [|destruct H].
  apply andb_true_iff in Eb. destruct Eb as [_ Eb].
  destruct H as [<- | []].
  exists (first :: cells'), first, st.
  split; [exact Hc|]. split; [exact E7|]. split; [reflexivity|].
  split; [exact Es|]. split; [exact Eb|].
  destruct cells' as [|c1 [|c2 [|c3 [|c4 [|c5 [|c6 rest]]]]]];
    simpl in E7; try lia.
  exists c3, c5, c6. cbn. repeat split; reflexivity.
Qed.

Lemma html_data_fields_in_range_witness :
  let solid := {| td_style := Some (str "border-style:solid;"); td_text := [] |} in
  let td t := {| td_style := None; td_text := t |} in
  let cells := [solid; td (str "a"); td (str "b"); td (str "Completed");
                td (str "c"); td (str "Jane Doe, NP");
                td (str "TRT Follow-up")] in
  let r := {| status := Some (str "Completed");
              owner := Some (str "Jane Doe, NP");
              event_type := Some (str "TRT Follow-up") |} in
  exists cells' first st,
    In cells' [cells] /\ 7 <= List.length cells'
    /\ hd_error cells' = Some first /\ td_style first = Some st
    /\ contains (str "border-style:solid") st = true
    /\ exists s o e,
         nth_error cells' 3 = Some s /\ status r = Some (td_text s)
         /\ nth_error cells' 5 = Some o /\ owner r = Some (td_text o)
         /\ nth_error cells' 6 = Some e /\ event_type r = Some (td_text e).
Proof.
  intros solid td cells r. apply (html_data_fields_in_range [cells] r).
  vm_compute. left. reflexivity.
Defined.

Lemma program_pivot_totals_witness :
  let ev s o e := {| status := Some s; owner := Some o; event_type := Some e |} in
  let df := [ev (str "Completed") (str "Jane Doe, NP") (str "TRT Follow-up");
             ev (str "Completed") (str "Jane Doe, NP") (str "HRT consult");
             ev (str "Canceled") (str "Jane Doe, NP") (str "TRT Follow-up")] in
  (exists table,
     program_table df = Ok table
     /\ list_sum (map pv_total (program_rows table)) = 2)
  /\ program_table (skipn 2 df) = Raise (KeyError (str "Event Type")).
Proof.
  intros ev df. split.
  - destruct (proj2 (proj2 (program_pivot_totals df)) eq_refl)
      as [table [E [_ [_ [_ [Hs _]]]]]].
    exists table. split; [exact E|]. rewrite Hs. reflexivity.
  - apply (proj1 (proj2 (program_pivot_totals (skipn 2 df)))).
    + discriminate.
    + reflexivity.
Defined.

(** ** Gusto Hours *)

Lemma remove_char_free (c : ascii) (s : text) :
  free_of c (remove_char c s) = true.
Proof.
  unfold free_of, remove_char. apply forallb_forall. intros x Hx.
  apply filter_In in Hx. tauto.
Qed.

Lemma is_in_doxy_mono (l l' : list text) (n : text) :
  incl l l' ->
  GetGustoHours.is_in_doxy l n = true -> GetGustoHours.is_in_doxy l' n = true.
Proof.
  intros Hi. rewrite !is_in_doxy_iff. intros [Hn [b [Hb H]]].
  split; [exact Hn|]. exists b. split; [apply Hi, Hb | exact H].
Qed.

(** X8.  The answer of [is_in_doxy] depends only on the set of normalized
    visit-log names, not on the order in which the loop visits them or on
    repetitions: more names never lose a match, equal sets give equal
    answers, and a union matches when either part does. *)
Theorem is_in_doxy_depends_on_set (l l' : list text) (n : text) :
  (incl l l' ->
   GetGustoHours.is_in_doxy l n = true -> GetGustoHours.is_in_doxy l' n = true)
  /\ ((forall x, In x l <-> In x l') ->
      GetGustoHours.is_in_doxy l n = GetGustoHours.is_in_doxy l' n)
  /\ GetGustoHours.is_in_doxy (l ++ l') n
     = GetGustoHours.is_in_doxy l n || GetGustoHours.is_in_doxy l' n.
Proof.
  split; [apply is_in_doxy_mono|]. split.
  - intros H. apply bool_eq_iff.
    split; apply is_in_doxy_mono; intros x Hx; apply H, Hx.
  - apply bool_eq_iff. rewrite orb_true_iff, !is_in_doxy_iff. split.
    + intros [Hn [b [Hb H]]]. apply in_app_or in Hb.
      destruct Hb as [Hb|Hb]; [left | right]; (split; [exact Hn|]);
        exists b; tauto.
    + intros [[Hn [b [Hb H]]] | [Hn [b [Hb H]]]]; (split; [exact Hn|]);
        exists b; (split; [|exact H]); apply in_or_app; tauto.
Qed.

Lemma is_in_doxy_depends_on_set_witness :
  GetGustoHours.is_in_doxy [str "john smith"; str "jane doe"] (str "jane q doe")
  = true
  /\ GetGustoHours.is_in_doxy [str "jane doe"; str "john smith"; str "jane doe"]
       (str "jane q doe")
     = GetGustoHours.is_in_doxy [str "john smith"; str "jane doe"]
         (str "jane q doe").
Proof.
  split.
  - apply (proj1 (is_in_doxy_depends_on_set
                    [str "jane doe"] [str "john smith"; str "jane doe"]
                    (str "jane q doe"))).
    + intros x [<- | []]. right. left. reflexivity.
    + reflexivity.
  - apply (proj1 (proj2 (is_in_doxy_depends_on_set
                           [str "jane doe"; str "john smith"; str "jane doe"]
                           [str "john smith"; str "jane doe"]
                           (str "jane q doe")))).
    intros x. simpl. tauto.
Defined.

(** The rows that are kept from the payroll rows. *)
Lemma gusto_hours_rows_kept_iff (rows : list PayrollRecord)
  (doxy_providers : list text) :
  let out := GetGustoHours.gusto_hours_rows rows doxy_providers in
  (forall g, In g out <->
     exists r,
       In r rows /\ gh_name g = GetGustoHours.clean_name r
       /\ total_hours r = Some (gh_total_hours g)
       /\ (0 < gh_total_hours g)%Q
       /\ GetGustoHours.is_in_doxy
            (map (fun p => GetGustoHours.normalize_name (Some p)) doxy_providers)
            (GetGustoHours.normalize_name (Some (gh_name g))) = true
       /\ should_exclude_name (Some (gh_name g)) = false)
  /\ (forall g, In g out -> free_of "034"%char (gh_name g) = true)
  /\ Sorted (fun a b => (gh_total_hours b <= gh_total_hours a)%Q) out.
Proof.
  cbv zeta.
  assert (Hiff : forall g,
            In g (GetGustoHours.gusto_hours_rows rows doxy_providers) <->
            exists r,
              In r rows /\ gh_name g = GetGustoHours.clean_name r
              /\ total_hours r = Some (gh_total_hours g)
              /\ (0 < gh_total_hours g)%Q
              /\ GetGustoHours.is_in_doxy
                   (map (fun p => GetGustoHours.normalize_name (Some p))
                        doxy_providers)
                   (GetGustoHours.normalize_name (Some (gh_name g))) = true
              /\ should_exclude_name (Some (gh_name g)) = false).
  { intros g. split.
    - intros H. apply gusto_hours_rows_kept in H.
      destruct H as [Hx [r [Hr [Hn [Hh [Hp Hd]]]]]].
      exists r. apply not_excluded_false in Hx. tauto.
    - intros [r [Hr [Hn [Hh [Hp [Hd Hx]]]]]].
      unfold GetGustoHours.gusto_hours_rows, sort_desc_Q.
      apply sort_by_In, filter_In.
      split; [|apply not_excluded_false, Hx].
      apply in_flat_map. exists r. split; [exact Hr|].
      rewrite <- Hn, Hd, Hh.
      apply Qltb_lt in Hp. rewrite Hp.
      left. destruct g. reflexivity. }
  split; [exact Hiff|]. split.
  - intros g Hg. apply Hiff in Hg. destruct Hg as [r [_ [-> _]]].
    apply remove_char_free.
  - apply sort_desc_Q_sorted.
Qed.


Lemma get_gusto_hours_cases (gusto_df : GustoFrame)
  (doxy_providers : list text) :
  (existsb (GetGustoHours.matched_with_hours doxy_providers)
           (gusto_rows gusto_df) = false ->
   exists e, GetGustoHours.get_gusto_hours gusto_df doxy_providers = Raise e)
  /\ (forall out,
        GetGustoHours.get_gusto_hours gusto_df doxy_providers = Ok out ->
        out = GetGustoHours.gusto_hours_rows (gusto_rows gusto_df)
                doxy_providers
        /\ existsb (GetGustoHours.matched_with_hours doxy_providers)
                   (gusto_rows gusto_df) = true).
Proof.
  unfold GetGustoHours.get_gusto_hours.
  destruct (count_label (str "Name") _) as [|[|n]].
  - split; [eauto | discriminate].
  - destruct (gusto_rows gusto_df) as [|r rows] eqn:Er.
    + split; [eauto | discriminate].
    + destruct (count_label (str "Total hours") _) as [|[|m]].
      * split; [eauto | discriminate].
      * destruct (existsb _ (r :: rows)) eqn:Ex.
        -- split; [discriminate|]. intros out H. inversion H. auto.
        -- split; [eauto | discriminate].
      * split; [eauto | discriminate].
  - split; [eauto | discriminate].
Qed.

(** X9.  Whenever [get_gusto_hours] returns a table, Gusto Hours lists
    exactly the payroll rows whose hours are a positive number, whose
    cleaned name matches a provider of the visit log and is not excluded,
    with that name and those hours, in descending order of hours; no name
    in it contains a double quote, and some payroll row with positive
    hours matches a provider.  When no payroll row with positive hours
    matches a provider, as when the visit log has no provider, the
    function returns no table: it raises. *)
Theorem gusto_hours_rows_spec (gusto_df : GustoFrame)
  (doxy_providers : list text) :
  (forall out,
     GetGustoHours.get_gusto_hours gusto_df doxy_providers = Ok out ->
     (forall g, In g out <->
        exists r,
          In r (gusto_rows gusto_df) /\ gh_name g = GetGustoHours.clean_name r
          /\ total_hours r = Some (gh_total_hours g)
          /\ (0 < gh_total_hours g)%Q
          /\ GetGustoHours.is_in_doxy
               (map (fun p => GetGustoHours.normalize_name (Some p))
                    doxy_providers)
               (GetGustoHours.normalize_name (Some (gh_name g))) = true
          /\ should_exclude_name (Some (gh_name g)) = false)
     /\ (forall g, In g out -> free_of "034"%char (gh_name g) = true)
     /\ Sorted (fun a b => (gh_total_hours b <= gh_total_hours a)%Q) out
     /\ exists r,
          In r (gusto_rows gusto_df)
          /\ GetGustoHours.matched_with_hours doxy_providers r = true)
  /\ (existsb (GetGustoHours.matched_with_hours doxy_providers)
              (gusto_rows gusto_df) = false ->
      exists e, GetGustoHours.get_gusto_hours gusto_df doxy_providers = Raise e)
  /\ (doxy_providers = [] ->
      exists e, GetGustoHours.get_gusto_hours gusto_df doxy_providers = Raise e).
Proof.
  pose proof (get_gusto_hours_cases gusto_df doxy_providers) as [Hr Hok].
  split; [|split].
  - intros out E. apply Hok in E. destruct E as [-> Hx].
    pose proof (gusto_hours_rows_kept_iff (gusto_rows gusto_df) doxy_providers)
      as H. cbv zeta in H. destruct H as [H1 [H2 H3]].
    split; [exact H1|]. split; [exact H2|]. split; [exact H3|].
    apply existsb_exists in Hx. exact Hx.
  - exact Hr.
  - intros ->. apply Hr.
    destruct (existsb _ _) eqn:Ex; [|reflexivity].
    apply existsb_exists in Ex. destruct Ex as [r [_ Hm]].
    unfold GetGustoHours.matched_with_hours in Hm.
    apply andb_true_iff in Hm. destruct Hm as [Hd _].
    apply is_in_doxy_iff in Hd. destruct Hd as [_ [b [[] _]]].
Qed.

Lemma gusto_hours_rows_spec_witness :
  let quoted :=
    {| gusto_columns := [str "Name"; str "Title"; str "Manager";
                         str "Total hours"];
       gusto_rows :=
         [{| name_raw := Some ("034"%char :: str "Jane Doe" ++ ["034"%char]);
             total_hours := Some 40%Q |}] |} in
  (forall out,
     GetGustoHours.get_gusto_hours quoted [str "Jane Doe NP"] = Ok out ->
     In {| gh_name := str "Jane Doe"; gh_total_hours := 40 |} out)
  /\ GetGustoHours.get_gusto_hours quoted [str "Jane Doe NP"]
     = Ok [{| gh_name := str "Jane Doe"; gh_total_hours := 40 |}]
  /\ exists e, GetGustoHours.get_gusto_hours quoted [str "Jon Roe"] = Raise e.
Proof.
  intros quoted. split; [|split].
  - intros out E.
    apply (proj2 (proj1 (proj1 (gusto_hours_rows_spec quoted
                                  [str "Jane Doe NP"]) out E) _)).
    eexists. split; [left; reflexivity|].
    repeat split; vm_compute; reflexivity.
  - vm_compute. reflexivity.
  - apply (proj1 (proj2 (gusto_hours_rows_spec quoted [str "Jon Roe"]))).
    vm_compute. reflexivity.
Defined.

(** ** The two copies of [normalize_name] *)

Lemma chr_eq_lower_input (c x : ascii) :
  chr_eq true c (lower_char x) = chr_eq true c x.
Proof. unfold chr_eq. rewrite lower_char_idem. reflexivity. Qed.

Lemma chr_eq_lower_pattern (c x : ascii) :
  chr_eq true (lower_char c) x = chr_eq true c x.
Proof. unfold chr_eq. rewrite lower_char_idem. reflexivity. Qed.

Lemma newline_lower (c : ascii) :
  Ascii.eqb (lower_char c) "010"%char = Ascii.eqb c "010"%char.
Proof. ascii_cases c; reflexivity. Qed.

Lemma at_end_lower (s : text) : at_end (lower s) = at_end s.
Proof.
  destruct s as [|c [|c' s]]; try reflexivity. simpl. apply newline_lower.
Qed.

Lemma star_k_lower (p : ascii -> bool) (k k' : text -> option text) :
  (forall c, p (lower_char c) = p c) ->
  (forall t, k' (lower t) = option_map lower (k t)) ->
  forall s, star_k p k' (lower s) = option_map lower (star_k p k s).
Proof.
  intros Hp Hk s. induction s as [|c s IH].
  - simpl. apply (Hk []).
  - cbn [lower map star_k]. fold (lower s). rewrite Hp, IH.
    destruct (p c); [|apply (Hk (c :: s))].
    destruct (star_k p k s); [reflexivity | apply (Hk (c :: s))].
Qed.

(** Ignoring case, matching the lower-cased text goes the same way and
    leaves the lower-cased rest. *)
Lemma match_k_lower (r : regex) :
  case_blind r ->
  forall (s : text) (k k' : text -> option text),
    (forall t, k' (lower t) = option_map lower (k t)) ->
    match_k true r (lower s) k' = option_map lower (match_k true r s k).
Proof.
  induction r as [|c|p| |r1 IH1 r2 IH2|r1 IH1 r2 IH2|r1 IH1|p|p];
    intros Hb s k k' Hk; cbn [match_k].
  - apply Hk.
  - destruct s as [|x s]; [reflexivity|]. cbn [lower map]. fold (lower s).
    rewrite chr_eq_lower_input. destruct (chr_eq true c x); [apply Hk | reflexivity].
  - destruct s as [|x s]; [reflexivity|]. cbn [lower map]. fold (lower s).
    simpl in Hb. rewrite Hb. destruct (p x); [apply Hk | reflexivity].
  - rewrite at_end_lower. destruct (at_end s); [apply Hk | reflexivity].
  - destruct Hb as [Hb1 Hb2]. apply IH1; [exact Hb1|].
    intros t. apply IH2; assumption.
  - destruct Hb as [Hb1 Hb2].
    rewrite (IH1 Hb1 s k k' Hk), (IH2 Hb2 s k k' Hk).
    destruct (match_k true r1 s k); reflexivity.
  - simpl in Hb. rewrite (IH1 Hb s k k' Hk), (Hk s).
    destruct (match_k true r1 s k); reflexivity.
  - apply star_k_lower; assumption.
  - destruct s as [|x s]; [reflexivity|]. cbn [lower map]. fold (lower s).
    simpl in Hb. rewrite Hb. destruct (p x); [|reflexivity].
    apply star_k_lower; assumption.
Qed.

Lemma match_at_lower (r : regex) (s : text) :
  case_blind r ->
  match_at true r (lower s) = option_map lower (match_at true r s).
Proof.
  intros Hb. unfold match_at. apply match_k_lower; [exact Hb|]. reflexivity.
Qed.

Lemma sub_scan_lower (r : regex) :
  case_blind r ->
  forall (s : text) (n : nat),
    sub_scan true r n (lower s) = lower (sub_scan true r n s).
Proof.
  intros Hb s. induction s as [|c s IH]; intros n; [reflexivity|].
  cbn [lower map sub_scan]. fold (lower s).
  destruct n as [|n]; [|apply IH].
  change (lower_char c :: lower s) with (lower (c :: s)).
  rewrite (match_at_lower r (c :: s) Hb).
  destruct (match_at true r (c :: s)) as [rest|]; cbn [option_map].
  - rewrite !lower_length.
    destruct (List.length (c :: s) - List.length rest);
      [cbn [lower map]; rewrite IH; reflexivity | apply IH].
  - cbn [lower map]. rewrite IH. reflexivity.
Qed.

Lemma re_sub_lower (r : regex) (s : text) :
  case_blind r -> re_sub true r (lower s) = lower (re_sub true r s).
Proof. intros Hb. apply sub_scan_lower, Hb. Qed.

Lemma same_matches_sym (r r' : regex) : same_matches r r' -> same_matches r' r.
Proof. intros H s k. symmetry. apply H. Qed.

Lemma same_matches_trans (r1 r2 r3 : regex) :
  same_matches r1 r2 -> same_matches r2 r3 -> same_matches r1 r3.
Proof. intros H1 H2 s k. rewrite H1. apply H2. Qed.

Lemma star_k_ext (p : ascii -> bool) (k k' : text -> option text) :
  (forall t, k t = k' t) -> forall s, star_k p k s = star_k p k' s.
Proof.
  intros Hk s. induction s as [|c s IH]; cbn [star_k]; [apply Hk|].
  rewrite IH, (Hk (c :: s)). reflexivity.
Qed.

Lemma match_k_ext (ic : bool) (r : regex) :
  forall (s : text) (k k' : text -> option text),
    (forall t, k t = k' t) -> match_k ic r s k = match_k ic r s k'.
Proof.
  induction r as [|c|p| |r1 IH1 r2 IH2|r1 IH1 r2 IH2|r1 IH1|p|p];
    intros s k k' Hk; cbn [match_k].
  - apply Hk.
  - destruct s as [|x s]; [reflexivity|]. rewrite (Hk s). reflexivity.
  - destruct s as [|x s]; [reflexivity|]. rewrite (Hk s). reflexivity.
  - rewrite (Hk s). reflexivity.
  - apply IH1. intros t. apply IH2, Hk.
  - rewrite (IH1 s k k' Hk), (IH2 s k k' Hk). reflexivity.
  - rewrite (IH1 s k k' Hk), (Hk s). reflexivity.
  - apply star_k_ext, Hk.
  - destruct s as [|x s]; [reflexivity|].
    rewrite (star_k_ext p k k' Hk). reflexivity.
Qed.

Lemma same_matches_Seq (a a' b b' : regex) :
  same_matches a a' -> same_matches b b' ->
  same_matches (Seq a b) (Seq a' b').
Proof.
  intros Ha Hb s k. cbn [match_k]. rewrite Ha.
  apply match_k_ext. intros t. apply Hb.
Qed.

Lemma same_matches_Alt (a a' b b' : regex) :
  same_matches a a' -> same_matches b b' ->
  same_matches (Alt a b) (Alt a' b').
Proof. intros Ha Hb s k. cbn [match_k]. rewrite Ha, Hb. reflexivity. Qed.

(** An alternative that repeats the one before it adds nothing. *)
Lemma same_matches_Alt_twice (a a' b : regex) :
  same_matches a a' -> same_matches (Alt a (Alt a' b)) (Alt a b).
Proof.
  intros Ha s k. cbn [match_k]. rewrite <- Ha.
  destruct (match_k true a s k); reflexivity.
Qed.

Lemma same_matches_Lit (c : ascii) : same_matches (Lit c) (Lit (lower_char c)).
Proof.
  intros s k. cbn [match_k]. destruct s as [|x s]; [reflexivity|].
  rewrite chr_eq_lower_pattern. reflexivity.
Qed.

Lemma same_matches_lit (w : text) : same_matches (lit w) (lit (lower w)).
Proof.
  induction w as [|c w IH]; [intros s k; reflexivity|].
  apply same_matches_Seq; [apply same_matches_Lit | exact IH].
Qed.

Lemma same_matches_refl (r : regex) : same_matches r r.
Proof. intros s k. reflexivity. Qed.

Lemma credential_patterns_same :
  same_matches credential_re GetHoursWorked.credential_re.
Proof.
  unfold credential_re, GetHoursWorked.credential_re. cbn [alts].
  apply same_matches_Alt; [apply (same_matches_lit (str "NP"))|].
  apply same_matches_Alt; [apply (same_matches_lit (str "FNP-C"))|].
  apply same_matches_Alt; [apply (same_matches_lit (str "MD"))|].
  apply same_matches_Alt; [apply (same_matches_lit (str "PA"))|].
  apply same_matches_Alt; [apply (same_matches_lit (str "LLC"))|].
  eapply same_matches_trans.
  - apply same_matches_Alt_twice.
    apply same_matches_Seq; [|apply same_matches_refl].
    eapply same_matches_trans; [apply (same_matches_lit (str "Inc"))|].
    apply same_matches_sym, (same_matches_lit (str "INC")).
  - apply same_matches_Alt; [|apply (same_matches_lit (str "PLLC"))].
    apply same_matches_Seq; [|apply same_matches_refl].
    apply (same_matches_lit (str "Inc")).
Qed.

Lemma suffix_patterns_same : same_matches suffix_re GetHoursWorked.suffix_re.
Proof.
  apply same_matches_Seq; [apply same_matches_refl|].
  apply same_matches_Seq; [apply credential_patterns_same|].
  apply same_matches_refl.
Qed.

Lemma comma_patterns_same :
  same_matches comma_np_re GetHoursWorked.comma_np_re.
Proof.
  apply same_matches_Seq; [apply same_matches_refl|].
  apply same_matches_Seq; [apply same_matches_refl|].
  apply same_matches_Seq; [apply (same_matches_lit (str "NP"))|].
  apply same_matches_refl.
Qed.

Lemma sub_scan_same (r r' : regex) :
  same_matches r r' ->
  forall (s : text) (n : nat), sub_scan true r n s = sub_scan true r' n s.
Proof.
  intros H s. induction s as [|c s IH]; intros n; [reflexivity|].
  cbn [sub_scan]. destruct n as [|n]; [|apply IH].
  unfold match_at. rewrite H.
  destruct (match_k true r' (c :: s) _) as [rest|].
  - destruct (List.length (c :: s) - List.length rest);
      rewrite IH; reflexivity.
  - rewrite IH. reflexivity.
Qed.

Lemma case_blind_lit (w : text) : case_blind (lit w).
Proof. induction w as [|c w IH]; simpl; auto. Qed.

Lemma case_blind_suffix : case_blind suffix_re.
Proof.
  unfold suffix_re, credential_re. cbn [alts case_blind].
  repeat split; try apply isspace_lower; try apply case_blind_lit.
Qed.

Lemma case_blind_comma : case_blind comma_np_re.
Proof.
  unfold comma_np_re. cbn [case_blind].
  repeat split; try apply isspace_lower; try apply case_blind_lit.
Qed.

(** X10.  On names of Latin-1 characters (code points below 256, the
    names that [text] holds), the normalizer inside [get_gusto_hours] and
    the one inside [get_hours_worked] compute the same function, although
    one lower-cases after removing the suffix and the other before, and
    their patterns are written in different case: the key that selects a
    payroll row and the key that joins it are the same text.  Nothing is
    stated of names with other characters. *)
Theorem normalize_name_copies_agree (name : cell) :
  GetGustoHours.normalize_name name = GetHoursWorked.normalize_name name.
Proof.
  destruct name as [n|]; [|reflexivity].
  unfold GetGustoHours.normalize_name, GetHoursWorked.normalize_name, re_sub.
  rewrite <- (sub_scan_same _ _ suffix_patterns_same).
  rewrite <- (sub_scan_same _ _ comma_patterns_same).
  rewrite (sub_scan_lower _ case_blind_suffix).
  rewrite (sub_scan_lower _ case_blind_comma).
  reflexivity.
Qed.

(** ** The provider label of a booking page *)

Lemma split_at_first (c : ascii) (a a' x y : text) :
  free_of c a = true -> free_of c a' = true ->
  a ++ c :: x = a' ++ c :: y -> a = a' /\ x = y.
Proof.
  unfold free_of. revert a'. induction a as [|u a IH]; intros a' Ha Ha' E.
  - destruct a' as [|u' a'].
    + simpl in E. injection E as E. auto.
    + simpl in E. injection E as <- _. simpl in Ha'.
      rewrite Ascii.eqb_refl in Ha'. discriminate.
  - destruct a' as [|u' a'].
    + simpl in E. injection E as -> _. simpl in Ha.
      rewrite Ascii.eqb_refl in Ha. discriminate.
    + simpl in E. injection E as <- E. simpl in Ha, Ha'.
      apply andb_true_iff in Ha. apply andb_true_iff in Ha'.
      destruct (IH a' (proj2 Ha) (proj2 Ha') E) as [-> ->]. auto.
Qed.

Lemma spaces_free_of (c : ascii) (ws : text) :
  isspace c = false -> forallb isspace ws = true -> free_of c ws = true.
Proof.
  intros Hc H. unfold free_of. rewrite forallb_forall in *. intros x Hx.
  destruct (Ascii.eqb_spec x c) as [-> | _]; [|reflexivity].
  rewrite (H c Hx) in Hc. discriminate.
Qed.

Lemma free_of_app (c : ascii) (a b : text) :
  free_of c (a ++ b) = free_of c a && free_of c b.
Proof. apply forallb_app. Qed.

(** What [\s*\([^)]*\)] matches: whitespace, an opening parenthesis, text
    without a closing one, and the closing one. *)
Lemma paren_re_shape (s s' : text) :
  matches false paren_re s s' <->
  exists ws inner,
    s = ws ++ "("%char :: inner ++ ")"%char :: s'
    /\ forallb isspace ws = true /\ free_of ")"%char inner = true.
Proof.
  unfold paren_re. rewrite matches_Seq. split.
  - intros [m [H1 H2]]. apply matches_Star in H1. destruct H1 as [ws [-> Hw]].
    apply matches_Seq in H2. destruct H2 as [m1 [H2 H3]].
    apply matches_Lit in H2. destruct H2 as [x [-> Hx]].
    apply Ascii.eqb_eq in Hx. subst x.
    apply matches_Seq in H3. destruct H3 as [m2 [H3 H4]].
    apply matches_Star in H3. destruct H3 as [inner [-> Hi]].
    apply matches_Lit in H4. destruct H4 as [y [-> Hy]].
    apply Ascii.eqb_eq in Hy. subst y.
    exists ws, inner. auto.
  - intros [ws [inner [-> [Hw Hi]]]].
    exists ("("%char :: inner ++ ")"%char :: s'). split.
    + apply matches_Star. exists ws. auto.
    + apply matches_Seq. exists (inner ++ ")"%char :: s'). split.
      * apply matches_Lit. exists "("%char. split; reflexivity.
      * apply matches_Seq. exists (")"%char :: s'). split.
        -- apply matches_Star. exists inner. auto.
        -- apply matches_Lit. exists ")"%char. split; reflexivity.
Qed.

Lemma paren_match_has_paren (q : text) :
  match_at false paren_re q <> None -> free_of "("%char q = false.
Proof.
  intros H. destruct (match_at false paren_re q) as [rest|] eqn:E;
    [|congruence].
  apply match_at_sound, paren_re_shape in E.
  destruct E as [ws [inner [-> _]]].
  rewrite free_of_app.
  change (free_of "("%char ("("%char :: inner ++ ")"%char :: rest)) with false.
  apply andb_false_r.
Qed.

Lemma lstrip_app_kept (b r : text) :
  lstrip b <> [] -> lstrip (b ++ r) = lstrip b ++ r.
Proof.
  induction b as [|c b IH]; simpl; [congruence|].
  destruct (isspace c); [exact IH | reflexivity].
Qed.

Lemma lstrip_spaces (r : text) : forallb isspace r = true -> lstrip r = [].
Proof.
  induction r as [|x r IH]; [reflexivity|]. simpl. intros F.
  apply andb_true_iff in F. destruct F as [-> F]. auto.
Qed.

Lemma strip_rstrip (s : text) : strip (rstrip s) = strip s.
Proof.
  destruct (rstrip_split s) as [r [E F]].
  remember (rstrip s) as b eqn:Hb. clear Hb. subst s. unfold strip.
  destruct (lstrip b) as [|c l] eqn:El.
  - destruct (lstrip_split b) as [w [Eb Fw]]. rewrite El, app_nil_r in Eb.
    subst b. rewrite lstrip_app_spaces by exact Fw.
    rewrite (lstrip_spaces r F). reflexivity.
  - rewrite lstrip_app_kept by (rewrite El; discriminate).
    rewrite El. symmetry. apply rstrip_app_spaces, F.
Qed.

(** X11.  The provider label of a booking page: a page name without an
    opening parenthesis is kept, trimmed; from a name followed by
    optional whitespace and one parenthesised note, the note and the
    whitespace are dropped and the name is kept, trimmed; a missing page
    name gives a missing label. *)
Theorem booking_provider_label (r : BookingSummaryRecord) :
  (booking_page r = None -> booking_provider r = None)
  /\ (forall t,
        booking_page r = Some t -> free_of "("%char t = true ->
        booking_provider r = Some (strip t))
  /\ (forall name ws note,
        booking_page r = Some (name ++ ws ++ "("%char :: note ++ [")"%char]) ->
        free_of "("%char name = true -> forallb isspace ws = true ->
        free_of ")"%char note = true ->
        booking_provider r = Some (strip name)).
Proof.
  unfold booking_provider. split; [intros ->; reflexivity|]. split.
  - intros t -> Ht. cbn [option_map]. f_equal. f_equal.
    apply re_sub_no_match. intros p q E.
    destruct (match_at false paren_re q) eqn:Em; [|reflexivity].
    assert (Hq : free_of "("%char q = false)
      by (apply paren_match_has_paren; congruence).
    rewrite E, free_of_app, Hq, andb_false_r in Ht. discriminate.
  - intros name ws note -> Hname Hws Hnote. cbn [option_map]. f_equal.
    assert (Hp : free_of "("%char (name ++ ws) = true).
    { rewrite free_of_app, Hname. apply spaces_free_of; [reflexivity | exact Hws]. }
    destruct (rstrip_split (name ++ ws)) as [w [E Fw]].
    remember (rstrip (name ++ ws)) as b eqn:Hb0.
    set (t' := w ++ "("%char :: note ++ [")"%char]).
    assert (Et : name ++ ws ++ "("%char :: note ++ [")"%char] = b ++ t').
    { unfold t'. rewrite app_assoc, E, <- app_assoc. reflexivity. }
    assert (Hb : free_of "("%char b = true).
    { rewrite E, free_of_app in Hp. apply andb_true_iff in Hp. tauto. }
    assert (Hm : match_at false paren_re t' = Some []).
    { assert (M : matches false paren_re t' []).
      { apply paren_re_shape. exists w, note. auto. }
      pose proof (match_at_complete false _ _ _ M) as Hne.
      destruct (match_at false paren_re t') as [rest|] eqn:Em; [|congruence].
      apply match_at_sound, paren_re_shape in Em.
      destruct Em as [ws' [inner [E' [Fw' Fi]]]]. unfold t' in E'.
      apply split_at_first in E';
        [|apply spaces_free_of; [reflexivity | assumption] ..].
      destruct E' as [_ E'].
      change (note ++ [")"%char]) with (note ++ ")"%char :: []) in E'.
      apply split_at_first in E'; [|assumption ..].
      destruct E' as [_ <-]. reflexivity. }
    rewrite Et.
    rewrite (re_sub_first_match false paren_re b t' [] ).
    + rewrite app_nil_r, Hb0.
      rewrite rstrip_app_spaces by exact Hws. apply strip_rstrip.
    + intros b1 b2 Eb Hne.
      destruct (match_at false paren_re (b2 ++ t')) as [rest|] eqn:Em;
        [exfalso | reflexivity].
      apply match_at_sound, paren_re_shape in Em.
      destruct Em as [ws' [inner [E' [Fw' _]]]].
      assert (Hb2 : free_of "("%char b2 = true).
      { rewrite Eb, free_of_app in Hb. apply andb_true_iff in Hb. tauto. }
      assert (Hend : ends_in_space b2 = false).
      { rewrite <- (ends_in_space_app b1 b2 Hne), <- Eb, Hb0.
        apply rstrip_end. }
      apply app_eq_app in E'. destruct E' as [l [[E1 E2] | [E1 E2]]].
      * destruct l as [|c l].
        -- rewrite app_nil_r in E1. subst b2.
           rewrite (spaces_end_in_space ws' Hne Fw') in Hend. discriminate.
        -- simpl in E2. injection E2 as <- _.
           rewrite E1, free_of_app in Hb2.
           change (free_of "("%char ("("%char :: l)) with false in Hb2.
           rewrite andb_false_r in Hb2. discriminate.
      * rewrite E1, forallb_app in Fw'. apply andb_true_iff in Fw'.
        rewrite (spaces_end_in_space b2 Hne (proj1 Fw')) in Hend. discriminate.
    + exact Hm.
    + unfold t'. rewrite length_app. simpl. lia.
Qed.

Lemma booking_provider_label_witness :
  let page t := {| booking_page := Some t; all_activities := 3; scheduled := 1;
                   completed := 1; canceled := 1; no_show := 0 |} in
  booking_provider (page (str " Jane Doe, NP ")) = Some (strip (str " Jane Doe, NP "))
  /\ booking_provider (page (str "Jane Doe, NP  (30 min video)"))
     = Some (strip (str "Jane Doe, NP")).
Proof.
  intros page. split.
  - apply (proj1 (proj2 (booking_provider_label (page (str " Jane Doe, NP "))))
             (str " Jane Doe, NP ")); reflexivity.
  - apply (proj2 (proj2 (booking_provider_label
                           (page (str "Jane Doe, NP  (30 min video)"))))
             (str "Jane Doe, NP") (str "  ") (str "30 min video"));
      reflexivity.
Defined.

(** ** The normal form of a name *)

(** X21.  For a name of Latin-1 characters (code points below 256, the
    names that [text] holds), the normalized name, from either normalizer,
    is trimmed and in lower case and no longer than the raw name; a
    missing name and a name of whitespace only normalize to the empty
    text, which [is_in_doxy] never matches.  Nothing is stated of names
    with other characters. *)
Theorem normalized_names_are_trimmed_lower_case (name : cell)
  (doxy_normalized : list text) :
  let y := GetGustoHours.normalize_name name in
  let y' := GetHoursWorked.normalize_name name in
  strip y = y /\ lower y = y /\ strip y' = y' /\ lower y' = y'
  /\ (forall x, name = Some x ->
        List.length y <= List.length x /\ List.length y' <= List.length x)
  /\ (name = None \/ (exists x, name = Some x /\ forallb isspace x = true) ->
      y = [] /\ y' = []
      /\ GetGustoHours.is_in_doxy doxy_normalized y = false).
Proof.
  cbv zeta. destruct name as [x|].
  - destruct (normalized_is_fixed_by_strip_and_lower
                GetGustoHours.normalize_name x (or_introl eq_refl)) as [H1 H2].
    destruct (normalized_is_fixed_by_strip_and_lower
                GetHoursWorked.normalize_name x (or_intror eq_refl)) as [H3 H4].
    split; [exact H1|]. split; [exact H2|]. split; [exact H3|].
    split; [exact H4|]. split.
    + intros x0 E. inversion E; subst x0.
      cbn [GetGustoHours.normalize_name GetHoursWorked.normalize_name]. split.
      * eapply Nat.le_trans; [apply strip_length|]. rewrite lower_length.
        eapply Nat.le_trans; [apply re_sub_length|].
        eapply Nat.le_trans; [apply re_sub_length|]. apply strip_length.
      * eapply Nat.le_trans; [apply strip_length|].
        eapply Nat.le_trans; [apply re_sub_length|].
        eapply Nat.le_trans; [apply re_sub_length|].
        rewrite lower_length. apply strip_length.
    + intros [E | [x0 [E Hs]]]; [discriminate|]. inversion E; subst x0.
      assert (Hx : strip x = []).
      { unfold strip. rewrite (lstrip_spaces x Hs). reflexivity. }
      cbn [GetGustoHours.normalize_name GetHoursWorked.normalize_name].
      rewrite Hx. split; [reflexivity|]. split; reflexivity.
  - split; [reflexivity|]. split; [reflexivity|]. split; [reflexivity|].
    split; [reflexivity|]. split; [intros x E; discriminate E|].
    intros _. split; [reflexivity|]. split; reflexivity.
Qed.

Lemma normalized_names_are_trimmed_lower_case_witness :
  List.length (GetGustoHours.normalize_name (Some (str "  Jane Doe NP ")))
  <= List.length (str "  Jane Doe NP ")
  /\ GetGustoHours.is_in_doxy [str "jane doe"]
       (GetGustoHours.normalize_name (Some (str "   "))) = false.
Proof.
  split.
  - destruct (normalized_names_are_trimmed_lower_case
                (Some (str "  Jane Doe NP ")) []) as [_ [_ [_ [_ [H _]]]]].
    apply (proj1 (H (str "  Jane Doe NP ") eq_refl)).
  - destruct (normalized_names_are_trimmed_lower_case
                (Some (str "   ")) [str "jane doe"]) as [_ [_ [_ [_ [_ H]]]]].
    destruct H as [_ [_ H]]; [|exact H].
    right. exists (str "   "). split; reflexivity.
Defined.

(** ** Reading the uploads *)

Section PipelineMore.

Variable decode_utf_16 decode_utf_8 decode_cp1252 : list Byte.byte -> option content.
Variable account_read_csv : content -> result CsvFrame.
Variable soup_find_all_tr : content -> list (list Td).
Variable doxy_io : Readers DoxyFrame.
Variable gusto_io : Readers GustoFrame.
Variable booking_io : Readers BookingFrame.

Abbreviation read_frame :=
  (read_file_as_dataframe decode_utf_16 decode_utf_8 decode_cp1252).
Abbreviation booking_frame :=
  (read_booking decode_utf_16 decode_utf_8 decode_cp1252 booking_io).
Abbreviation sections :=
  (generate_sections account_read_csv soup_find_all_tr).
Abbreviation report :=
  (generate_report decode_utf_16 decode_utf_8 decode_cp1252
     account_read_csv soup_find_all_tr doxy_io gusto_io booking_io).

(** X12.  [read_file_as_dataframe] chooses the reader by the file name
    alone, in any case: a name that ends in [.xls] or [.xlsx] is read as a
    workbook, and when that fails as a markup table; whatever goes wrong
    on that path, the only exception that leaves the function is
    [ValueError("Could not read Excel file")].  Every other name is handed
    to the delimited reader, whose outcome is returned as it is. *)
Theorem read_file_outcomes {Frame : Type} (io : Readers Frame)
  (file_obj : FileStorage) (skiprows : nat) :
  let name := lower (filename file_obj) in
  (ends_with name (str ".xls") = false ->
   ends_with name (str ".xlsx") = false ->
   read_frame io file_obj skiprows = read_csv io (stream file_obj) skiprows)
  /\ (ends_with name (str ".xls") = true
      \/ ends_with name (str ".xlsx") = true ->
      (forall df, read_excel io (stream file_obj) skiprows = Ok df ->
                  read_frame io file_obj skiprows = Ok df)
      /\ ((exists df, read_frame io file_obj skiprows = Ok df)
          \/ read_frame io file_obj skiprows
             = Raise (ValueError [str "Could not read Excel file"]))).
Proof.
  cbv zeta. unfold read_file_as_dataframe. split.
  - intros -> ->. reflexivity.
  - intros H.
    assert (E : ends_with (lower (filename file_obj)) (str ".xls")
                || ends_with (lower (filename file_obj)) (str ".xlsx") = true)
      by (apply orb_true_iff; exact H).
    rewrite E. split.
    + intros df ->. reflexivity.
    + destruct (read_excel io (stream file_obj) skiprows); [eauto|].
      destruct (decode_first _ _ _ _ _) as [[|c cs]|]; auto.
      destruct (read_html io (c :: cs)) as [[|df l]|]; auto.
      destruct (0 <? skiprows); [|eauto].
      destruct (reheader io skiprows df); eauto.
Qed.

Lemma rename_column_has (old new : text) (columns : list text) :
  In old columns -> has_column new (rename_column old new columns) = true.
Proof.
  intros H. unfold has_column, rename_column. apply existsb_exists.
  exists new. split; [|apply text_eqb_refl].
  apply in_map_iff. exists old. rewrite text_eqb_refl. auto.
Qed.

(** X13.  When the guarded block leaves a booking table, the table has a
    column called [Booking page], the same rows and as many columns as the
    table that was read from a named upload; a table without any column
    leaves none. *)
Theorem booking_frame_has_page_column (booking_file : option FileStorage)
  (booking_df : BookingFrame) :
  booking_frame booking_file = Some booking_df ->
  has_column (str "Booking page") (booking_columns booking_df) = true
  /\ exists f raw,
       booking_file = Some f /\ filename f <> []
       /\ read_frame booking_io f 0 = Ok raw
       /\ booking_rows booking_df = booking_rows raw
       /\ List.length (booking_columns booking_df)
          = List.length (booking_columns raw)
       /\ booking_columns raw <> [].
Proof.
  unfold read_booking. destruct booking_file as [f|]; [|discriminate].
  destruct (text_eqb (filename f) []) eqn:En; [discriminate|].
  apply text_eqb_neq in En.
  destruct (read_file_as_dataframe _ _ _ booking_io f 0) as [raw|e] eqn:Er;
    [|discriminate].
  destruct (find _ (booking_columns raw)) as [col|] eqn:Ef.
  - apply find_some in Ef. destruct Ef as [Hin _].
    assert (Hne : booking_columns raw <> [])
      by (intros E; rewrite E in Hin; destruct Hin).
    destruct (text_eqb col (str "Booking page")) eqn:Ec; cbn [negb];
      intros H; inversion H; subst booking_df; clear H.
    + apply text_eqb_eq in Ec. subst col. split.
      * apply existsb_exists. exists (str "Booking page").
        split; [exact Hin | reflexivity].
      * exists f, raw. repeat split; auto.
    + cbn [booking_columns booking_rows]. split.
      * apply rename_column_has, Hin.
      * exists f, raw. unfold rename_column. rewrite length_map.
        repeat split; auto.
  - destruct (has_column (str "Booking page") (booking_columns raw)) eqn:Eh;
      cbn [negb].
    + intros H. inversion H; subst booking_df. split; [exact Eh|].
      exists f, raw.
      assert (Hne : booking_columns raw <> [])
        by (intros E; rewrite E in Eh; discriminate).
      repeat split; auto.
    + destruct (booking_columns raw) as [|first cols] eqn:Ecols;
        [discriminate|].
      intros H. inversion H; subst booking_df; clear H.
      cbn [booking_columns booking_rows]. split.
      * apply (rename_column_has first (str "Booking page") (first :: cols)).
        left. reflexivity.
      * exists f, raw. rewrite Ecols.
        split; [reflexivity|]. split; [exact En|]. split; [exact Er|].
        split; [reflexivity|].
        split; [|discriminate].
        cbn [List.length]. f_equal. unfold rename_column. apply length_map.
Qed.

End PipelineMore.

Lemma read_file_outcomes_witness :
  read_file_as_dataframe no_codec no_codec no_codec
    (sample_io sample_doxy_frame) (upload "doxy.txt") 0
  = Ok sample_doxy_frame
  /\ read_file_as_dataframe no_codec no_codec no_codec
       (sample_io sample_doxy_frame) (upload "Doxy.XLSX") 0
     = Raise (ValueError [str "Could not read Excel file"]).
Proof.
  split.
  - apply (proj1 (read_file_outcomes no_codec no_codec no_codec
                    (sample_io sample_doxy_frame) (upload "doxy.txt") 0));
      reflexivity.
  - destruct (proj2 (proj2 (read_file_outcomes no_codec no_codec no_codec
                              (sample_io sample_doxy_frame)
                              (upload "Doxy.XLSX") 0)
                       (or_intror eq_refl)))
      as [[df H] | H]; [|exact H].
    vm_compute in H. discriminate H.
Defined.

Lemma booking_frame_has_page_column_witness :
  has_column (str "Booking page")
    [str "Booking page"; str "All activities"] = true.
Proof.
  assert (H : read_booking no_codec no_codec no_codec
                (sample_io {| booking_columns :=
                                [str "Provider"; str "All activities"];
                              booking_rows := [] |})
                (Some (upload "booking.csv"))
              = Some {| booking_columns :=
                          [str "Booking page"; str "All activities"];
                        booking_rows := [] |})
    by (vm_compute; reflexivity).
  apply (proj1 (booking_frame_has_page_column _ _ _ _ _ _ H)).
Defined.

(** ** The assembled report *)

Lemma get_gusto_hours_inv (gusto_df : GustoFrame) (dp : list text)
  (rows : list GustoHoursRow) :
  GetGustoHours.get_gusto_hours gusto_df dp = Ok rows ->
  rows = GetGustoHours.gusto_hours_rows (gusto_rows gusto_df) dp
  /\ existsb (GetGustoHours.matched_with_hours dp) (gusto_rows gusto_df) = true.
Proof.
  unfold GetGustoHours.get_gusto_hours.
  destruct (count_label _ _) as [|[|n]]; try discriminate.
  destruct (gusto_rows gusto_df) as [|r l]; [discriminate|].
  destruct (count_label _ _) as [|[|n]]; try discriminate.
  destruct (existsb _ (r :: l)); [|discriminate].
  intros H. inversion H. auto.
Qed.

Lemma get_doxy_visits_df_inv (doxy_df : list VisitRecord)
  (out : list DoxyVisitsRow) :
  get_doxy_visits_df doxy_df = Ok out ->
  doxy_df <> [] /\ out = get_doxy_visits doxy_df.
Proof.
  unfold get_doxy_visits_df. destruct doxy_df; [discriminate|].
  intros H. inversion H. split; [discriminate | reflexivity].
Qed.

Lemma get_doxy_performance_metrics_df_inv (doxy_df : list VisitRecord)
  (out : list MetricsRow) :
  get_doxy_performance_metrics_df doxy_df = Ok out ->
  out = get_doxy_performance_metrics doxy_df.
Proof.
  unfold get_doxy_performance_metrics_df. destruct doxy_df; [discriminate|].
  destruct (apply_parse_duration _); [|discriminate].
  intros H. inversion H. reflexivity.
Qed.

Section ReportFacts.

Variable decode_utf_16 decode_utf_8 decode_cp1252 : list Byte.byte -> option content.
Variable account_read_csv : content -> result CsvFrame.
Variable soup_find_all_tr : content -> list (list Td).
Variable doxy_io : Readers DoxyFrame.
Variable gusto_io : Readers GustoFrame.
Variable booking_io : Readers BookingFrame.

Abbreviation read_frame :=
  (read_file_as_dataframe decode_utf_16 decode_utf_8 decode_cp1252).
Abbreviation booking_frame :=
  (read_booking decode_utf_16 decode_utf_8 decode_cp1252 booking_io).
Abbreviation sections :=
  (generate_sections account_read_csv soup_find_all_tr).
Abbreviation report :=
  (generate_report decode_utf_16 decode_utf_8 decode_cp1252
     account_read_csv soup_find_all_tr doxy_io gusto_io booking_io).

(** What a run that reaches the end has computed. *)
Lemma sections_ok (doxy_df : DoxyFrame) (ac : content) (is_csv : bool)
  (gusto_df : GustoFrame) (booking_df : option BookingFrame)
  (rep : Report) (tr : list event) :
  sections doxy_df ac is_csv gusto_df booking_df = (Ok rep, tr) ->
  doxy_visits rep = get_doxy_visits (doxy_rows doxy_df)
  /\ (oncehub_visits rep = None <-> booking_df = None)
  /\ gusto_hours rep
     = GetGustoHours.gusto_hours_rows (gusto_rows gusto_df)
         (map dv_provider_name (doxy_visits rep))
  /\ performance_metrics rep = get_doxy_performance_metrics (doxy_rows doxy_df)
  /\ hours_worked rep
     = GetHoursWorked.get_hours_worked (gusto_hours rep)
         (performance_metrics rep)
  /\ stats rep
     = {| providers := List.length (doxy_visits rep);
          total_visits := list_sum (map dv_total_visits (doxy_visits rep));
          sheets_count := 6 |}.
Proof.
  unfold generate_sections. intros H.
  apply call_ok in H. destruct H as [a1 [t1 [E1 [H ->]]]].
  apply get_doxy_visits_df_inv in E1. destruct E1 as [_ ->].
  destruct booking_df as [b|]; cbn [option_map call_if_some] in H.
  - apply call_ok in H. destruct H as [a2 [t2 [_ [H ->]]]].
    apply call_ok in H. destruct H as [a3 [t3 [_ [H ->]]]].
    apply call_ok in H. destruct H as [a4 [t4 [E4 [H ->]]]].
    apply call_ok in H. destruct H as [a5 [t5 [E5 [H ->]]]].
    apply call_ok in H. destruct H as [a6 [t6 [E6 [H ->]]]].
    apply get_doxy_performance_metrics_df_inv in E5. subst a5.
    inversion E6; subst a6.
    apply get_gusto_hours_inv in E4. destruct E4 as [-> _].
    inversion H; subst. cbn.
    repeat split; try reflexivity; intros; discriminate.
  - apply call_ok in H. destruct H as [a3 [t3 [_ [H ->]]]].
    apply call_ok in H. destruct H as [a4 [t4 [E4 [H ->]]]].
    apply call_ok in H. destruct H as [a5 [t5 [E5 [H ->]]]].
    apply call_ok in H. destruct H as [a6 [t6 [E6 [H ->]]]].
    apply get_doxy_performance_metrics_df_inv in E5. subst a5.
    inversion E6; subst a6.
    apply get_gusto_hours_inv in E4. destruct E4 as [-> _].
    inversion H; subst. cbn.
    repeat split; reflexivity.
Qed.

Lemma report_ok (doxy_file account_file gusto_file : FileStorage)
  (booking_file : option FileStorage) (rep : Report) (tr : list event) :
  report doxy_file account_file gusto_file booking_file = (Ok rep, tr) ->
  exists doxy_df ac gusto_df,
    read_frame doxy_io doxy_file 0 = Ok doxy_df
    /\ read_frame gusto_io gusto_file 8 = Ok gusto_df
    /\ sections doxy_df ac
         (ends_with (lower (filename account_file)) (str ".csv"))
         gusto_df (booking_frame booking_file)
       = (Ok rep, tr).
Proof.
  intros H.
  destruct (report_outcomes decode_utf_16 decode_utf_8 decode_cp1252
              account_read_csv soup_find_all_tr doxy_io gusto_io booking_io
              doxy_file account_file gusto_file booking_file)
    as [[_ E] | [doxy_df [ac [gusto_df [Hd [_ [_ [_ [Hg E]]]]]]]]].
  - rewrite E in H. discriminate.
  - exists doxy_df, ac, gusto_df. rewrite <- E. auto.
Qed.

(** X14.  The statistics of a run that succeeds: [providers] is the
    number of rows of Doxy Visits and [total_visits] the number of visit
    records with a provider name that is not excluded; [sheets] is 6 in
    every run, while the workbook has six sheets only when a booking
    table was read and five otherwise. *)
Theorem report_stats_and_sheets
  (doxy_file account_file gusto_file : FileStorage)
  (booking_file : option FileStorage) (rep : Report) (tr : list event) :
  report doxy_file account_file gusto_file booking_file = (Ok rep, tr) ->
  exists doxy_df,
    read_frame doxy_io doxy_file 0 = Ok doxy_df
    /\ providers (stats rep) = List.length (doxy_visits rep)
    /\ total_visits (stats rep)
       = List.length
           (filter (fun r => match provider_name r with
                             | Some _ => not_excluded (provider_name r)
                             | None => false
                             end) (doxy_rows doxy_df))
    /\ sheets_count (stats rep) = 6
    /\ List.length (sheet_names rep)
       = match booking_frame booking_file with
         | Some _ => 6
         | None => 5
         end.
Proof.
  intros H. apply report_ok in H.
  destruct H as [doxy_df [ac [gusto_df [Hd [_ H]]]]].
  apply sections_ok in H. destruct H as [Hv [Ho [_ [_ [_ Hs]]]]].
  exists doxy_df. split; [exact Hd|]. rewrite Hs. cbn [providers total_visits sheets_count].
  split; [reflexivity|]. split; [rewrite Hv; apply doxy_visits_sum_kept|].
  split; [reflexivity|].
  unfold sheet_names.
  destruct (booking_frame booking_file) as [b|].
  - destruct (oncehub_visits rep); [reflexivity|].
    destruct Ho as [Ho _]. specialize (Ho eq_refl). discriminate.
  - destruct Ho as [_ Ho]. rewrite (Ho eq_refl). reflexivity.
Qed.

(** X15.  The tables of one report are linked: every row of Hours Worked
    carries the name and hours of a row of Gusto Hours and the visit count
    of a row of Doxy Performance Metrics with the same normalized name;
    the normalized name of every row of Gusto Hours is not empty and
    equals, or shares two words with, that of a provider of Doxy Visits;
    every provider of Doxy Performance Metrics is in Doxy Visits with at
    least as many visits. *)
Theorem report_tables_are_linked
  (doxy_file account_file gusto_file : FileStorage)
  (booking_file : option FileStorage) (rep : Report) (tr : list event) :
  report doxy_file account_file gusto_file booking_file = (Ok rep, tr) ->
  (forall row, In row (hours_worked rep) ->
     exists g m,
       In g (gusto_hours rep) /\ In m (performance_metrics rep)
       /\ hw_provider row = gh_name g
       /\ hw_gusto_hours row = gh_total_hours g
       /\ hw_total_visits row = pm_total_visits m
       /\ GetHoursWorked.normalize_name (Some (gh_name g))
          = GetHoursWorked.normalize_name (Some (pm_provider m)))
  /\ (forall g, In g (gusto_hours rep) ->
        exists v,
          In v (doxy_visits rep)
          /\ let a := GetGustoHours.normalize_name (Some (gh_name g)) in
             let b := GetGustoHours.normalize_name (Some (dv_provider_name v)) in
             a <> [] /\ (a = b \/ share_two_tokens a b))
  /\ (forall m, In m (performance_metrics rep) ->
        exists v,
          In v (doxy_visits rep)
          /\ dv_provider_name v = pm_provider m
          /\ pm_total_visits m <= dv_total_visits v).
Proof.
  intros H. apply report_ok in H.
  destruct H as [doxy_df [ac [gusto_df [_ [_ H]]]]].
  apply sections_ok in H. destruct H as [Hv [_ [Hg [Hm [Hw _]]]]].
  split; [|split].
  - intros row Hrow. rewrite Hw in Hrow. apply hours_worked_rows in Hrow.
    destruct Hrow as [g [m [Hing [Hinm [Hk ->]]]]].
    exists g, m. apply text_eqb_eq in Hk. cbn. auto 10.
  - intros g Hing. rewrite Hg in Hing. apply gusto_hours_rows_kept in Hing.
    destruct Hing as [_ [r [_ [_ [_ [_ Hd]]]]]].
    apply is_in_doxy_iff in Hd. destruct Hd as [Hne [b [Hb Hab]]].
    apply in_map_iff in Hb. destruct Hb as [p [<- Hp]].
    apply in_map_iff in Hp. destruct Hp as [v [<- Hin]].
    exists v. cbv zeta. auto.
  - intros m Hinm. rewrite Hm in Hinm. rewrite Hv.
    unfold get_doxy_performance_metrics in Hinm. unfold get_doxy_visits.
    apply metrics_row_has_visits_row in Hinm.
    destruct Hinm as [v [Hin [Hn Hc]]]. exists v.
    split; [exact Hin|]. split; [exact Hn | lia].
Qed.

End ReportFacts.

Lemma report_stats_and_sheets_witness :
  exists rep tr doxy_df,
    matched_run = (Ok rep, tr)
    /\ read_file_as_dataframe no_codec no_codec no_codec
         (sample_io two_providers_frame) (upload "doxy.csv") 0 = Ok doxy_df
    /\ providers (stats rep) = List.length (doxy_visits rep)
    /\ total_visits (stats rep)
       = List.length
           (filter (fun r => match provider_name r with
                             | Some _ => not_excluded (provider_name r)
                             | None => false
                             end) (doxy_rows doxy_df))
    /\ sheets_count (stats rep) = 6
    /\ List.length (sheet_names rep) = 5.
Proof.
  destruct matched_run as [[rep|e] tr] eqn:E;
    [|vm_compute in E; discriminate E].
  exists rep, tr.
  destruct (report_stats_and_sheets no_codec no_codec no_codec
              (fun _ => Ok sample_account) (fun _ => [])
              (sample_io two_providers_frame) (sample_io sample_gusto_frame)
              (failing_io BookingFrame)
              (upload "doxy.csv") (upload "account.csv") (upload "gusto.csv")
              None rep tr E)
    as [doxy_df H].
  exists doxy_df. split; [reflexivity | exact H].
Defined.

Lemma report_tables_are_linked_witness :
  let doxy := {| doxy_columns := [str "Provider name"; str "Duration"];
                 doxy_rows := two_providers_log |} in
  exists rep tr,
    generate_report no_codec no_codec no_codec
      (fun _ => Ok sample_account) (fun _ => [])
      (sample_io doxy) (sample_io sample_gusto_frame)
      (failing_io BookingFrame)
      (upload "doxy.csv") (upload "account.csv") (upload "gusto.csv") None
    = (Ok rep, tr)
    /\ hours_worked rep <> []
    /\ forall row, In row (hours_worked rep) ->
         exists g m,
           In g (gusto_hours rep) /\ In m (performance_metrics rep)
           /\ hw_provider row = gh_name g
           /\ hw_gusto_hours row = gh_total_hours g
           /\ hw_total_visits row = pm_total_visits m
           /\ GetHoursWorked.normalize_name (Some (gh_name g))
              = GetHoursWorked.normalize_name (Some (pm_provider m)).
Proof.
  intros doxy.
  destruct (generate_report no_codec no_codec no_codec
              (fun _ => Ok sample_account) (fun _ => [])
              (sample_io doxy) (sample_io sample_gusto_frame)
              (failing_io BookingFrame)
              (upload "doxy.csv") (upload "account.csv") (upload "gusto.csv")
              None) as [[rep|e] tr] eqn:E;
    [|vm_compute in E; discriminate E].
  exists rep, tr. split; [reflexivity|]. split.
  - vm_compute in E. inversion E. discriminate.
  - apply (proj1 (report_tables_are_linked no_codec no_codec no_codec
                    (fun _ => Ok sample_account) (fun _ => [])
                    (sample_io doxy) (sample_io sample_gusto_frame)
                    (failing_io BookingFrame)
                    (upload "doxy.csv") (upload "account.csv")
                    (upload "gusto.csv") None rep tr E)).
Defined.

(** ** Upload validation *)

Lemma size_mb_le (file_obj : FileStorage) (m : Z) :
  (size_mb file_obj <= inject_Z m)%Q
  <-> (Z.of_nat (tell_end file_obj) <= m * 1048576)%Z.
Proof.
  unfold size_mb, Qdiv, Qle. cbn. split; lia.
Qed.

Lemma size_mb_zero (file_obj : FileStorage) :
  Qeq_bool (size_mb file_obj) 0 = true <-> tell_end file_obj = 0.
Proof.
  rewrite Qeq_bool_iff. unfold size_mb, Qdiv, Qeq. cbn. split; lia.
Qed.

Lemma Qltb_false (a b : Q) : Qltb a b = false <-> (b <= a)%Q.
Proof.
  split.
  - intros H. apply Qnot_lt_le. intros Hlt. apply Qltb_lt in Hlt. congruence.
  - intros H. destruct (Qltb a b) eqn:E; [|reflexivity].
    apply Qltb_lt in E. exfalso. apply (Qlt_not_le _ _ E H).
Qed.

(** X16.  [validate_file] accepts an upload exactly when its name, in any
    case, ends with one of the configured extensions and its size is
    positive and at most the configured number of MiB; an upload cannot be
    reported both empty and too large, so there are at most two
    messages. *)
Theorem validate_file_accepts (file_obj : FileStorage) (config : FileConfig) :
  (validate_file file_obj config = [] <->
   existsb (fun ext => ends_with (lower (filename file_obj)) ext)
           (extensions config) = true
   /\ 0 < tell_end file_obj
   /\ (Z.of_nat (tell_end file_obj) <= max_size_mb config * 1048576)%Z)
  /\ ((0 <= max_size_mb config)%Z ->
      List.length (validate_file file_obj config) <= 2).
Proof.
  unfold validate_file. split.
  - destruct (existsb _ (extensions config)) eqn:Ee; cbn [negb app].
    + destruct (Qltb (inject_Z (max_size_mb config)) (size_mb file_obj)) eqn:El;
        cbn [app].
      * split; [discriminate|]. intros [_ [_ H]].
        apply size_mb_le, Qltb_false in H. congruence.
      * apply Qltb_false, size_mb_le in El.
        destruct (Qeq_bool (size_mb file_obj) 0) eqn:Ez.
        -- split; [discriminate|]. intros [_ [H _]].
           apply size_mb_zero in Ez. lia.
        -- split; [|reflexivity]. intros _. split; [reflexivity|].
           split; [|exact El].
           destruct (tell_end file_obj) eqn:Et; [|lia].
           assert (Hz : Qeq_bool (size_mb file_obj) 0 = true)
             by (apply size_mb_zero; exact Et).
           congruence.
    + split; [discriminate | intros [H _]; discriminate].
  - intros Hmax.
    destruct (Qltb (inject_Z (max_size_mb config)) (size_mb file_obj)) eqn:El;
      destruct (Qeq_bool (size_mb file_obj) 0) eqn:Ez;
      destruct (negb (existsb _ (extensions config)));
      cbn [app List.length]; try lia.
    exfalso. apply size_mb_zero in Ez.
    assert (H : (size_mb file_obj <= inject_Z (max_size_mb config))%Q).
    { apply size_mb_le. lia. }
    apply Qltb_false in H. congruence.
Qed.

Lemma validate_file_accepts_witness :
  validate_file (one_byte_upload "Doxy.CSV")
    {| config_name := str "Doxy Report";
       extensions := [str ".csv"; str ".xls"; str ".xlsx"];
       required_columns := Some [str "Provider name"; str "Duration"];
       max_size_mb := 10 |} = []
  /\ List.length
       (validate_file (upload "notes.txt")
          {| config_name := str "Doxy Report";
             extensions := [str ".csv"; str ".xls"; str ".xlsx"];
             required_columns := Some [str "Provider name"; str "Duration"];
             max_size_mb := 10 |}) <= 2.
Proof.
  split.
  - apply (proj1 (validate_file_accepts _ _)).
    split; [reflexivity|]. split; [vm_compute; lia | vm_compute; discriminate].
  - apply (proj2 (validate_file_accepts _ _)). cbn. lia.
Defined.

(** ** The error lines shown after a failed run *)

Lemma join_cons (sep f g : text) (l : list text) :
  join sep (f :: g :: l) = f ++ sep ++ join sep (g :: l).
Proof. reflexivity. Qed.

(** X17.  The errors that [generate_report] joins with newlines into one
    message come back, one flashed line each and in the same order, from
    the split in [index], provided no error text contains a newline
    itself. *)
Theorem flashed_lines_round_trip (errors : list text) :
  errors <> [] ->
  Forall (fun e => free_of "010"%char e = true) errors ->
  flashed_lines errors = errors.
Proof.
  unfold flashed_lines. intros Hne Hf.
  induction errors as [|f l IH]; [congruence|].
  inversion Hf as [|? ? Hfree Hl]; subst.
  destruct l as [|g l].
  - cbn [join]. apply split_on_free, Hfree.
  - rewrite join_cons. cbn [app].
    rewrite (split_on_app _ _ _ Hfree). f_equal.
    apply IH; [discriminate | exact Hl].
Qed.

Lemma flashed_lines_round_trip_witness :
  flashed_lines [str "Doxy Report missing 'Provider name' column";
                 str "Doxy Report missing 'Duration' column"]
  = [str "Doxy Report missing 'Provider name' column";
     str "Doxy Report missing 'Duration' column"].
Proof.
  apply flashed_lines_round_trip; [discriminate|].
  repeat constructor.
Defined.

(** ** The route [index] *)

Lemma bind_ok {A B : Type} (m : result A) (f : A -> result B) (b : B) :
  bind m f = Ok b -> exists a, m = Ok a /\ f a = Ok b.
Proof. destruct m as [a|e]; simpl; [eauto | discriminate]. Qed.

Lemma file_config_known (file_name : text) :
  In file_name FILE_FIELDS -> exists config, file_config file_name = Ok config.
Proof.
  intros [<- | [<- | [<- | [<- | []]]]]; eexists; reflexivity.
Qed.

Lemma uploaded_in_files (request : Request) (file_name : text)
  (f : FileStorage) :
  uploaded request file_name = Some f ->
  dict_get (files request) file_name = Some f /\ filename f <> [].
Proof.
  unfold uploaded. destruct (dict_get (files request) file_name) as [g|];
    [|discriminate].
  destruct (text_eqb (filename g) []) eqn:E; [discriminate|].
  intros H. inversion H; subst. split; [reflexivity|].
  apply text_eqb_neq, E.
Qed.

Lemma missing_names_total (request : Request) (names : list text) :
  (forall n, In n names -> In n FILE_FIELDS) ->
  exists l, missing_names request names = Ok l
            /\ (l = [] <-> forall n, In n names -> uploaded request n <> None).
Proof.
  induction names as [|n names IH]; intros Hk.
  - exists []. split; [reflexivity|]. split; [intros _ n [] | reflexivity].
  - destruct IH as [l [El Hl]]; [intros m Hm; apply Hk; right; exact Hm|].
    cbn [missing_names]. rewrite El.
    destruct (uploaded request n) as [f|] eqn:Eu; cbn [bind app].
    + exists l. split; [reflexivity|]. rewrite Hl. split.
      * intros H m [<- | Hm]; [congruence | apply H, Hm].
      * intros H m Hm. apply H. right. exact Hm.
    + destruct (file_config_known n (Hk n (or_introl eq_refl))) as [cfg ->].
      cbn [bind app]. exists (config_name cfg :: l).
      split; [reflexivity|]. split; [discriminate|].
      intros H. exfalso. apply (H n (or_introl eq_refl)). exact Eu.
Qed.

Lemma prefixed_errors_nil (file_name : text) (f : FileStorage) :
  prefixed_errors file_name f = Ok [] ->
  exists config, file_config file_name = Ok config
                 /\ validate_file f config = [].
Proof.
  unfold prefixed_errors. intros H. apply bind_ok in H.
  destruct H as [cfg [Ec H]]. exists cfg. split; [exact Ec|].
  inversion H as [Hm]. destruct (validate_file f cfg); [reflexivity | discriminate].
Qed.

Lemma required_messages_total (request : Request) (names : list text) :
  (forall n, In n names -> In n FILE_FIELDS) ->
  (forall n, In n names -> dict_get (files request) n <> None) ->
  exists l, required_messages request names = Ok l.
Proof.
  induction names as [|n names IH]; intros Hk Hf; [exists []; reflexivity|].
  destruct IH as [l El];
    [intros m Hm; apply Hk; right; exact Hm
    |intros m Hm; apply Hf; right; exact Hm|].
  cbn [required_messages]. rewrite El.
  destruct (dict_get (files request) n) as [f|] eqn:Ed;
    [|exfalso; apply (Hf n (or_introl eq_refl)); exact Ed].
  unfold prefixed_errors.
  destruct (file_config_known n (Hk n (or_introl eq_refl))) as [cfg ->].
  cbn [bind]. eexists. reflexivity.
Qed.

Lemma required_messages_nil (request : Request) (names : list text) :
  required_messages request names = Ok [] ->
  forall n, In n names ->
    exists f config,
      dict_get (files request) n = Some f
      /\ file_config n = Ok config /\ validate_file f config = [].
Proof.
  induction names as [|m names IH]; intros H n Hn; [destruct Hn|].
  cbn [required_messages] in H. apply bind_ok in H.
  destruct H as [here [Eh H]]. apply bind_ok in H.
  destruct H as [others [Eo H]]. inversion H as [Happ].
  apply app_eq_nil in Happ. destruct Happ as [-> ->].
  destruct Hn as [<- | Hn]; [|apply IH; assumption].
  destruct (dict_get (files request) m) as [f|]; [|discriminate].
  apply prefixed_errors_nil in Eh. destruct Eh as [cfg [Ec Ev]].
  exists f, cfg. auto.
Qed.

Lemma optional_messages_total (request : Request) (names : list text) :
  (forall n, In n names -> In n FILE_FIELDS) ->
  exists l, optional_messages request names = Ok l.
Proof.
  induction names as [|n names IH]; intros Hk; [exists []; reflexivity|].
  destruct IH as [l El]; [intros m Hm; apply Hk; right; exact Hm|].
  cbn [optional_messages]. rewrite El.
  destruct (uploaded request n) as [f|]; [|eexists; reflexivity].
  unfold prefixed_errors.
  destruct (file_config_known n (Hk n (or_introl eq_refl))) as [cfg ->].
  cbn [bind]. eexists. reflexivity.
Qed.

Lemma optional_messages_nil (request : Request) (names : list text) :
  optional_messages request names = Ok [] ->
  forall n f, In n names -> uploaded request n = Some f ->
    exists config, file_config n = Ok config /\ validate_file f config = [].
Proof.
  induction names as [|m names IH]; intros H n f Hn Hu; [destruct Hn|].
  cbn [optional_messages] in H. apply bind_ok in H.
  destruct H as [here [Eh H]]. apply bind_ok in H.
  destruct H as [others [Eo H]]. inversion H as [Happ].
  apply app_eq_nil in Happ. destruct Happ as [-> ->].
  destruct Hn as [<- | Hn]; [|eapply IH; eassumption].
  rewrite Hu in Eh. apply prefixed_errors_nil, Eh.
Qed.




Section RouteFacts.

Variable decode_utf_16 decode_utf_8 decode_cp1252 : list Byte.byte -> option content.
Variable account_read_csv : content -> result CsvFrame.
Variable soup_find_all_tr : content -> list (list Td).
Variable doxy_io : Readers DoxyFrame.
Variable gusto_io : Readers GustoFrame.
Variable booking_io : Readers BookingFrame.
Variable strptime_ymd : text -> option (Z * Z).
Variable today : text.
Variable header_newline_message : text.

Abbreviation report :=
  (generate_report decode_utf_16 decode_utf_8 decode_cp1252
     account_read_csv soup_find_all_tr doxy_io gusto_io booking_io).
Abbreviation route :=
  (index decode_utf_16 decode_utf_8 decode_cp1252
     account_read_csv soup_find_all_tr doxy_io gusto_io booking_io
     strptime_ymd today header_newline_message).
Abbreviation disposition_of request :=
  (str "attachment; filename=" ++ "034"%char
   :: report_name strptime_ymd today request ++ str ".xlsx" ++ ["034"%char]).

Abbreviation outcome_response request outcome :=
  (try_outcome header_newline_message
     (report_name strptime_ymd today request) outcome).

Abbreviation REQUIRED :=
  [str "doxy_file"; str "account_file"; str "gusto_file"].

Lemma required_are_fields (n : text) : In n REQUIRED -> In n FILE_FIELDS.
Proof. simpl. tauto. Qed.

Lemma try_block (request : Request) (outcome : result Report) :
  match
    output <- outcome ;;
    send_workbook header_newline_message output
      (report_name strptime_ymd today request)
  with
  | Ok response => Ok response
  | Raise (ValueError errors) =>
      Ok (Redirect (map ErrorMessage (flashed_lines errors)))
  | Raise e => Ok (Redirect [UnexpectedError e])
  end = Ok (outcome_response request outcome).
Proof.
  destruct outcome as [output|e]; cbn [bind try_outcome].
  - unfold send_workbook. destruct (has_newline _); reflexivity.
  - destruct e; reflexivity.
Qed.

(** X18.  [index] never raises on a POST: the lookups of the uploads and
    of their configurations always succeed, because the check for missing
    uploads comes first.  It sends a workbook only when the three required
    uploads are present and pass [validate_file], the booking summary is
    absent or passes it too, [generate_report] succeeded on exactly those
    uploads and the file name of the attachment holds no newline; the two
    statistics headers are those of that report.  When a required upload
    is missing it flashes a single message and reads nothing further. *)
Theorem index_sends_workbook_only_when_valid (request : Request) :
  method request = str "POST" ->
  (exists response, route request = Ok response)
  /\ (forall workbook disposition providers_header visits_header,
        route request
        = Ok (Attachment workbook disposition providers_header visits_header) ->
        (forall n, In n REQUIRED ->
           exists f config,
             uploaded request n = Some f /\ file_config n = Ok config
             /\ validate_file f config = [])
        /\ (forall f, uploaded request (str "booking_file") = Some f ->
              exists config,
                file_config (str "booking_file") = Ok config
                /\ validate_file f config = [])
        /\ (exists doxy_file account_file gusto_file,
              uploaded request (str "doxy_file") = Some doxy_file
              /\ uploaded request (str "account_file") = Some account_file
              /\ uploaded request (str "gusto_file") = Some gusto_file
              /\ fst (report doxy_file account_file gusto_file
                        (uploaded request (str "booking_file")))
                 = Ok workbook)
        /\ disposition = disposition_of request
        /\ has_newline disposition = false
        /\ providers_header = str_int (Z.of_nat (providers (stats workbook)))
        /\ visits_header = str_int (Z.of_nat (total_visits (stats workbook))))
  /\ ((exists n, In n REQUIRED /\ uploaded request n = None) ->
      exists names,
        route request
        = Ok (Redirect [ErrorMessage (str "Missing required files: " ++ names)])).
Proof.
  intros Hpost. unfold index. rewrite Hpost.
  change (text_eqb (str "POST") (str "POST")) with true. cbv iota.
  destruct (missing_names_total request REQUIRED required_are_fields)
    as [missing [Em Hm]].
  rewrite Em. cbn [bind].
  destruct missing as [|m ms].
  - assert (Hup : forall n, In n REQUIRED -> uploaded request n <> None)
      by (apply Hm; reflexivity).
    assert (Hd : forall n, In n REQUIRED -> dict_get (files request) n <> None).
    { intros n Hn. specialize (Hup n Hn).
      destruct (uploaded request n) as [f|] eqn:Eu; [|congruence].
      apply uploaded_in_files in Eu. destruct Eu as [-> _]. discriminate. }
    destruct (required_messages_total request REQUIRED required_are_fields Hd)
      as [re Ere].
    destruct (optional_messages_total request [str "booking_file"]) as [oe Eoe].
    { intros n [<- | []]. simpl. tauto. }
    rewrite Ere, Eoe. cbn [bind].
    destruct (dict_get (files request) (str "doxy_file")) as [fd|] eqn:Efd;
      [|exfalso; apply (Hd (str "doxy_file")); simpl; tauto].
    destruct (dict_get (files request) (str "account_file")) as [fa|] eqn:Efa;
      [|exfalso; apply (Hd (str "account_file")); simpl; tauto].
    destruct (dict_get (files request) (str "gusto_file")) as [fg|] eqn:Efg;
      [|exfalso; apply (Hd (str "gusto_file")); simpl; tauto].
    assert (Hsame : forall n f, In n REQUIRED ->
              dict_get (files request) n = Some f ->
              uploaded request n = Some f).
    { intros n f Hn Ef. specialize (Hup n Hn). unfold uploaded in *.
      rewrite Ef in *. destruct (text_eqb (filename f) []); congruence. }
    rewrite try_block.
    split; [|split].
    + destruct (re ++ oe); eexists; reflexivity.
    + intros w cd ph vh H.
      destruct (re ++ oe) eqn:Eapp; [|discriminate].
      apply app_eq_nil in Eapp. destruct Eapp as [-> ->].
      destruct (fst (report fd fa fg (uploaded request (str "booking_file"))))
        as [w'|e] eqn:Er; cbn [try_outcome] in H;
        [|destruct e; discriminate].
      destruct (has_newline (disposition_of request)) eqn:En; [discriminate|].
      inversion H; subst. split; [|split; [|split; [|split; [|split; [|split]]]]].
      * intros n Hn.
        destruct (required_messages_nil request REQUIRED Ere n Hn)
          as [f [cfg [Ef [Ec Ev]]]].
        exists f, cfg. split; [apply Hsame; assumption | auto].
      * intros f Hu.
        apply (optional_messages_nil request [str "booking_file"] Eoe
                 (str "booking_file") f); [left; reflexivity | exact Hu].
      * exists fd, fa, fg.
        split; [apply Hsame; [simpl; tauto | exact Efd]|].
        split; [apply Hsame; [simpl; tauto | exact Efa]|].
        split; [apply Hsame; [simpl; tauto | exact Efg]|].
        exact Er.
      * reflexivity.
      * exact En.
      * reflexivity.
      * reflexivity.
    + intros [n [Hn Hu]]. exfalso.
      assert (Hall : forall k, In k REQUIRED -> uploaded request k <> None)
        by (apply Hm; reflexivity).
      apply (Hall n Hn), Hu.
  - split; [eexists; reflexivity|]. split; [intros w cd ph vh H; discriminate|].
    intros _. eexists. reflexivity.
Qed.


End RouteFacts.

(** The sample request is answered with the workbook of [matched_run]
    under the name ["Week 44.xlsx"]; a request without the payroll export
    is answered with one message. *)
Lemma index_sends_workbook_only_when_valid_witness :
  (exists workbook disposition providers_header visits_header,
     sample_index sample_request
     = Ok (Attachment workbook disposition providers_header visits_header)
     /\ (exists f config,
           uploaded sample_request (str "doxy_file") = Some f
           /\ file_config (str "doxy_file") = Ok config
           /\ validate_file f config = [])
     /\ has_newline disposition = false
     /\ providers_header = str "2" /\ visits_header = str "2")
  /\ (exists names,
        sample_index
          {| method := str "POST";
             files := [(str "doxy_file", one_byte_upload "doxy.csv")];
             form := [] |}
        = Ok (Redirect [ErrorMessage (str "Missing required files: " ++ names)])).
Proof.
  split.
  - destruct (sample_index sample_request) as [[fl|w cd ph vh|]|e] eqn:E;
      try (vm_compute in E; discriminate E).
    exists w, cd, ph, vh. split; [reflexivity|].
    destruct (proj1 (proj2 (index_sends_workbook_only_when_valid
                    no_codec no_codec no_codec
                    (fun _ => Ok sample_account) (fun _ => [])
                    (sample_io two_providers_frame) (sample_io sample_gusto_frame)
                    (failing_io BookingFrame) (fun _ => None) (str "11-04-2026")
                    NEWLINE_MESSAGE sample_request eq_refl)) w cd ph vh E)
      as [Hreq [_ [_ [_ [Hn [Hp Hv]]]]]].
    split; [apply (Hreq (str "doxy_file")); left; reflexivity|].
    split; [exact Hn|].
    vm_compute in E. inversion E; subst. split; reflexivity.
  - apply (proj2 (proj2 (index_sends_workbook_only_when_valid
                    no_codec no_codec no_codec
                    (fun _ => Ok sample_account) (fun _ => [])
                    (sample_io two_providers_frame) (sample_io sample_gusto_frame)
                    (failing_io BookingFrame) (fun _ => None) (str "11-04-2026")
                    NEWLINE_MESSAGE
                    {| method := str "POST";
                       files := [(str "doxy_file", one_byte_upload "doxy.csv")];
                       form := [] |} eq_refl))).
    exists (str "gusto_file"). split; [simpl; tauto | reflexivity].
Defined.

